(** * Probe-and-aggregate system: scanners, stats publisher, aggregators

    A shallow embedding of the Python sources
      - [vpn_scanner.py]                       (module [Scanner]),
      - [Servis/sers1.py]                      (module [Sers1]),
      - the snapshot writers of both           (module [Publisher]),
      - [aggregator.py]                        (module [Aggregator]),
      - [python_workers/aggregator_refactored.py] (module [AggregatorRefactored]),
    followed by the properties of the design document that are settled
    against them.

    Conventions.  Python [int] is [Z]; Python [float] (clock readings, rps)
    is an exact rational [Qc], so rounding, infinities and NaN are not
    modelled; [str] is [string], a sequence of characters with code
    points 0 to 255 (text with other characters is not described);
    [dict] is [gmap]; [set] is [gset].
    Asyncio tasks are cooperative: a task runs without interruption
    between two [await]s, so a run is an interleaving of atomic segments,
    chosen by a schedule. *)

From Stdlib Require Import ZArith QArith Qcanon String Ascii List Bool Lia.
From stdpp Require Import base option list gmap strings pretty.
Import ListNotations.

Local Open Scope string_scope.
Local Open Scope list_scope.

(* stdpp's set_solver clears hypotheses that may not exist. *)
#[local] Set Warnings "-clear-no-such-hyp".

(* ===================================================================== *)
(** * Python string primitives used by the sources *)
(* ===================================================================== *)

Module PyStr.

(** [s.startswith(p)] *)
Fixpoint startswith (s p : string) : bool :=
  match p, s with
  | EmptyString, _ => true
  | String a p', String b s' => if Ascii.eqb a b then startswith s' p' else false
  | String _ _, EmptyString => false
  end.

(** [needle in hay] on strings: some suffix of [hay] starts with [needle]. *)
Fixpoint contains (needle hay : string) : bool :=
  startswith hay needle ||
  match hay with
  | EmptyString => false
  | String _ hay' => contains needle hay'
  end.

(** [s.split(sep)] for a one-character separator: never returns the empty
    list; ["".split(";") = [""]]. *)
Fixpoint split (sep : ascii) (s : string) : list string :=
  match s with
  | EmptyString => [EmptyString]
  | String c s' =>
      if Ascii.eqb c sep then EmptyString :: split sep s'
      else match split sep s' with
           | [] => [String c EmptyString]
           | p :: ps => String c p :: ps
           end
  end.

(** [c.isspace()] on the characters below 256: TAB, LF, VT, FF, CR
    (9-13), FS, GS, RS, US, SPACE (28-32), NEL (U+0085, 133) and the
    no-break space (U+00A0, 160). These are the characters [strip]
    removes. *)
Definition isspace (c : ascii) : bool :=
  let n := nat_of_ascii c in
  ((9 <=? n)%nat && (n <=? 13)%nat) || ((28 <=? n)%nat && (n <=? 32)%nat)
  || (n =? 133)%nat || (n =? 160)%nat.

Fixpoint lstrip (s : string) : string :=
  match s with
  | EmptyString => EmptyString
  | String c s' => if isspace c then lstrip s' else s
  end.

(** Drop trailing whitespace: a character is kept when it is not a space or
    when something is kept after it. *)
Fixpoint rstrip (s : string) : string :=
  match s with
  | EmptyString => EmptyString
  | String c s' =>
      match rstrip s' with
      | EmptyString => if isspace c then EmptyString else String c EmptyString
      | r => String c r
      end
  end.

(** [s.strip()] *)
Definition strip (s : string) : string := rstrip (lstrip s).

(** Truth value of a string: [if s:] holds when [s] is not empty. *)
Definition truthy (s : string) : bool :=
  match s with EmptyString => false | _ => true end.

(** [s.replace(old, "")] for a non-empty [old]: scan left to right, dropping
    every non-overlapping occurrence of [old]. The fuel is the length of the
    string, which bounds the number of characters still to scan. *)
Fixpoint drop_chars (n : nat) (s : string) : string :=
  match n, s with
  | O, _ => s
  | S n', String _ s' => drop_chars n' s'
  | S _, EmptyString => EmptyString
  end.

Fixpoint remove_all_fuel (fuel : nat) (old s : string) : string :=
  match fuel with
  | O => s
  | S fuel' =>
      match s with
      | EmptyString => EmptyString
      | String c s' =>
          if startswith s old
          then remove_all_fuel fuel' old (drop_chars (String.length old) s)
          else String c (remove_all_fuel fuel' old s')
      end
  end.

Definition remove_all (old s : string) : string :=
  remove_all_fuel (String.length s) old s.

Fixpoint rev_onto (s acc : string) : string :=
  match s with
  | EmptyString => acc
  | String c s' => rev_onto s' (String c acc)
  end.

(** [s.endswith(p)]: compare from the end. *)
Definition endswith (s p : string) : bool :=
  startswith (rev_onto s EmptyString) (rev_onto p EmptyString).

(** [sep.join(parts)] *)
Fixpoint join (sep : string) (parts : list string) : string :=
  match parts with
  | [] => EmptyString
  | p :: rest =>
      match rest with
      | [] => p
      | _ :: _ => String.append p (String.append sep (join sep rest))
      end
  end.

(** No character of [s] is [c]. *)
Fixpoint free_of (c : ascii) (s : string) : bool :=
  match s with
  | EmptyString => true
  | String x s' => negb (Ascii.eqb x c) && free_of c s'
  end.

End PyStr.

(* ===================================================================== *)
(** * Python numbers and parsed JSON *)
(* ===================================================================== *)

Module PyJson.

Local Open Scope Qc_scope.

(** A Python number: [int] or [float]. *)
Inductive pynum :=
  | PInt (z : Z)
  | PFloat (q : Qc).

Definition to_Qc (n : pynum) : Qc :=
  match n with
  | PInt z => Qc_of_Z z
  | PFloat q => q
  end.

(** [a + b]: [int + int] is an [int], anything else a [float]. *)
Definition py_add (a b : pynum) : pynum :=
  match a, b with
  | PInt x, PInt y => PInt (x + y)
  | _, _ => PFloat (to_Qc a + to_Qc b)
  end.

(** [int(t)] on a float: truncation toward zero. *)
Definition py_int (t : Qc) : Z := Z.quot (Qnum t) (Zpos (Qden t)).

(** [a / b] on numbers: [ZeroDivisionError] is [None]. *)
Definition py_div (a b : Qc) : option Qc :=
  if bool_decide (b = 0) then None else Some (a / b).

(** A value stored under a key of a parsed JSON object, as far as the
    aggregators look at it: a number, a boolean (an [int] in arithmetic),
    or anything else ([None], a string, a list, a nested object), on which
    [+], [-] and [sum] raise [TypeError]. *)
Inductive jval :=
  | VNum (n : pynum)
  | VBool (b : bool)
  | VOther.

Definition as_num (v : jval) : option pynum :=
  match v with
  | VNum n => Some n
  | VBool b => Some (PInt (Z.b2z b))
  | VOther => None
  end.

(** [acc + v] with [acc] a number and [v] a JSON value. *)
Definition add_value (acc : pynum) (v : jval) : option pynum :=
  match as_num v with
  | Some n => Some (py_add acc n)
  | None => None
  end.

(** The result of [json.loads]: an object, on which [.get] works, or some
    other JSON document (list, number, string, null), on which [.get]
    raises [AttributeError]. *)
Inductive document :=
  | DObj (d : gmap string jval)
  | DOther.

(** Opening, reading and parsing one snapshot file. *)
Inductive read_result :=
  | Missing                 (* open or read raised *)
  | Malformed               (* json.loads raised *)
  | Parsed (doc : document).

(** [d.get(k, dflt)] *)
Definition get (d : gmap string jval) (k : string) (dflt : jval) : jval :=
  default dflt (d !! k).

(** ** Well-typed snapshots

    The snapshot writers store integers under the six counter keys and a
    number under [rps] (and, in the refactored scanner, under
    [timestamp]). A key may be missing; [.get] then supplies a default. *)

Definition COUNTER_KEYS : list string :=
  ["goods"; "bads"; "errors"; "offline"; "ipblock"; "processed"].

Definition int_or_absent (d : gmap string jval) (k : string) : bool :=
  match d !! k with
  | None | Some (VNum (PInt _)) => true
  | Some _ => false
  end.

Definition num_or_absent (d : gmap string jval) (k : string) : bool :=
  match d !! k with
  | None | Some (VNum _) => true
  | Some _ => false
  end.

Definition snapshot_ok (d : gmap string jval) : bool :=
  forallb (int_or_absent d) COUNTER_KEYS
  && num_or_absent d "rps" && num_or_absent d "timestamp".

(** The integer under [k], [0] when the key is missing. *)
Definition int_field (d : gmap string jval) (k : string) : Z :=
  match d !! k with
  | Some (VNum (PInt z)) => z
  | _ => 0
  end.

(** The number under [k] as a rational, [0] when the key is missing. *)
Definition num_field (d : gmap string jval) (k : string) : Qc :=
  match d !! k with
  | Some (VNum n) => to_Qc n
  | _ => 0
  end.

(** A file as the spec sorts them: missing, malformed, or a well-typed
    snapshot object. *)
Definition well_formed (r : read_result) : bool :=
  match r with
  | Missing | Malformed => true
  | Parsed (DObj d) => snapshot_ok d
  | Parsed DOther => false
  end.

(** The same, also allowing a JSON document that is not an object: the
    refactored aggregator passes over it like over a malformed file. *)
Definition well_typed (r : read_result) : bool :=
  match r with
  | Parsed (DObj d) => snapshot_ok d
  | _ => true
  end.

(** The snapshot a file yields in this cycle, if it is readable. *)
Definition snapshot_of (r : read_result) : option (gmap string jval) :=
  match r with
  | Parsed (DObj d) => Some d
  | _ => None
  end.

(** Sum of the integers under [k] over the readable snapshots. *)
Fixpoint sum_int (k : string) (rs : list read_result) : Z :=
  match rs with
  | [] => 0
  | r :: rest =>
      match snapshot_of r with
      | Some d => (int_field d k + sum_int k rest)%Z
      | None => sum_int k rest
      end
  end.

(** Sum of the numbers under [k] over the readable snapshots. *)
Fixpoint sum_num (k : string) (rs : list read_result) : Qc :=
  match rs with
  | [] => 0
  | r :: rest =>
      match snapshot_of r with
      | Some d => num_field d k + sum_num k rest
      | None => sum_num k rest
      end
  end.

(** [divmod(a, b)] on integers: floor division and its remainder, which
    has the sign of [b]. The sources divide by the literal [60]. *)
Definition divmod (a b : Z) : Z * Z := ((a / b)%Z, (a mod b)%Z).

(** [f"{z:02}"]: the decimal digits of [z], with a zero in front when
    there is one digit only; a minus sign counts for the width. *)
Definition two_digits (z : Z) : string :=
  if ((0 <=? z)%Z && (z <? 10)%Z)%bool then String.append "0" (pretty z) else pretty z.

End PyJson.

(* ===================================================================== *)
(** * Counting tasks *)
(* ===================================================================== *)

Module Tasks.

(** How many elements of [l] satisfy [p]. *)
Fixpoint count_if {A : Type} (p : A -> bool) (l : list A) : nat :=
  match l with
  | [] => O
  | x :: l' => ((if p x then 1 else 0) + count_if p l')%nat
  end.

End Tasks.

(* ===================================================================== *)
(** * vpn_scanner.py *)
(* ===================================================================== *)

Module Scanner.

Local Open Scope Z_scope.

(** ** Configuration tables *)

Definition SUPPORTED_VPN_TYPES : list string :=
  ["fortinet"; "paloalto"; "sonicwall"; "sophos"; "watchguard"; "cisco"].

(** The module-level dict [SUCCESS_INDICATORS], in source order. *)
Definition SUCCESS_INDICATORS : list (string * list string) :=
  [ ("fortinet",
      ["vpn/tunnel"; "/remote/fortisslvpn"; "tunnel_mode"; "sslvpn_login";
       "forticlient_download"; "portal.html"; "welcome.html"; "fgt_lang";
       "FortiGate"; "sslvpn_portal"; "logout"; "dashboard"; "web_access";
       "tunnel_access"]);
    ("paloalto",
      ["Download Windows 64 bit GlobalProtect agent"; "globalprotect/portal/css";
       "portal-userauthcookie"; "GlobalProtect Portal"; "gp-portal";
       "/global-protect/portal"; "PanGlobalProtect"; "clientDownload";
       "hip-report"; "portal-config"; "gateway-config"; "logout"; "welcome"]);
    ("sonicwall",
      ["SonicWall"; "NetExtender"; "sslvpn"; "portal.html"; "welcome"; "logout";
       "dashboard"; "tunnel"; "vpn-client"]);
    ("sophos",
      ["Sophos"; "userportal"; "myaccount"; "welcome"; "logout"; "portal";
       "dashboard"; "vpn-client"; "tunnel"]);
    ("watchguard",
      ["WatchGuard"; "Firebox"; "portal"; "welcome"; "logout"; "AuthPoint";
       "dashboard"; "tunnel"; "vpn-client"]);
    ("cisco",
      ["SSL VPN Service"; "webvpn_logout"; "/+CSCOE+/"; "webvpn_portal";
       "Cisco Systems VPN Client"; "/+webvpn+/"; "anyconnect"; "ANYCONNECT";
       "remote_access"]) ].

(** [SUCCESS_INDICATORS[vpn_type]]; the six keys are the supported types, so
    the lookup never fails on a type that passed the start-up check. *)
Fixpoint indicators_in (table : list (string * list string)) (vpn_type : string)
  : list string :=
  match table with
  | [] => []
  | (k, v) :: rest => if String.eqb k vpn_type then v else indicators_in rest vpn_type
  end.

Definition indicators (vpn_type : string) : list string :=
  indicators_in SUCCESS_INDICATORS vpn_type.

(** The literal list of [check_fortinet]'s redirect test (line 175). *)
Definition REDIRECT_MARKERS : list string :=
  ["portal"; "tunnel"; "sslvpn"; "welcome"; "dashboard"].

(** ** What a probe sees *)

(** The part of an aiohttp response the checks read: [response.status],
    [await response.text()], and the [Location] header when present. *)
Record response := {
  status : Z;
  text : string;
  location : option string
}.

(** [response.headers.get("Location", "")] *)
Definition header_location (r : response) : string :=
  match location r with Some l => l | None => "" end.

(** The status codes on which [session.post], called as in line 163
    without [allow_redirects], goes on to the address of the [Location]
    header instead of handing the response to the [async with] body
    (aiohttp follows redirects unless told otherwise). *)
Definition REDIRECT_STATUSES : list Z := [301; 302; 303; 307; 308].

(** A response that [session.post] can hand to a check: one with a
    redirect status is handed over only when there is no address to go
    on to, that is when its [Location] header is missing or empty. *)
Definition delivered (r : response) : bool :=
  if existsb (Z.eqb (status r)) REDIRECT_STATUSES
  then match header_location r with EmptyString => true | String _ _ => false end
  else true.

(** The body of [async with session.post(...) as response] in each
    [check_*] function. A [for] loop that returns [True] at the first hit is
    [existsb]. *)
Definition body_matches (vpn_type : string) (r : response) : bool :=
  existsb (fun indicator => PyStr.contains indicator (text r)) (indicators vpn_type).

Definition check_fortinet (r : response) : bool :=
  if (status r =? 200) && body_matches "fortinet" r then true
  else if ((status r =? 301) || (status r =? 302))
          && existsb (fun x => PyStr.contains x (header_location r)) REDIRECT_MARKERS
       then true
       else false.

Definition check_paloalto (r : response) : bool :=
  if (status r =? 200) && body_matches "paloalto" r then true else false.

Definition check_sonicwall (r : response) : bool :=
  if (status r =? 200) && body_matches "sonicwall" r then true else false.

Definition check_sophos (r : response) : bool :=
  if (status r =? 200) && body_matches "sophos" r then true else false.

Definition check_watchguard (r : response) : bool :=
  if (status r =? 200) && body_matches "watchguard" r then true else false.

Definition check_cisco (r : response) : bool :=
  if (status r =? 200) && body_matches "cisco" r then true else false.

(** The dispatch of [process_credential] (lines 391-426) on the response. *)
Definition check (vpn_type : string) (r : response) : bool :=
  if String.eqb vpn_type "fortinet" then check_fortinet r
  else if String.eqb vpn_type "paloalto" then check_paloalto r
  else if String.eqb vpn_type "sonicwall" then check_sonicwall r
  else if String.eqb vpn_type "sophos" then check_sophos r
  else if String.eqb vpn_type "watchguard" then check_watchguard r
  else if String.eqb vpn_type "cisco" then check_cisco r
  else false.

(** What happens before any request is sent, i.e. before
    [async with semaphore]: [true] when an exception is raised there.
    - fortinet, paloalto, sonicwall, sophos: [len(parts) < 3] raises
      [ValueError]; paloalto also evaluates [ip.split("//")[1]], an
      [IndexError] when the address starts with [http] and has no [//];
    - watchguard: fewer than 6 colon-separated parts; cisco: fewer than 4;
    - any other type: [ValueError("Unsupported VPN type")].
    All of these reach [except Exception] in [process_credential]. *)
Definition raises_before_request (vpn_type cred : string) : bool :=
  let parts := PyStr.split ";" cred in
  if String.eqb vpn_type "fortinet" || String.eqb vpn_type "sonicwall"
     || String.eqb vpn_type "sophos"
  then (length parts <? 3)%nat
  else if String.eqb vpn_type "paloalto"
  then (length parts <? 3)%nat
       || match parts with
          | ip :: _ => PyStr.startswith ip "http" && negb (PyStr.contains "//" ip)
          | [] => false
          end
  else if String.eqb vpn_type "watchguard"
  then (length (PyStr.split ":" cred) <? 6)%nat
  else if String.eqb vpn_type "cisco"
  then (length (PyStr.split ":" cred) <? 4)%nat
  else true.

(** ** Counters *)

(** The integer entries of the module-level dict [stats]; [rps] is written
    only by [update_stats] and is kept apart (see [Publisher]). *)
Record Stats := {
  goods : Z;
  bads : Z;
  errors : Z;
  offline : Z;
  ipblock : Z;
  processed : Z
}.

Definition stats0 : Stats :=
  {| goods := 0; bads := 0; errors := 0; offline := 0; ipblock := 0; processed := 0 |}.

Definition inc_goods (s : Stats) : Stats :=
  {| goods := goods s + 1; bads := bads s; errors := errors s;
     offline := offline s; ipblock := ipblock s; processed := processed s |}.
Definition inc_bads (s : Stats) : Stats :=
  {| goods := goods s; bads := bads s + 1; errors := errors s;
     offline := offline s; ipblock := ipblock s; processed := processed s |}.
Definition inc_errors (s : Stats) : Stats :=
  {| goods := goods s; bads := bads s; errors := errors s + 1;
     offline := offline s; ipblock := ipblock s; processed := processed s |}.
Definition inc_offline (s : Stats) : Stats :=
  {| goods := goods s; bads := bads s; errors := errors s;
     offline := offline s + 1; ipblock := ipblock s; processed := processed s |}.
Definition inc_processed (s : Stats) : Stats :=
  {| goods := goods s; bads := bads s; errors := errors s;
     offline := offline s; ipblock := ipblock s; processed := processed s + 1 |}.

(** [goods + bads + errors + offline + ipblock] *)
Definition outcome_sum (s : Stats) : Z :=
  goods s + bads s + errors s + offline s + ipblock s.

(** ** The environment of a run *)

(** The exceptions the two handlers of [process_credential] tell apart. *)
Inductive exn := TimeoutError | OtherException.

(** Outcome of the HTTP exchange of one item. [NetTimeout] is
    [asyncio.TimeoutError], re-raised by the check as [TimeoutError];
    [NetError] is any other exception, re-raised as [Exception]. *)
Inductive net_result :=
  | Response (r : response)
  | NetTimeout
  | NetError.

(** Outcome of [aiofiles.open(valid_file, "a")] followed by [f.write]. *)
Inductive append_result :=
  | AppendOk
  | AppendRaises (e : exn).

Record world := {
  vpn_type : string;            (* args.vpn_type *)
  threads : nat;                (* args.threads *)
  credentials : list string;
  net : nat -> net_result;      (* what the network does to item i *)
  append : nat -> append_result (* what the results log does to item i *)
}.

(** ** Tasks and the interleaving semantics *)

(** Where the task of one credential is suspended.
    - [Pending]: created by [asyncio.create_task], or waiting in
      [semaphore.acquire()];
    - [InFlight]: holds a slot, awaiting the response;
    - [Appending]: [stats["goods"]] already incremented, slot released,
      awaiting the append to the results log (lines 430-431);
    - [Done]: [process_credential] returned. *)
Inductive task := Pending | InFlight | Appending | Done.

Definition task_eqb (a b : task) : bool :=
  match a, b with
  | Pending, Pending | InFlight, InFlight | Appending, Appending | Done, Done => true
  | _, _ => false
  end.

Record state := {
  stats : Stats;
  sem : nat;                 (* the semaphore's internal value *)
  tasks : list task;
  valid : list string        (* lines appended to the results log *)
}.

Definition init (w : world) : state :=
  {| stats := stats0; sem := threads w;
     tasks := map (fun _ => Pending) (credentials w); valid := [] |}.

Definition set_task (i : nat) (t : task) (st : state) : state :=
  {| stats := stats st; sem := sem st; tasks := <[i := t]> (tasks st); valid := valid st |}.

Definition upd_stats (f : Stats -> Stats) (st : state) : state :=
  {| stats := f (stats st); sem := sem st; tasks := tasks st; valid := valid st |}.

(** Leaving [async with semaphore]: [release()] on every exit. *)
Definition release (st : state) : state :=
  {| stats := stats st; sem := S (sem st); tasks := tasks st; valid := valid st |}.

Definition log_valid (cred : string) (st : state) : state :=
  {| stats := stats st; sem := sem st; tasks := tasks st; valid := valid st ++ [cred] |}.

(** The two handlers of [process_credential] (lines 441-451). *)
Definition handle (e : exn) (st : state) : state :=
  match e with
  | TimeoutError => upd_stats inc_processed (upd_stats inc_offline st)
  | OtherException => upd_stats inc_processed (upd_stats inc_errors st)
  end.

(** One atomic segment of task [i]; [None] when the task cannot move
    (finished, unknown, or waiting for a free slot). *)
Definition step (w : world) (st : state) (i : nat) : option state :=
  match tasks st !! i, credentials w !! i with
  | Some Pending, Some cred =>
      if raises_before_request (vpn_type w) cred
      then Some (set_task i Done (handle OtherException st))
      else match sem st with
           | O => None
           | S n =>
               Some (set_task i InFlight
                       {| stats := stats st; sem := n; tasks := tasks st; valid := valid st |})
           end
  | Some InFlight, Some cred =>
      match net w i with
      | Response r =>
          if check (vpn_type w) r
          then Some (set_task i Appending (upd_stats inc_goods (release st)))
          else Some (set_task i Done
                       (upd_stats inc_processed (upd_stats inc_bads (release st))))
      | NetTimeout => Some (set_task i Done (handle TimeoutError (release st)))
      | NetError => Some (set_task i Done (handle OtherException (release st)))
      end
  | Some Appending, Some cred =>
      match append w i with
      | AppendOk => Some (set_task i Done (upd_stats inc_processed (log_valid cred st)))
      | AppendRaises e => Some (set_task i Done (handle e st))
      end
  | _, _ => None
  end.

(** A schedule names the task that runs next; a task that cannot move is
    skipped. Every interleaving of the event loop is some schedule. *)
Fixpoint run (w : world) (sched : list nat) (st : state) : state :=
  match sched with
  | [] => st
  | i :: rest =>
      match step w st i with
      | Some st' => run w rest st'
      | None => run w rest st
      end
  end.

(** The schedule that takes the tasks one after the other, each through
    its segments (at most three). *)
Definition sequential (n : nat) : list nat :=
  flat_map (fun i => [i; i; i]) (seq 0 n).

Definition count_task (t : task) (l : list task) : nat :=
  Tasks.count_if (fun x => task_eqb x t) l.

(** Number of probe HTTP requests executing now. *)
Definition in_flight (st : state) : nat := count_task InFlight (tasks st).

(** No item is between its first counter update and its return: every task
    is either not started or finished. *)
Definition quiescent (st : state) : bool :=
  forallb (fun t => task_eqb t Pending || task_eqb t Done) (tasks st).

(** [asyncio.gather] returned: every task is finished. *)
Definition completed (st : state) : bool :=
  forallb (fun t => task_eqb t Done) (tasks st).

(** What holds in every state a schedule can reach from [init]: slots are
    conserved, there is one task per credential, [ipblock] is untouched. *)
Definition reachable_inv (w : world) (st : state) : Prop :=
  (sem st + in_flight st = threads w)%nat
  /\ length (tasks st) = length (credentials w)
  /\ ipblock (stats st) = 0.

(** The item-level balance: an item whose [goods] is counted while its
    [processed] is not yet is a task awaiting its append. *)
Definition balanced (st : state) : Prop :=
  processed (stats st) + Z.of_nat (count_task Appending (tasks st))
  = outcome_sum (stats st).

(** ** Start-up (lines 29-46) *)

(** What the file system holds at [creds_file]:
    - [NoFile]: nothing ([os.path.exists] is false, line 41);
    - [Unreadable]: a path that exists and that [open] refuses (line 45);
    - [Undecodable]: a file that opens and whose iteration raises before
      its end (line 46): bytes that do not decode ([UnicodeDecodeError])
      or a read error;
    - [Lines ls]: a file iterated to its end, as lines (each with its
      line end). *)
Inductive creds_source :=
  | NoFile
  | Unreadable
  | Undecodable
  | Lines (ls : list string).

Inductive startup_result :=
  | Exit (code : Z)
  | Loaded (creds : list string).

(** [[line.strip() for line in f if line.strip() and not line.startswith("#")]] *)
Definition load_credentials (ls : list string) : list string :=
  map PyStr.strip
      (List.filter
         (fun line => PyStr.truthy (PyStr.strip line) && negb (PyStr.startswith line "#"))
         ls).

(** [sys.exit(1)] for an unsupported type or a missing file; [open] or the
    iteration raising is an uncaught exception at module level, which ends
    the interpreter with status 1. *)
Definition startup (vpn : string) (src : creds_source) (nthreads : Z) : startup_result :=
  if negb (existsb (String.eqb vpn) SUPPORTED_VPN_TYPES) then Exit 1
  else match src with
       | NoFile => Exit 1
       | Unreadable => Exit 1
       | Undecodable => Exit 1
       | Lines ls =>
           (* asyncio.Semaphore(args.threads) raises ValueError below 0 *)
           if nthreads <? 0 then Exit 1 else Loaded (load_credentials ls)
       end.

(** The run that follows a successful start-up. *)
Definition world_of (vpn : string) (nthreads : Z) (creds : list string)
    (net : nat -> net_result) (append : nat -> append_result) : world :=
  {| vpn_type := vpn; threads := Z.to_nat nthreads; credentials := creds;
     net := net; append := append |}.

(** [main] (lines 472-511) under the schedule [sched]: the tasks run;
    when [asyncio.gather] has returned (every task is done) the stats
    file is written a last time (lines 505-506) and [main] returns, so
    the interpreter exits with status 0; if the stats file cannot be
    written ([stats_writable = false]) the [OSError] is uncaught and the
    status is 1. Every per-item failure is caught in
    [process_credential]. [None]: with this schedule [gather] has not
    returned yet. *)
Definition main (w : world) (sched : list nat) (stats_writable : bool)
  : option (state * Z) :=
  let st := run w sched (init w) in
  if completed st then Some (st, if stats_writable then 0 else 1) else None.

(** Exit status of the whole script: the status of the start-up, or,
    after it, the status [main] ends with. *)
Definition exit_status (vpn : string) (src : creds_source) (nthreads : Z)
    (net : nat -> net_result) (append : nat -> append_result)
    (sched : list nat) (stats_writable : bool) : option Z :=
  match startup vpn src nthreads with
  | Exit c => Some c
  | Loaded creds =>
      snd <$> main (world_of vpn nthreads creds net append) sched stats_writable
  end.

(** ** The request of each check *)

(** The first lines of every [check_*] function (147-154, 186-193,
    224-231, 259-266, 305-312, 351-358): put [https://] in front of an
    address that does not start with [http], then append the login path
    unless the address already ends with it. [path] is the path without
    its leading slash, as in the branch [ip += "remote/login"]. *)
Definition login_url (path ip : string) : string :=
  let ip := if PyStr.startswith ip "http" then ip else String.append "https://" ip in
  if PyStr.endswith ip (String.append "/" path) then ip
  else if PyStr.endswith ip "/" then String.append ip path
       else String.append ip (String.append "/" path).

Definition fortinet_url : string -> string := login_url "remote/login".
Definition paloalto_url : string -> string := login_url "global-protect/login.esp".
Definition sonicwall_url : string -> string := login_url "auth.html".
Definition sophos_url : string -> string :=
  login_url "userportal/webpages/myaccount/login.jsp".
Definition watchguard_url : string -> string := login_url "auth.fcc".
Definition cisco_url : string -> string := login_url "+webvpn+/index.html".

(** What [check_watchguard] posts: the URL and the form [data]. *)
Record watchguard_request := {
  wg_url : string;
  wg_domain : string;
  wg_username : string;
  wg_password : string;
  wg_authType : string
}.

(** [check_watchguard], lines 295-320; [process_credential] passes the
    whole line as [ip] and the empty string as [password]. [None] is the
    [ValueError] of line 297. *)
Definition watchguard_parse (ip password : string) : option watchguard_request :=
  match PyStr.split ":" ip with
  | p0 :: p1 :: p2 :: p3 :: p4 :: p5 :: rest =>
      let ip_port :=
        String.append p0 (String.append ":" (String.append p1 (String.append ":" p2))) in
      let auth_type := p3 in
      let domain := p4 in
      let username := p5 in
      let password := match rest with p6 :: _ => p6 | [] => password end in
      Some {| wg_url := watchguard_url ip_port; wg_domain := domain;
              wg_username := username; wg_password := password;
              wg_authType := auth_type |}
  | _ => None
  end.

(** What [check_cisco] posts. *)
Record cisco_request := {
  cs_url : string;
  cs_username : string;
  cs_password : string;
  cs_group_list : string
}.

(** [check_cisco], lines 342-365; [None] is the [ValueError] of line 344. *)
Definition cisco_parse (ip group : string) : option cisco_request :=
  match PyStr.split ":" ip with
  | p0 :: p1 :: p2 :: p3 :: rest =>
      let ip_port := String.append p0 (String.append ":" p1) in
      let username := p2 in
      let password := p3 in
      let group := match rest with p4 :: _ => p4 | [] => group end in
      Some {| cs_url := cisco_url ip_port; cs_username := username;
              cs_password := password; cs_group_list := group |}
  | _ => None
  end.

End Scanner.

(* ===================================================================== *)
(** * Servis/sers1.py *)
(* ===================================================================== *)

Module Sers1.

Local Open Scope Z_scope.

(** Outcome of the HTTP exchange: a response, [asyncio.TimeoutError],
    [aiohttp.ClientConnectionError], or any other exception. *)
Inductive net_result :=
  | Response (r : Scanner.response)
  | NetTimeout
  | NetConnectionError
  | NetError.

Record world := {
  threads : nat;                          (* THREADS, from config.txt *)
  combos : list string;                   (* the non-empty stripped lines *)
  net : nat -> net_result;
  append : nat -> Scanner.append_result
}.

(** Where [worker] is suspended. [processed] is incremented before the
    slot is requested, so a task can wait with its item already counted
    as processed ([Waiting]); the append to [valid.txt] happens inside
    [async with SEM], so [Appending] still holds the slot. [Failed]: the
    unpacking [ip, login, pwd = combo.split(';')] raised [ValueError],
    which is outside the [try] and ends the task with no counter touched
    (the model stops there: what [asyncio.gather] then cancels is not
    described). A [TimeoutError] raised by the append is caught by
    [except asyncio.TimeoutError], the same class since Python 3.11. *)
Inductive task := Pending | Waiting | InFlight | Appending | Done | Failed.

Definition task_eqb (a b : task) : bool :=
  match a, b with
  | Pending, Pending | Waiting, Waiting | InFlight, InFlight
  | Appending, Appending | Done, Done | Failed, Failed => true
  | _, _ => false
  end.

Record state := {
  stats : Scanner.Stats;     (* the counters of the dict [stats] *)
  sem : nat;
  tasks : list task;
  valid : list string
}.

Definition init (w : world) : state :=
  {| stats := Scanner.stats0; sem := threads w;
     tasks := map (fun _ => Pending) (combos w); valid := [] |}.

Definition set_task (i : nat) (t : task) (st : state) : state :=
  {| stats := stats st; sem := sem st; tasks := <[i := t]> (tasks st); valid := valid st |}.

Definition upd_stats (f : Scanner.Stats -> Scanner.Stats) (st : state) : state :=
  {| stats := f (stats st); sem := sem st; tasks := tasks st; valid := valid st |}.

Definition release (st : state) : state :=
  {| stats := stats st; sem := S (sem st); tasks := tasks st; valid := valid st |}.

Definition log_valid (combo : string) (st : state) : state :=
  {| stats := stats st; sem := sem st; tasks := tasks st; valid := valid st ++ [combo] |}.

(** [async with SEM]: take a slot now, or wait. *)
Definition acquire (i : nat) (st : state) : state :=
  match sem st with
  | O => set_task i Waiting st
  | S n => set_task i InFlight
             {| stats := stats st; sem := n; tasks := tasks st; valid := valid st |}
  end.

(** [resp.status==200 and 'vpn/tunnel' in txt] *)
Definition accepted (r : Scanner.response) : bool :=
  (Scanner.status r =? 200) && PyStr.contains "vpn/tunnel" (Scanner.text r).

Definition step (w : world) (st : state) (i : nat) : option state :=
  match tasks st !! i, combos w !! i with
  | Some Pending, Some combo =>
      if (length (PyStr.split ";" combo) =? 3)%nat
      then Some (acquire i (upd_stats Scanner.inc_processed st))
      else Some (set_task i Failed st)
  | Some Waiting, Some combo =>
      match sem st with
      | O => None
      | S _ => Some (acquire i st)
      end
  | Some InFlight, Some combo =>
      match net w i with
      | Response r =>
          if accepted r
          then Some (set_task i Appending (upd_stats Scanner.inc_goods st))
          else Some (set_task i Done (upd_stats Scanner.inc_bads (release st)))
      | NetTimeout | NetConnectionError =>
          Some (set_task i Done (upd_stats Scanner.inc_offline (release st)))
      | NetError =>
          Some (set_task i Done (upd_stats Scanner.inc_errors (release st)))
      end
  | Some Appending, Some combo =>
      match append w i with
      | Scanner.AppendOk => Some (set_task i Done (release (log_valid combo st)))
      | Scanner.AppendRaises Scanner.TimeoutError =>
          Some (set_task i Done (upd_stats Scanner.inc_offline (release st)))
      | Scanner.AppendRaises Scanner.OtherException =>
          Some (set_task i Done (upd_stats Scanner.inc_errors (release st)))
      end
  | _, _ => None
  end.

Fixpoint run (w : world) (sched : list nat) (st : state) : state :=
  match sched with
  | [] => st
  | i :: rest =>
      match step w st i with
      | Some st' => run w rest st'
      | None => run w rest st
      end
  end.

Definition count_task (t : task) (l : list task) : nat :=
  Tasks.count_if (fun x => task_eqb x t) l.

(** No worker is between [processed += 1] and its outcome counter. *)
Definition quiescent (st : state) : bool :=
  forallb (fun t => task_eqb t Pending || task_eqb t Done || task_eqb t Failed) (tasks st).

(** [processed] runs ahead of the outcome counters by the items that are
    waiting for a slot or in flight. *)
Definition balanced (st : state) : Prop :=
  Scanner.processed (stats st)
  = Scanner.outcome_sum (stats st)
    + Z.of_nat (count_task Waiting (tasks st) + count_task InFlight (tasks st)).

End Sers1.

(* ===================================================================== *)
(** * Publishing the snapshot file *)
(* ===================================================================== *)

Module Publisher.

Import PyJson.

(** What a writer does to the directory, one system call at a time. *)
Inductive fs_op :=
  | OpenTrunc (p : string)            (* open(p, "w"): create or empty *)
  | WriteText (p : string) (t : string) (* the buffered text reaches the file *)
  | Replace (src dst : string).       (* rename src over dst, in one step *)

(** The directory as the operating system shows it to another process:
    path to content. *)
Definition apply_op (fs : gmap string string) (op : fs_op) : gmap string string :=
  match op with
  | OpenTrunc p => <[p := ""]> fs
  | WriteText p t =>
      match fs !! p with
      | Some c => <[p := String.append c t]> fs
      | None => fs
      end
  | Replace src dst =>
      match fs !! src with
      | Some c => <[dst := c]> (delete src fs)
      | None => fs
      end
  end.

(** Every state of the directory while the operations run, the first
    included: a reader may look at any of them. *)
Fixpoint states (fs : gmap string string) (ops : list fs_op) : list (gmap string string) :=
  match ops with
  | [] => [fs]
  | op :: rest => fs :: states (apply_op fs op) rest
  end.

(** What a reader polling [path] can get. *)
Definition observations (fs : gmap string string) (ops : list fs_op) (path : string)
  : list (option string) :=
  map (fun s => s !! path) (states fs ops).

(** vpn_scanner.py, [update_stats], lines 462-463:
    [with open(stats_file, "w") as f: json.dump(stats, f)]. *)
Definition update_stats_write (stats_file text : string) : list fs_op :=
  [OpenTrunc stats_file; WriteText stats_file text].

(** sers1.py, [dump_stats], lines 55-57: [STATS_PATH] is
    [<dir>/stats_<pid>.json], written here as [base] followed by [.json];
    [with_suffix('.tmp')] gives [base] followed by [.tmp]. *)
Definition STATS_PATH (base : string) : string := String.append base ".json".

Definition dump_stats_write (base text : string) : list fs_op :=
  let tmp := String.append base ".tmp" in
  [OpenTrunc tmp; WriteText tmp text; Replace tmp (STATS_PATH base)].

(** The dict vpn_scanner.py serialises with [json.dump(stats, f)]: the
    seven keys of [stats] (lines 49-57). *)
Definition scanner_snapshot (s : Scanner.Stats) (rps : pynum) : gmap string jval :=
  <["goods" := VNum (PInt (Scanner.goods s))]>
  (<["bads" := VNum (PInt (Scanner.bads s))]>
  (<["errors" := VNum (PInt (Scanner.errors s))]>
  (<["offline" := VNum (PInt (Scanner.offline s))]>
  (<["ipblock" := VNum (PInt (Scanner.ipblock s))]>
  (<["processed" := VNum (PInt (Scanner.processed s))]>
  (<["rps" := VNum rps]> ∅)))))).

(** vpn_scanner.py, [update_stats], lines 457-459: the new value of
    [stats["rps"]]; [rps] is the value it had, the integer [0] at first. *)
Definition update_stats_rps (start_time now : Qc) (processed : Z) (rps : pynum) : pynum :=
  let elapsed := (now - start_time)%Qc in
  if bool_decide (0 < elapsed)%Qc then PFloat (Qc_of_Z processed / elapsed)%Qc else rps.

End Publisher.

(* ===================================================================== *)
(** * aggregator.py *)
(* ===================================================================== *)

Module Aggregator.

Import PyJson.
Local Open Scope Qc_scope.

(** One worker host in one cycle: the SSH connection or the directory
    listing fails, or the listing gives file names with what reading each
    one yields. *)
Inductive host :=
  | Unreachable
  | Listing (files : list (string * read_result)).

(** [collect]: the parsed documents of the files named [stats_*.json];
    a file that cannot be read or parsed is passed over (inner [except]),
    a host that cannot be reached gives the empty list (outer [except]). *)
Fixpoint collect_files (files : list (string * read_result)) : list document :=
  match files with
  | [] => []
  | (fname, r) :: rest =>
      if PyStr.startswith fname "stats_" && PyStr.endswith fname ".json"
      then match r with
           | Parsed doc => doc :: collect_files rest
           | Missing | Malformed => collect_files rest
           end
      else collect_files rest
  end.

Definition collect (h : host) : list document :=
  match h with
  | Unreachable => []
  | Listing files => collect_files files
  end.

(** [sum(s.get(k,0) for s in stats_all)], accumulating from the left;
    [None] when [.get] or [+] raises. *)
Fixpoint sum_get (k : string) (acc : pynum) (stats_all : list document) : option pynum :=
  match stats_all with
  | [] => Some acc
  | DOther :: _ => None
  | DObj d :: rest =>
      match add_value acc (get d k (VNum (PInt 0))) with
      | Some acc' => sum_get k acc' rest
      | None => None
      end
  end.

Definition tot (stats_all : list document) (k : string) : option pynum :=
  sum_get k (PInt 0) stats_all.

(** What reading the files named [stats_*.json] on the hosts yields, in
    the order [main] visits them. *)
Definition host_reads (h : host) : list read_result :=
  match h with
  | Unreachable => []
  | Listing files =>
      map snd (List.filter (fun nr => PyStr.startswith (fst nr) "stats_"
                                 && PyStr.endswith (fst nr) ".json") files)
  end.

Definition reads (hosts : list host) : list read_result :=
  concat (map host_reads hosts).

(** The same hosts with the [rps] entry taken out of every snapshot. *)
Definition forget_rps_doc (r : read_result) : read_result :=
  match r with
  | Parsed (DObj d) => Parsed (DObj (delete "rps" d))
  | _ => r
  end.

Definition forget_rps (h : host) : host :=
  match h with
  | Unreachable => Unreachable
  | Listing files => Listing (map (fun nr => (fst nr, forget_rps_doc (snd nr))) files)
  end.

(** The numbers of one status line. *)
Record view := {
  v_goods : pynum;
  v_bads : pynum;
  v_errors : pynum;
  v_offline : pynum;
  v_ipblock : pynum;
  v_processed : pynum;
  v_percent : Qc;
  v_speed : Qc
}.

(** One turn of the [while True] loop of [main] (lines 66-77); [now] is the
    clock read for [speed]. [None]: an exception leaves the loop. *)
Definition cycle (start : Qc) (total_lines : Z) (hosts : list host) (now : Qc)
  : option view :=
  let stats_all := concat (map collect hosts) in
  processed ← tot stats_all "processed";
  per ← py_div (to_Qc processed) (Qc_of_Z total_lines);
  speed ← py_div (to_Qc processed) (now - start + Q2Qc (1 # 1000));
  g ← tot stats_all "goods";
  b ← tot stats_all "bads";
  e ← tot stats_all "errors";
  o ← tot stats_all "offline";
  k ← tot stats_all "ipblock";
  Some {| v_goods := g; v_bads := b; v_errors := e; v_offline := o; v_ipblock := k;
          v_processed := processed; v_percent := per * Qc_of_Z 100; v_speed := speed |}.

(** [main]: [start] is read once, before the loop; each cycle sees the
    hosts as they are then and its own clock reading. *)
Fixpoint main_loop (start : Qc) (total_lines : Z) (cycles : list (list host * Qc))
  : list view :=
  match cycles with
  | [] => []
  | (hosts, now) :: rest =>
      match cycle start total_lines hosts now with
      | Some v => v :: main_loop start total_lines rest
      | None => []
      end
  end.

(** ** The worker hosts and the status line *)

(** [creds] (lines 12-16) over the lines of [credentials.txt]: a line is
    stripped first, then passed over when it is empty or starts with [#];
    the others give the tuple of their stripped fields. *)
Definition creds (lines : list string) : list (list string) :=
  map (fun line => map PyStr.strip (PyStr.split ";" line))
      (List.filter (fun line => PyStr.truthy line && negb (PyStr.startswith line "#"))
         (map PyStr.strip lines)).

(** [for ip,user,secret in hosts] (line 67): a tuple that does not have
    three fields raises [ValueError], which nothing catches. *)
Definition unpack3 (t : list string) : option (string * string * string) :=
  match t with
  | [a; b; c] => Some (a, b, c)
  | _ => None
  end.

(** [human] (lines 46-49): hours, minutes and seconds of [int(sec)]. *)
Definition human_fields (sec : Qc) : Z * Z * Z :=
  let '(m, s) := divmod (py_int sec) 60 in
  let '(h, m) := divmod m 60 in
  (h, m, s).

Definition human (sec : Qc) : string :=
  let '(h, m, s) := human_fields sec in
  String.append (two_digits h)
    (String.append ":" (String.append (two_digits m) (String.append ":" (two_digits s)))).


End Aggregator.

(* ===================================================================== *)
(** * python_workers/aggregator_refactored.py *)
(* ===================================================================== *)

Module AggregatorRefactored.

Import PyJson.
Local Open Scope Qc_scope.

(** [@dataclass AggregatedStats] *)
Record AggregatedStats := {
  goods : pynum;
  bads : pynum;
  errors : pynum;
  offline : pynum;
  ipblock : pynum;
  processed : pynum;
  rps : pynum;
  servers : nat;
  active_servers : nat;
  start_time : Qc
}.

(** [AggregatedStats(start_time=t)]: the field defaults. *)
Definition fresh_stats (t : Qc) : AggregatedStats :=
  {| goods := PInt 0; bads := PInt 0; errors := PInt 0; offline := PInt 0;
     ipblock := PInt 0; processed := PInt 0; rps := PFloat 0;
     servers := 0; active_servers := 0; start_time := t |}.

(** [AggregatedStats.update_rps]: defined by the class; [collect_stats]
    and [run] never call it. [elapsed > 0] guards the division. *)
Definition update_rps (now : Qc) (st : AggregatedStats) : AggregatedStats :=
  let elapsed := now - start_time st in
  if bool_decide (0 < elapsed)
  then {| goods := goods st; bads := bads st; errors := errors st;
          offline := offline st; ipblock := ipblock st; processed := processed st;
          rps := PFloat (to_Qc (processed st) / elapsed);
          servers := servers st; active_servers := active_servers st;
          start_time := start_time st |}
  else st.

(** [@dataclass ServerStats]: the fields hold whatever the JSON object
    held (a dataclass does not check types). *)
Record ServerStats := {
  ip : string;
  s_goods : jval;
  s_bads : jval;
  s_errors : jval;
  s_offline : jval;
  s_ipblock : jval;
  s_processed : jval;
  s_rps : jval;
  timestamp : jval
}.

(** [ServerStats.from_dict]; [now] is the clock read for the default of
    [timestamp], [int(time.time())]. *)
Definition from_dict (ip : string) (data : gmap string jval) (now : Qc) : ServerStats :=
  {| ip := ip;
     s_goods := get data "goods" (VNum (PInt 0));
     s_bads := get data "bads" (VNum (PInt 0));
     s_errors := get data "errors" (VNum (PInt 0));
     s_offline := get data "offline" (VNum (PInt 0));
     s_ipblock := get data "ipblock" (VNum (PInt 0));
     s_processed := get data "processed" (VNum (PInt 0));
     s_rps := get data "rps" (VNum (PFloat 0));
     timestamp := get data "timestamp" (VNum (PInt (py_int now))) |}.

(** An aggregate whose six counters are the integers [g .. p] and whose
    [rps] is the float [r]. *)
Definition totals (g b e o i p : Z) (r : Qc) (sv av : nat) (t : Qc) : AggregatedStats :=
  {| goods := PInt g; bads := PInt b; errors := PInt e; offline := PInt o;
     ipblock := PInt i; processed := PInt p; rps := PFloat r;
     servers := sv; active_servers := av; start_time := t |}.

(** The counters [collect_stats] accumulates, in the order of lines
    152-158. *)
Inductive counter := Goods | Bads | Errors | Offline | Ipblock | Processed | Rps.

Definition COUNTERS : list counter :=
  [Goods; Bads; Errors; Offline; Ipblock; Processed; Rps].

Definition total (c : counter) (st : AggregatedStats) : pynum :=
  match c with
  | Goods => goods st | Bads => bads st | Errors => errors st
  | Offline => offline st | Ipblock => ipblock st | Processed => processed st
  | Rps => rps st
  end.

Definition field (c : counter) (ss : ServerStats) : jval :=
  match c with
  | Goods => s_goods ss | Bads => s_bads ss | Errors => s_errors ss
  | Offline => s_offline ss | Ipblock => s_ipblock ss | Processed => s_processed ss
  | Rps => s_rps ss
  end.

Definition set_total (c : counter) (v : pynum) (st : AggregatedStats) : AggregatedStats :=
  {| goods := match c with Goods => v | _ => goods st end;
     bads := match c with Bads => v | _ => bads st end;
     errors := match c with Errors => v | _ => errors st end;
     offline := match c with Offline => v | _ => offline st end;
     ipblock := match c with Ipblock => v | _ => ipblock st end;
     processed := match c with Processed => v | _ => processed st end;
     rps := match c with Rps => v | _ => rps st end;
     servers := servers st; active_servers := active_servers st;
     start_time := start_time st |}.

(** [self.stats.<c> += server_stats.<c>] for each counter in turn; a
    [TypeError] leaves the loop body, keeping what was already added. *)
Fixpoint add_counters (cs : list counter) (st : AggregatedStats) (ss : ServerStats)
  : AggregatedStats :=
  match cs with
  | [] => st
  | c :: rest =>
      match add_value (total c st) (field c ss) with
      | Some v => add_counters rest (set_total c v st) ss
      | None => st
      end
  end.

(** One file matched by [stats_dir.glob("stats_*.json")], with the two
    clock readings taken while it is handled. [stem] is the file name
    without [.json]. *)
Record stats_file := {
  stem : string;
  content : read_result;
  clock_from_dict : Qc;   (* time.time() in from_dict, line 83 *)
  clock_check : Qc        (* time.time() in the liveness test, line 148 *)
}.

(** [stats_file.stem.replace('stats_', '')] *)
Definition ip_of (f : stats_file) : string := PyStr.remove_all "stats_" (stem f).

(** [time.time() - server_stats.timestamp] *)
Definition age (now : Qc) (ts : jval) : option Qc :=
  match as_num ts with
  | Some n => Some (now - to_Qc n)
  | None => None
  end.

(** The liveness window, the literal [30] of line 148. *)
Definition LIVENESS_WINDOW : Qc := Qc_of_Z 30.

(** What one run of [collect_stats] carries through its loop. *)
Record loop_state := {
  l_stats : AggregatedStats;
  l_server_stats : gmap string ServerStats;
  l_active : gset string
}.

(** The body of the [for] loop: the [try] block of lines 134-158 with its
    [except Exception], which only logs. *)
Definition process_file (acc : loop_state) (f : stats_file) : loop_state :=
  match content f with
  | Missing | Malformed => acc
  | Parsed DOther => acc
  | Parsed (DObj data) =>
      let ip := ip_of f in
      let server_stats := from_dict ip data (clock_from_dict f) in
      let registry := <[ip := server_stats]> (l_server_stats acc) in
      match age (clock_check f) (timestamp server_stats) with
      | None =>
          {| l_stats := l_stats acc; l_server_stats := registry; l_active := l_active acc |}
      | Some a =>
          let active := if bool_decide (a < LIVENESS_WINDOW)
                        then {[ip]} ∪ l_active acc else l_active acc in
          {| l_stats := add_counters COUNTERS (l_stats acc) server_stats;
             l_server_stats := registry; l_active := active |}
      end
  end.

(** The aggregator object between two cycles: [self.stats] and
    [self.server_stats]. *)
Record aggregator := {
  stats : AggregatedStats;
  server_stats : gmap string ServerStats
}.

(** [StatsAggregator.__init__]; [now] is the clock read by the default
    factory of [start_time]. *)
Definition new_aggregator (now : Qc) : aggregator :=
  {| stats := fresh_stats now; server_stats := ∅ |}.

Definition collect_loop (a : aggregator) (files : list stats_file) : loop_state :=
  fold_left process_file files
    {| l_stats := fresh_stats (start_time (stats a));
       l_server_stats := server_stats a;
       l_active := ∅ |}.

(** ** Vocabulary for the properties *)

(** The file is read and parsed to an object in this cycle. *)
Definition is_snapshot (f : stats_file) : bool :=
  match snapshot_of (content f) with Some _ => true | None => false end.

(** The liveness test of line 148 succeeds on this file. *)
Definition is_active (f : stats_file) : bool :=
  match snapshot_of (content f) with
  | Some d =>
      match age (clock_check f) (timestamp (from_dict (ip_of f) d (clock_from_dict f))) with
      | Some a => bool_decide (a < LIVENESS_WINDOW)
      | None => false
      end
  | None => false
  end.

(** [collect_stats]: reset [self.stats] keeping [start_time], handle each
    file, then set [servers] and [active_servers]. *)
Definition collect_stats (a : aggregator) (files : list stats_file) : aggregator :=
  let l := collect_loop a files in
  let st := l_stats l in
  {| stats :=
       {| goods := goods st; bads := bads st; errors := errors st;
          offline := offline st; ipblock := ipblock st; processed := processed st;
          rps := rps st;
          servers := size (l_server_stats l);
          active_servers := size (l_active l);
          start_time := start_time st |};
     server_stats := l_server_stats l |}.

(** ** The output file and the log line *)

(** [AggregatedStats.to_dict] (lines 44-50): the fields without
    [start_time], with [timestamp] and [uptime]; [now1] and [now2] are the
    two clock readings. *)
Definition to_dict (st : AggregatedStats) (now1 now2 : Qc) : gmap string jval :=
  <["goods" := VNum (goods st)]>
  (<["bads" := VNum (bads st)]>
  (<["errors" := VNum (errors st)]>
  (<["offline" := VNum (offline st)]>
  (<["ipblock" := VNum (ipblock st)]>
  (<["processed" := VNum (processed st)]>
  (<["rps" := VNum (rps st)]>
  (<["servers" := VNum (PInt (Z.of_nat (servers st)))]>
  (<["active_servers" := VNum (PInt (Z.of_nat (active_servers st)))]>
  (<["timestamp" := VNum (PInt (py_int now1))]>
  (<["uptime" := VNum (PInt (py_int (now2 - start_time st)))]> ∅)))))))))).

(** [human_time] (lines 104-108). *)
Definition human_time (sec : Qc) : string :=
  let '(m, s) := divmod (py_int sec) 60 in
  let '(h, m) := divmod m 60 in
  String.append (two_digits h)
    (String.append ":" (String.append (two_digits m) (String.append ":" (two_digits s)))).

(** What a cycle leaves in [self.server_stats] under [key]: the record
    made from the last readable file whose name gives [key], or, when
    there is none, what was there before ([prev]). *)
Fixpoint stored (key : string) (files : list stats_file) (prev : option ServerStats)
  : option ServerStats :=
  match files with
  | [] => prev
  | f :: rest =>
      stored key rest
        match snapshot_of (content f) with
        | Some d =>
            if String.eqb (ip_of f) key
            then Some (from_dict (ip_of f) d (clock_from_dict f))
            else prev
        | None => prev
        end
  end.

(** The stats file of a worker running vpn_scanner.py, as the aggregator
    finds it: the dict of [Publisher.scanner_snapshot], read whole. *)
Definition dumped_by_scanner (stem : string) (s : Scanner.Stats) (rps : pynum)
    (clock_from_dict clock_check : Qc) : stats_file :=
  {| stem := stem; content := Parsed (DObj (Publisher.scanner_snapshot s rps));
     clock_from_dict := clock_from_dict; clock_check := clock_check |}.

End AggregatorRefactored.

(* ===================================================================== *)
(** * Concrete runs used by the examples below *)
(* ===================================================================== *)

Module Inputs.

Import PyJson.
Local Open Scope Z_scope.

(** ** Scanner *)

Definition accepted_page : Scanner.response :=
  {| Scanner.status := 200; Scanner.text := "<a href=/vpn/tunnel>";
     Scanner.location := None |}.

Definition too_many_requests : Scanner.response :=
  {| Scanner.status := 429; Scanner.text := "Too Many Requests";
     Scanner.location := None |}.

(** The login page again, after a refused login: status 200, no success
    indicator in the body. *)
Definition login_page_again : Scanner.response :=
  {| Scanner.status := 200; Scanner.text := "<form action=/remote/logincheck>";
     Scanner.location := None |}.

(** A redirect with nowhere to go: the only kind [session.post] hands
    over. *)
Definition redirect_without_location : Scanner.response :=
  {| Scanner.status := 302; Scanner.text := ""; Scanner.location := None |}.

(** One fortinet credential, [--threads 1], and what the network and the
    results log answer. *)
Definition one_item (r : Scanner.net_result) (a : Scanner.append_result) : Scanner.world :=
  {| Scanner.vpn_type := "fortinet"; Scanner.threads := 1;
     Scanner.credentials := ["1.1.1.1;user;pass"];
     Scanner.net := fun _ => r; Scanner.append := fun _ => a |}.

Definition world_append_fails : Scanner.world :=
  one_item (Scanner.Response accepted_page) (Scanner.AppendRaises Scanner.OtherException).

Definition world_rate_limited : Scanner.world :=
  one_item (Scanner.Response too_many_requests) Scanner.AppendOk.

Definition world_login_refused : Scanner.world :=
  one_item (Scanner.Response login_page_again) Scanner.AppendOk.

(** Three credentials over two slots; every probe times out. *)
Definition world_three_items : Scanner.world :=
  {| Scanner.vpn_type := "fortinet"; Scanner.threads := 2;
     Scanner.credentials := ["1.1.1.1;u;p"; "1.1.1.2;u;p"; "1.1.1.3;u;p"];
     Scanner.net := fun _ => Scanner.NetTimeout; Scanner.append := fun _ => Scanner.AppendOk |}.

Definition sers1_append_fails : Sers1.world :=
  {| Sers1.threads := 1;
     Sers1.combos := ["1.1.1.1;user;pass"];
     Sers1.net := fun _ => Sers1.Response accepted_page;
     Sers1.append := fun _ => Scanner.AppendRaises Scanner.OtherException |}.

(** A credentials file with a comment and a blank line, as the file
    iterator yields them: each line with its line feed. *)
Definition LF : string := String (ascii_of_nat 10) EmptyString.

Definition comment_lines : list string :=
  [String.append "# no credentials yet" LF; String.append "   " LF].

Definition comments_only : Scanner.creds_source := Scanner.Lines comment_lines.

(** ** Snapshot files *)

Definition quote : string := String (ascii_of_nat 34) EmptyString.

(** The texts [{"goods": 1}] and [{"goods": 2}]. *)
Definition old_text : string :=
  String.append "{" (String.append quote (String.append "goods" (String.append quote ": 1}"))).

Definition new_text : string :=
  String.append "{" (String.append quote (String.append "goods" (String.append quote ": 2}"))).

Definition directory : gmap string string :=
  <["stats_4242.json" := old_text]> ∅.

(** ** Aggregators *)

(** A snapshot as the refactored scanner writes it. *)
Definition worker_snapshot (g b p : Z) (r : Qc) (ts : Z) : gmap string jval :=
  <["goods" := VNum (PInt g)]>
  (<["bads" := VNum (PInt b)]>
  (<["processed" := VNum (PInt p)]>
  (<["rps" := VNum (PFloat r)]>
  (<["timestamp" := VNum (PInt ts)]> ∅)))).

(** A file handled when the clock shows 1000 seconds. *)
Definition file_at_1000 (stem : string) (c : read_result) : AggregatorRefactored.stats_file :=
  {| AggregatorRefactored.stem := stem; AggregatorRefactored.content := c;
     AggregatorRefactored.clock_from_dict := Qc_of_Z 1000;
     AggregatorRefactored.clock_check := Qc_of_Z 1000 |}.

(** Written 10 seconds and 60 seconds before the poll. *)
Definition recent : AggregatorRefactored.stats_file :=
  file_at_1000 "stats_10.0.0.1" (Parsed (DObj (worker_snapshot 3 7 10 (Qc_of_Z 5) 990))).

Definition old : AggregatorRefactored.stats_file :=
  file_at_1000 "stats_10.0.0.2" (Parsed (DObj (worker_snapshot 4 16 20 (Qc_of_Z 7) 940))).

(** The same first worker caught between two writes. *)
Definition recent_torn : AggregatorRefactored.stats_file :=
  file_at_1000 "stats_10.0.0.1" Malformed.

(** Five sources, two of them unreadable. *)
Definition five_sources : list AggregatorRefactored.stats_file :=
  [ recent;
    file_at_1000 "stats_10.0.0.3" Missing;
    old;
    file_at_1000 "stats_10.0.0.4" Malformed;
    file_at_1000 "stats_10.0.0.5" (Parsed (DObj (worker_snapshot 1 1 2 (Qc_of_Z 1) 999))) ].

(** A snapshot of the original scanner, read when the clock shows
    1000.6 s, the default timestamp having been taken at 1000.5 s. *)
Definition scanner_file : AggregatorRefactored.stats_file :=
  {| AggregatorRefactored.stem := "stats_4242";
     AggregatorRefactored.content :=
       Parsed (DObj (Publisher.scanner_snapshot
                       {| Scanner.goods := 1; Scanner.bads := 2; Scanner.errors := 0;
                          Scanner.offline := 0; Scanner.ipblock := 0;
                          Scanner.processed := 3 |}
                       (PFloat (Q2Qc (3 # 2)))));
     AggregatorRefactored.clock_from_dict := Q2Qc (2001 # 2);
     AggregatorRefactored.clock_check := Q2Qc (5003 # 5) |}.

(** Two worker hosts for aggregator.py, one of them unreachable. *)
Definition two_hosts : list Aggregator.host :=
  [ Aggregator.Listing
      [ ("stats_1.json", Parsed (DObj (worker_snapshot 3 7 10 (Qc_of_Z 5) 990)));
        ("stats_2.json", Malformed);
        ("config.txt", Malformed) ];
    Aggregator.Unreachable ].

(** Two cycles of aggregator.py's loop, at 1 s and 6 s after start. *)
Definition two_cycles : list (list Aggregator.host * Qc) :=
  [ (two_hosts, Qc_of_Z 1); (two_hosts, Qc_of_Z 6) ].

End Inputs.

(* ===================================================================== *)
(** * Proof automation *)
(* ===================================================================== *)

Module AR := AggregatorRefactored.
Module AG := Aggregator.
Module PB := Publisher.

Import PyJson.

(** Case analysis on one segment of a scanner task: [H] is
    [Scanner.step w st i = Some st'], [Ht] names the task's state. *)
Ltac step_cases H Ht :=
  unfold Scanner.step in H;
  match type of H with
  | context [Scanner.tasks ?st !! ?i] =>
      destruct (Scanner.tasks st !! i) as [[]|] eqn:Ht; try discriminate H
  end;
  match type of H with
  | context [Scanner.credentials ?w !! ?i] =>
      destruct (Scanner.credentials w !! i); try discriminate H
  end;
  repeat match type of H with
  | context [if ?b then _ else _] => destruct b
  | context [match Scanner.sem ?st with _ => _ end] => destruct (Scanner.sem st) eqn:?
  | context [match Scanner.net ?w ?i with _ => _ end] => destruct (Scanner.net w i) eqn:?
  | context [match Scanner.append ?w ?i with _ => _ end] =>
      destruct (Scanner.append w i) as [|[]] eqn:?
  end;
  try discriminate H;
  injection H as <-.

(** The same for a worker of sers1.py. *)
Ltac worker_cases H Ht :=
  unfold Sers1.step, Sers1.acquire in H;
  match type of H with
  | context [Sers1.tasks ?st !! ?i] =>
      destruct (Sers1.tasks st !! i) as [[]|] eqn:Ht; try discriminate H
  end;
  match type of H with
  | context [Sers1.combos ?w !! ?i] =>
      destruct (Sers1.combos w !! i); try discriminate H
  end;
  repeat match type of H with
  | context [if ?b then _ else _] => destruct b
  | context [match Sers1.sem ?st with _ => _ end] => destruct (Sers1.sem st) eqn:?
  | context [match Sers1.net ?w ?i with _ => _ end] => destruct (Sers1.net w i) eqn:?
  | context [match Sers1.append ?w ?i with _ => _ end] =>
      destruct (Sers1.append w i) as [|[]] eqn:?
  end;
  try discriminate H;
  injection H as <-.

(* ===================================================================== *)
(** * String primitives: sanity checks *)
(* ===================================================================== *)

Example split_three :
  PyStr.split ";" "1.1.1.1;user;pass" = ["1.1.1.1"; "user"; "pass"].
Proof. reflexivity. Qed.

Example split_empty : PyStr.split ";" "" = [""].
Proof. reflexivity. Qed.

Example split_watchguard :
  length (PyStr.split ":" "https://1.2.3.4:443:Firebox-DB:dom:user:pass") = 7%nat.
Proof. reflexivity. Qed.

Example strip_line :
  PyStr.strip (String " " (String (ascii_of_nat 9) (String.append "a b" (String (ascii_of_nat 10) ""))))
  = "a b".
Proof. reflexivity. Qed.

Example contains_mid : PyStr.contains "vpn/tunnel" "<a href=/vpn/tunnel>" = true.
Proof. reflexivity. Qed.

Example endswith_json :
  PyStr.endswith "stats_17.json" ".json" = true /\ PyStr.endswith "stats_17.tmp" ".json" = false.
Proof. split; reflexivity. Qed.

Example remove_all_stem : PyStr.remove_all "stats_" "stats_stats_10.0.0.1" = "10.0.0.1".
Proof. reflexivity. Qed.

Example load_credentials_keeps_indented_comment :
  Scanner.load_credentials ["a;b;c"; "#x"; "  #y"; ""] = ["a;b;c"; "#y"].
Proof. reflexivity. Qed.

Example py_int_truncates :
  py_int (Q2Qc (2001 # 2)) = 1000%Z /\ py_int (Q2Qc (- 7 # 2)) = (- 3)%Z.
Proof. split; reflexivity. Qed.

(* ===================================================================== *)
(** * Scanner: invariants of every interleaving *)
(* ===================================================================== *)

Lemma count_if_insert {A : Type} (p : A -> bool) (l : list A) (i : nat) (old new : A) :
  l !! i = Some old ->
  (Tasks.count_if p (<[i := new]> l) + (if p old then 1 else 0)
   = Tasks.count_if p l + (if p new then 1 else 0))%nat.
Proof.
  revert i. induction l as [|x l IH]; intros i Hi.
  - destruct i; discriminate.
  - destruct i as [|i]; simpl in *.
    + injection Hi as ->. lia.
    + specialize (IH i Hi). lia.
Qed.

Lemma count_task_insert (t : Scanner.task) (l : list Scanner.task) (i : nat)
    (old new : Scanner.task) :
  l !! i = Some old ->
  (Scanner.count_task t (<[i := new]> l) + (if Scanner.task_eqb old t then 1 else 0)
   = Scanner.count_task t l + (if Scanner.task_eqb new t then 1 else 0))%nat.
Proof.
  intros H. exact (count_if_insert (fun x => Scanner.task_eqb x t) l i old new H).
Qed.

Lemma count_task_all_pending (t : Scanner.task) (creds : list string) :
  t <> Scanner.Pending ->
  Scanner.count_task t (map (fun _ => Scanner.Pending) creds) = 0%nat.
Proof.
  intros Ht. unfold Scanner.count_task.
  induction creds as [|c creds IH]; simpl; [reflexivity|].
  rewrite IH. destruct t; simpl; congruence.
Qed.

Section ScannerRun.

Variable w : Scanner.world.

Lemma step_slots st st' i :
  Scanner.step w st i = Some st' ->
  (Scanner.sem st' + Scanner.in_flight st' = Scanner.sem st + Scanner.in_flight st)%nat.
Proof.
  intros H. step_cases H Ht; unfold Scanner.in_flight; simpl;
  match goal with
  | |- context [<[i := ?new]> _] =>
      pose proof (count_task_insert Scanner.InFlight _ _ _ new Ht) as Hc; simpl in Hc
  end; lia.
Qed.

Lemma step_length st st' i :
  Scanner.step w st i = Some st' ->
  length (Scanner.tasks st') = length (Scanner.tasks st).
Proof.
  intros H. step_cases H Ht; simpl; apply length_insert.
Qed.

Lemma step_ipblock st st' i :
  Scanner.step w st i = Some st' ->
  Scanner.ipblock (Scanner.stats st') = Scanner.ipblock (Scanner.stats st).
Proof.
  intros H. step_cases H Ht; reflexivity.
Qed.

Lemma init_inv : Scanner.reachable_inv w (Scanner.init w).
Proof.
  unfold Scanner.reachable_inv, Scanner.in_flight; simpl.
  rewrite count_task_all_pending by discriminate.
  rewrite length_map. auto with zarith.
Qed.

Lemma step_inv st st' i :
  Scanner.reachable_inv w st -> Scanner.step w st i = Some st' ->
  Scanner.reachable_inv w st'.
Proof.
  intros (Hs & Hl & Hb) H. unfold Scanner.reachable_inv.
  rewrite (step_slots _ _ _ H), (step_length _ _ _ H), (step_ipblock _ _ _ H).
  auto.
Qed.

Lemma run_inv sched : forall st,
  Scanner.reachable_inv w st -> Scanner.reachable_inv w (Scanner.run w sched st).
Proof.
  induction sched as [|i sched IH]; intros st Hst; simpl; [assumption|].
  destruct (Scanner.step w st i) as [st'|] eqn:H; apply IH; eauto using step_inv.
Qed.

Lemma step_balanced st st' i :
  (forall j, Scanner.append w j = Scanner.AppendOk) ->
  Scanner.balanced st -> Scanner.step w st i = Some st' -> Scanner.balanced st'.
Proof.
  intros Hok Hb H. unfold Scanner.balanced in *.
  step_cases H Ht; unfold Scanner.outcome_sum in *; simpl;
  try match goal with
  | Ha : Scanner.append _ _ = Scanner.AppendRaises _ |- _ =>
      rewrite Hok in Ha; discriminate Ha
  end;
  match goal with
  | |- context [<[i := ?new]> _] =>
      pose proof (count_task_insert Scanner.Appending _ _ _ new Ht) as Hc; simpl in Hc
  end; lia.
Qed.

Lemma run_balanced sched :
  (forall j, Scanner.append w j = Scanner.AppendOk) ->
  forall st, Scanner.balanced st -> Scanner.balanced (Scanner.run w sched st).
Proof.
  intros Hok. induction sched as [|i sched IH]; intros st Hst; simpl; [assumption|].
  destruct (Scanner.step w st i) as [st'|] eqn:H; apply IH; eauto using step_balanced.
Qed.

Lemma quiescent_no_appending st :
  Scanner.quiescent st = true ->
  Scanner.count_task Scanner.Appending (Scanner.tasks st) = 0%nat.
Proof.
  unfold Scanner.quiescent, Scanner.count_task.
  induction (Scanner.tasks st) as [|t l IH]; simpl; [reflexivity|].
  intros H. apply andb_true_iff in H as [Ht Hl]. rewrite (IH Hl).
  destruct t; simpl in *; congruence.
Qed.

Lemma completed_no_in_flight st :
  Scanner.completed st = true -> Scanner.in_flight st = 0%nat.
Proof.
  unfold Scanner.completed, Scanner.in_flight, Scanner.count_task.
  induction (Scanner.tasks st) as [|t l IH]; simpl; [reflexivity|].
  intros H. apply andb_true_iff in H as [Ht Hl]. rewrite (IH Hl).
  destruct t; simpl in *; congruence.
Qed.


(** [processed] counts the finished tasks, whatever the outcomes: every
    item is counted once, when its task returns. *)
Lemma step_processed st st' i :
  Scanner.step w st i = Some st' ->
  (Scanner.processed (Scanner.stats st')
   - Z.of_nat (Scanner.count_task Scanner.Done (Scanner.tasks st'))
   = Scanner.processed (Scanner.stats st)
     - Z.of_nat (Scanner.count_task Scanner.Done (Scanner.tasks st)))%Z.
Proof.
  intros H. step_cases H Ht; simpl;
  match goal with
  | |- context [<[i := ?new]> _] =>
      pose proof (count_task_insert Scanner.Done _ _ _ new Ht) as Hc; simpl in Hc
  end; lia.
Qed.

Lemma processed_counts_finished_tasks sched :
  let st := Scanner.run w sched (Scanner.init w) in
  Scanner.processed (Scanner.stats st)
  = Z.of_nat (Scanner.count_task Scanner.Done (Scanner.tasks st)).
Proof.
  intros st.
  assert (H : forall s,
             (Scanner.processed (Scanner.stats (Scanner.run w sched s))
              - Z.of_nat (Scanner.count_task Scanner.Done (Scanner.tasks (Scanner.run w sched s)))
              = Scanner.processed (Scanner.stats s)
                - Z.of_nat (Scanner.count_task Scanner.Done (Scanner.tasks s)))%Z).
  { induction sched as [|i sched IH]; intros s; simpl; [reflexivity|].
    destruct (Scanner.step w s i) as [s'|] eqn:Hs; [|apply IH].
    rewrite IH. apply (step_processed _ _ _ Hs). }
  specialize (H (Scanner.init w)). fold st in H. simpl in H.
  rewrite count_task_all_pending in H by discriminate. simpl in H. lia.
Qed.

Lemma run_app s1 s2 : forall st,
  Scanner.run w (s1 ++ s2) st = Scanner.run w s2 (Scanner.run w s1 st).
Proof.
  induction s1 as [|i s1 IH]; intros st; simpl; [reflexivity|].
  destruct (Scanner.step w st i); apply IH.
Qed.

Lemma run_cons_some i sched st st' :
  Scanner.step w st i = Some st' -> Scanner.run w (i :: sched) st = Scanner.run w sched st'.
Proof. intros H. simpl. rewrite H. reflexivity. Qed.

Lemma run_cons_none i sched st :
  Scanner.step w st i = None -> Scanner.run w (i :: sched) st = Scanner.run w sched st.
Proof. intros H. simpl. rewrite H. reflexivity. Qed.

Lemma step_of_done st i :
  Scanner.tasks st !! i = Some Scanner.Done -> Scanner.step w st i = None.
Proof. intros H. unfold Scanner.step. rewrite H. reflexivity. Qed.

Lemma one_task_runs_to_done st i :
  Scanner.tasks st !! i = Some Scanner.Pending ->
  is_Some (Scanner.credentials w !! i) ->
  (1 <= Scanner.sem st)%nat ->
  Scanner.tasks (Scanner.run w [i; i; i] st) = <[i := Scanner.Done]> (Scanner.tasks st)
  /\ Scanner.sem (Scanner.run w [i; i; i] st) = Scanner.sem st.
Proof.
  intros Hi [cred Hc] Hsem.
  assert (Hlt : (i < length (Scanner.tasks st))%nat) by (eapply lookup_lt_Some; eauto).
  destruct (Scanner.step w st i) as [st1|] eqn:H1.
  2:{ unfold Scanner.step in H1. rewrite Hi, Hc in H1.
      destruct (Scanner.raises_before_request _ _); [discriminate H1|].
      destruct (Scanner.sem st); [lia|discriminate H1]. }
  rewrite (run_cons_some _ _ _ _ H1).
  unfold Scanner.step in H1. rewrite Hi, Hc in H1.
  destruct (Scanner.raises_before_request _ _).
  - injection H1 as <-.
    rewrite !run_cons_none
      by (apply step_of_done; simpl; apply list_lookup_insert_eq; assumption).
    simpl. auto.
  - destruct (Scanner.sem st) as [|n] eqn:Hn; [lia|]. injection H1 as <-.
    match goal with |- context [Scanner.run w _ ?s] => set (st1 := s) end.
    assert (Ht1 : Scanner.tasks st1 !! i = Some Scanner.InFlight)
      by (simpl; apply list_lookup_insert_eq; assumption).
    destruct (Scanner.step w st1 i) as [st2|] eqn:H2.
    2:{ unfold Scanner.step in H2. rewrite Ht1, Hc in H2.
        destruct (Scanner.net w i) as [r| |]; [destruct (Scanner.check _ r)| |];
          discriminate H2. }
    rewrite (run_cons_some _ _ _ _ H2).
    unfold Scanner.step in H2. rewrite Ht1, Hc in H2.
    destruct (Scanner.net w i) as [r| |]; [destruct (Scanner.check _ r)| |];
      injection H2 as <-.
    + match goal with |- context [Scanner.run w _ ?s] => set (st2 := s) end.
      assert (Ht2 : Scanner.tasks st2 !! i = Some Scanner.Appending).
      { simpl. apply list_lookup_insert_eq. rewrite length_insert. assumption. }
      destruct (Scanner.step w st2 i) as [st3|] eqn:H3.
      2:{ unfold Scanner.step in H3. rewrite Ht2, Hc in H3.
          destruct (Scanner.append w i); discriminate H3. }
      rewrite (run_cons_some _ _ _ _ H3).
      unfold Scanner.step in H3. rewrite Ht2, Hc in H3.
      destruct (Scanner.append w i) as [|[]]; injection H3 as <-; simpl;
        rewrite !list_insert_insert_eq; auto.
    + rewrite run_cons_none.
      * simpl. rewrite list_insert_insert_eq. auto.
      * apply step_of_done. simpl. apply list_lookup_insert_eq.
        rewrite length_insert. assumption.
    + rewrite run_cons_none.
      * simpl. rewrite list_insert_insert_eq. auto.
      * apply step_of_done. simpl. apply list_lookup_insert_eq.
        rewrite length_insert. assumption.
    + rewrite run_cons_none.
      * simpl. rewrite list_insert_insert_eq. auto.
      * apply step_of_done. simpl. apply list_lookup_insert_eq.
        rewrite length_insert. assumption.
Qed.

Lemma init_tasks_pending (creds : list string) :
  map (fun _ => Scanner.Pending) creds = replicate (length creds) Scanner.Pending.
Proof. induction creds as [|c creds IH]; simpl; [reflexivity|]. rewrite IH. reflexivity. Qed.

Lemma sequential_prefix k :
  (1 <= Scanner.threads w)%nat ->
  (k <= length (Scanner.credentials w))%nat ->
  let st := Scanner.run w (Scanner.sequential k) (Scanner.init w) in
  Scanner.tasks st
    = replicate k Scanner.Done
      ++ replicate (length (Scanner.credentials w) - k) Scanner.Pending
  /\ Scanner.sem st = Scanner.threads w.
Proof.
  intros Hthreads. induction k as [|k IH]; intros Hk; cbv zeta.
  - simpl. rewrite Nat.sub_0_r. split; [apply init_tasks_pending|reflexivity].
  - destruct IH as [Htasks Hsem]; [lia|].
    unfold Scanner.sequential. rewrite seq_S, flat_map_app. simpl flat_map.
    rewrite run_app. fold (Scanner.sequential k).
    set (st := Scanner.run w (Scanner.sequential k) (Scanner.init w)) in *.
    assert (Hlook : Scanner.tasks st !! k = Some Scanner.Pending).
    { rewrite Htasks. rewrite lookup_app_r by (rewrite length_replicate; lia).
      rewrite length_replicate, Nat.sub_diag. apply lookup_replicate_2. lia. }
    assert (Hcred : is_Some (Scanner.credentials w !! k)) by (apply lookup_lt_is_Some; lia).
    destruct (one_task_runs_to_done st k Hlook Hcred) as [Ht Hs]; [lia|].
    split; [|congruence].
    rewrite Ht, Htasks.
    rewrite insert_app_r_alt by (rewrite length_replicate; lia).
    rewrite length_replicate, Nat.sub_diag.
    replace (length (Scanner.credentials w) - k)%nat
      with (S (length (Scanner.credentials w) - S k)) by lia.
    cbn [replicate].
    generalize (replicate (length (Scanner.credentials w) - S k) Scanner.Pending).
    intros rest. simpl. clear.
    induction k as [|k IH]; simpl; [reflexivity|]. rewrite IH. reflexivity.
Qed.

(** Some interleaving finishes the run: with at least one slot, the
    schedule that takes the tasks one after the other leaves every task
    done and every slot free. *)
Lemma sequential_schedule_completes :
  (1 <= Scanner.threads w)%nat ->
  let st := Scanner.run w (Scanner.sequential (length (Scanner.credentials w))) (Scanner.init w) in
  Scanner.completed st = true /\ Scanner.quiescent st = true
  /\ Scanner.sem st = Scanner.threads w.
Proof.
  intros Hthreads st.
  destruct (sequential_prefix (length (Scanner.credentials w)) Hthreads (le_n _))
    as [Ht Hs]. fold st in Ht, Hs.
  rewrite Nat.sub_diag in Ht. simpl in Ht. rewrite app_nil_r in Ht.
  unfold Scanner.completed, Scanner.quiescent. rewrite Ht.
  split; [|split; [|exact Hs]].
  - apply forallb_forall. intros t Hin. apply list_elem_of_In, elem_of_replicate in Hin.
    destruct Hin as [-> _]. reflexivity.
  - apply forallb_forall. intros t Hin. apply list_elem_of_In, elem_of_replicate in Hin.
    destruct Hin as [-> _]. reflexivity.
Qed.

(** With a results log that accepts every append, the counters of
    vpn_scanner.py add up in every quiescent state of every interleaving. *)
Lemma sum_consistency_when_appends_succeed sched :
  (forall j, Scanner.append w j = Scanner.AppendOk) ->
  let st := Scanner.run w sched (Scanner.init w) in
  Scanner.quiescent st = true ->
  Scanner.processed (Scanner.stats st) = Scanner.outcome_sum (Scanner.stats st).
Proof.
  intros Hok st Hq.
  assert (Hb : Scanner.balanced st).
  { apply run_balanced; [assumption|].
    unfold Scanner.balanced; simpl. rewrite count_task_all_pending by discriminate.
    reflexivity. }
  unfold Scanner.balanced in Hb. rewrite (quiescent_no_appending _ Hq) in Hb. lia.
Qed.

End ScannerRun.

(** The same for the workers of sers1.py. *)
Lemma worker_step_balanced w st st' i :
  (forall j, Sers1.append w j = Scanner.AppendOk) ->
  Sers1.balanced st -> Sers1.step w st i = Some st' -> Sers1.balanced st'.
Proof.
  intros Hok Hb H. unfold Sers1.balanced in *.
  worker_cases H Ht; unfold Scanner.outcome_sum in *; simpl;
  try match goal with
  | Ha : Sers1.append _ _ = Scanner.AppendRaises _ |- _ =>
      rewrite Hok in Ha; discriminate Ha
  end;
  match goal with
  | |- context [<[i := ?new]> _] =>
      pose proof (count_if_insert (fun x => Sers1.task_eqb x Sers1.Waiting) _ _ _ new Ht) as Hw;
      pose proof (count_if_insert (fun x => Sers1.task_eqb x Sers1.InFlight) _ _ _ new Ht) as Hf;
      unfold Sers1.count_task; simpl in Hw, Hf
  end; unfold Sers1.count_task in Hb; lia.
Qed.

Lemma worker_run_balanced w sched :
  (forall j, Sers1.append w j = Scanner.AppendOk) ->
  forall st, Sers1.balanced st -> Sers1.balanced (Sers1.run w sched st).
Proof.
  intros Hok. induction sched as [|i sched IH]; intros st Hst; simpl; [assumption|].
  destruct (Sers1.step w st i) as [st'|] eqn:H; apply IH; eauto using worker_step_balanced.
Qed.

Lemma worker_init_balanced w : Sers1.balanced (Sers1.init w).
Proof.
  unfold Sers1.balanced, Sers1.count_task; simpl.
  induction (Sers1.combos w) as [|c l IH]; simpl in *; [reflexivity|exact IH].
Qed.

Lemma quiescent_no_worker_underway st :
  Sers1.quiescent st = true ->
  (Sers1.count_task Sers1.Waiting (Sers1.tasks st)
   + Sers1.count_task Sers1.InFlight (Sers1.tasks st) = 0)%nat.
Proof.
  unfold Sers1.quiescent, Sers1.count_task.
  induction (Sers1.tasks st) as [|t l IH]; simpl; [reflexivity|].
  intros Hq. apply andb_true_iff in Hq as [Ht Hl]. specialize (IH Hl).
  destruct t; simpl in *; try discriminate Ht; lia.
Qed.

Lemma sers1_sum_consistency_when_appends_succeed w sched :
  (forall j, Sers1.append w j = Scanner.AppendOk) ->
  let st := Sers1.run w sched (Sers1.init w) in
  Sers1.quiescent st = true ->
  Scanner.processed (Sers1.stats st) = Scanner.outcome_sum (Sers1.stats st).
Proof.
  intros Hok st Hq.
  pose proof (worker_run_balanced w sched Hok _ (worker_init_balanced w)) as Hb.
  fold st in Hb. unfold Sers1.balanced in Hb.
  rewrite (quiescent_no_worker_underway _ Hq) in Hb. simpl in Hb. lia.
Qed.

(* ===================================================================== *)
(** * Scanner: the counters *)
(* ===================================================================== *)

(** C1 (sum consistency, also when an append to the results log fails).
    Evaluation of the code at the failing input: one credential, the
    server answers 200 with a success marker, the append to the results
    log raises. vpn_scanner.py has already counted [goods]; the exception
    lands in [except Exception], which counts [errors] and [processed].
    The run is complete and quiescent with [processed = 1] and
    [goods + bads + errors + offline + ipblock = 2]. sers1.py does the
    same: [processed], then [goods], then [errors]. *)
Theorem append_failure_counts_item_twice :
  let st := Scanner.run Inputs.world_append_fails [0; 0; 0]%nat
              (Scanner.init Inputs.world_append_fails) in
  let st1 := Sers1.run Inputs.sers1_append_fails [0; 0; 0]%nat
               (Sers1.init Inputs.sers1_append_fails) in
  (Scanner.completed st = true /\ Scanner.quiescent st = true
   /\ Scanner.stats st
      = {| Scanner.goods := 1; Scanner.bads := 0; Scanner.errors := 1;
           Scanner.offline := 0; Scanner.ipblock := 0; Scanner.processed := 1 |}
   /\ Scanner.processed (Scanner.stats st) <> Scanner.outcome_sum (Scanner.stats st))
  /\ (Sers1.quiescent st1 = true
      /\ Sers1.stats st1
         = {| Scanner.goods := 1; Scanner.bads := 0; Scanner.errors := 1;
              Scanner.offline := 0; Scanner.ipblock := 0; Scanner.processed := 1 |}
      /\ Scanner.processed (Sers1.stats st1) <> Scanner.outcome_sum (Sers1.stats st1)).
Proof.
  vm_compute. repeat split; congruence.
Qed.

(** C2 (concurrency bound). In every state of every interleaving of
    vpn_scanner.py, for every [threads] value and every input list: at most
    [threads] requests are in flight; free slots plus requests in flight
    are exactly [threads]; a request in flight can always finish, and
    whatever the network answers (response, timeout, other failure) its
    segment gives the slot back and leaves the request no longer in
    flight; once every task is done all slots are free. *)
Theorem concurrency_bound (w : Scanner.world) (sched : list nat) :
  let st := Scanner.run w sched (Scanner.init w) in
  (Scanner.in_flight st <= Scanner.threads w)%nat
  /\ (Scanner.sem st + Scanner.in_flight st = Scanner.threads w)%nat
  /\ (forall i, Scanner.tasks st !! i = Some Scanner.InFlight ->
        exists st', Scanner.step w st i = Some st'
          /\ Scanner.sem st' = S (Scanner.sem st)
          /\ S (Scanner.in_flight st') = Scanner.in_flight st
          /\ (Scanner.tasks st' !! i = Some Scanner.Appending
              \/ Scanner.tasks st' !! i = Some Scanner.Done))
  /\ (Scanner.completed st = true -> Scanner.sem st = Scanner.threads w).
Proof.
  intros st.
  destruct (run_inv w sched _ (init_inv w)) as (Hs & Hl & _). fold st in Hs, Hl.
  split; [lia|]. split; [exact Hs|]. split.
  - intros i Hi.
    assert (Hlt : (i < length (Scanner.tasks st))%nat) by (eapply lookup_lt_Some; eauto).
    destruct (Scanner.credentials w !! i) as [cred|] eqn:Hc.
    2:{ apply lookup_ge_None in Hc. lia. }
    pose proof (count_task_insert Scanner.InFlight _ _ _ Scanner.Appending Hi) as Ha.
    pose proof (count_task_insert Scanner.InFlight _ _ _ Scanner.Done Hi) as Hd.
    simpl in Ha, Hd.
    unfold Scanner.step. rewrite Hi, Hc.
    destruct (Scanner.net w i) as [r| |];
      [destruct (Scanner.check (Scanner.vpn_type w) r)| |];
      eexists; (split; [reflexivity|]); unfold Scanner.in_flight; simpl;
      rewrite list_lookup_insert_eq by assumption;
      (split; [reflexivity|]); (split; [lia|]); auto.
  - intros Hc. pose proof (completed_no_in_flight _ Hc). lia.
Qed.

(** The bound is reached and it blocks: with two slots and three items,
    the third task stays pending until a slot is given back. *)
Example third_task_waits_for_a_slot :
  let w := Inputs.world_three_items in
  let st := Scanner.run w [0; 1; 2]%nat (Scanner.init w) in
  Scanner.in_flight st = 2%nat /\ Scanner.sem st = 0%nat
  /\ Scanner.tasks st = [Scanner.InFlight; Scanner.InFlight; Scanner.Pending]
  /\ Scanner.step w st 2 = None
  /\ Scanner.tasks (Scanner.run w [0; 2]%nat st)
     = [Scanner.Done; Scanner.InFlight; Scanner.InFlight]
  /\ Scanner.completed (Scanner.run w [0; 2; 1; 2]%nat st) = true.
Proof. vm_compute. repeat split. Qed.

(** Two requests in flight over two slots: the first times out and its
    segment gives the slot back. *)
Lemma concurrency_bound_witness :
  let w := Inputs.world_three_items in
  let st := Scanner.run w [0; 1; 2]%nat (Scanner.init w) in
  (Scanner.in_flight st <= 2)%nat
  /\ exists st', Scanner.step w st 0 = Some st'
       /\ Scanner.sem st' = S (Scanner.sem st)
       /\ S (Scanner.in_flight st') = Scanner.in_flight st
       /\ (Scanner.tasks st' !! 0%nat = Some Scanner.Appending
           \/ Scanner.tasks st' !! 0%nat = Some Scanner.Done).
Proof.
  pose proof (concurrency_bound Inputs.world_three_items [0; 1; 2]%nat) as H.
  cbv zeta in H. destruct H as (Hle & _ & Hexit & _).
  split; [exact Hle|]. apply (Hexit 0%nat). reflexivity.
Defined.

Lemma check_needs_success_status vpn r :
  Scanner.status r <> 200%Z -> Scanner.status r <> 301%Z -> Scanner.status r <> 302%Z ->
  Scanner.check vpn r = false.
Proof.
  intros H2 H3 H4.
  unfold Scanner.check, Scanner.check_fortinet, Scanner.check_paloalto,
    Scanner.check_sonicwall, Scanner.check_sophos, Scanner.check_watchguard,
    Scanner.check_cisco.
  apply Z.eqb_neq in H2, H3, H4. rewrite H2, H3, H4. simpl.
  repeat match goal with |- context [if ?b then _ else _] => destruct b end; reflexivity.
Qed.

(** A response whose body holds none of the success indicators of the
    VPN type passes the check only through the redirect test of
    [check_fortinet]: without a redirect marker in its [Location] header
    it fails the check, and the item is counted in [bads]. *)
Lemma unmarked_response_is_rejected
    (w : Scanner.world) (st : Scanner.state) (i : nat) (r : Scanner.response)
    (Hbody : Scanner.body_matches (Scanner.vpn_type w) r = false)
    (Hredirect : Scanner.vpn_type w = "fortinet" ->
                 (Scanner.status r = 301%Z \/ Scanner.status r = 302%Z) ->
                 existsb (fun x => PyStr.contains x (Scanner.header_location r))
                   Scanner.REDIRECT_MARKERS = false)
    (Htask : Scanner.tasks st !! i = Some Scanner.InFlight)
    (Hcred : is_Some (Scanner.credentials w !! i))
    (Hnet : Scanner.net w i = Scanner.Response r) :
  Scanner.check (Scanner.vpn_type w) r = false
  /\ exists st', Scanner.step w st i = Some st'
       /\ Scanner.tasks st' !! i = Some Scanner.Done
       /\ Scanner.stats st' = Scanner.inc_processed (Scanner.inc_bads (Scanner.stats st))
       /\ Scanner.goods (Scanner.stats st') = Scanner.goods (Scanner.stats st)
       /\ Scanner.bads (Scanner.stats st') = (Scanner.bads (Scanner.stats st) + 1)%Z
       /\ Scanner.valid st' = Scanner.valid st.
Proof.
  assert (Hcheck : Scanner.check (Scanner.vpn_type w) r = false).
  { unfold Scanner.check, Scanner.check_fortinet, Scanner.check_paloalto,
      Scanner.check_sonicwall, Scanner.check_sophos, Scanner.check_watchguard,
      Scanner.check_cisco.
    destruct (String.eqb_spec (Scanner.vpn_type w) "fortinet") as [Hf|Hf].
    - rewrite Hf in Hbody. rewrite Hbody, andb_false_r.
      destruct (Z.eqb_spec (Scanner.status r) 301) as [H1|H1];
        destruct (Z.eqb_spec (Scanner.status r) 302) as [H2|H2];
        try (rewrite Hredirect by auto); reflexivity.
    - repeat match goal with
        | |- context [String.eqb (Scanner.vpn_type w) ?s] =>
            let He := fresh "He" in
            destruct (String.eqb_spec (Scanner.vpn_type w) s) as [He|He];
            [rewrite He in Hbody; rewrite Hbody, andb_false_r; reflexivity|]
        end.
      reflexivity. }
  split; [exact Hcheck|].
  destruct Hcred as [cred Hcred].
  unfold Scanner.step. rewrite Htask, Hcred, Hnet, Hcheck.
  eexists. split; [reflexivity|]. simpl.
  rewrite list_lookup_insert_eq by (eapply lookup_lt_Some; eauto). auto.
Qed.

(** A response handed over with status 301 or 302 has an empty [Location],
    in which no redirect marker occurs: on the responses [session.post]
    delivers, the redirect test of [check_fortinet] never succeeds. *)
Lemma delivered_redirect_has_no_marker (r : Scanner.response) :
  Scanner.delivered r = true ->
  (Scanner.status r = 301%Z \/ Scanner.status r = 302%Z) ->
  existsb (fun x => PyStr.contains x (Scanner.header_location r))
    Scanner.REDIRECT_MARKERS = false.
Proof.
  unfold Scanner.delivered. intros Hd Hs.
  assert (Hin : existsb (Z.eqb (Scanner.status r)) Scanner.REDIRECT_STATUSES = true).
  { apply existsb_exists. exists (Scanner.status r). split; [|apply Z.eqb_refl].
    destruct Hs as [-> | ->]; simpl; auto. }
  rewrite Hin in Hd.
  destruct (Scanner.header_location r); [reflexivity|discriminate Hd].
Qed.

(** The branch is there all the same: called directly on a 302 with
    [Location: /welcome], as a test with a stub session would do,
    [check_fortinet] returns [True]; [session.post] does not hand over
    such a response. *)
Example redirect_test_needs_a_location :
  let r := {| Scanner.status := 302; Scanner.text := "";
              Scanner.location := Some "/welcome" |} in
  Scanner.check_fortinet r = true /\ Scanner.delivered r = false
  /\ Scanner.check_fortinet Inputs.redirect_without_location = false
  /\ Scanner.delivered Inputs.redirect_without_location = true.
Proof. vm_compute. repeat split. Qed.

(** C4 (ambiguity bias). Every response that [session.post] hands to the
    check and whose body contains none of the success indicators
    configured for the VPN type makes the check return [False], whatever
    its status code and body, for every VPN type; the item is then counted
    in [bads] (and [processed]), [goods] is unchanged and nothing is
    written to the results log. *)
Theorem ambiguous_response_is_rejected
    (w : Scanner.world) (st : Scanner.state) (i : nat) (r : Scanner.response)
    (Hdelivered : Scanner.delivered r = true)
    (Hbody : Scanner.body_matches (Scanner.vpn_type w) r = false)
    (Htask : Scanner.tasks st !! i = Some Scanner.InFlight)
    (Hcred : is_Some (Scanner.credentials w !! i))
    (Hnet : Scanner.net w i = Scanner.Response r) :
  Scanner.check (Scanner.vpn_type w) r = false
  /\ exists st', Scanner.step w st i = Some st'
       /\ Scanner.tasks st' !! i = Some Scanner.Done
       /\ Scanner.stats st' = Scanner.inc_processed (Scanner.inc_bads (Scanner.stats st))
       /\ Scanner.goods (Scanner.stats st') = Scanner.goods (Scanner.stats st)
       /\ Scanner.bads (Scanner.stats st') = (Scanner.bads (Scanner.stats st) + 1)%Z
       /\ Scanner.valid st' = Scanner.valid st.
Proof.
  apply unmarked_response_is_rejected; try assumption.
  intros _ Hs. apply delivered_redirect_has_no_marker; assumption.
Qed.

(** A fortinet server that answers a refused login with its login page:
    rejected. *)
Lemma ambiguous_response_is_rejected_witness :
  let w := Inputs.world_login_refused in
  let st := Scanner.run w [0]%nat (Scanner.init w) in
  Scanner.check "fortinet" Inputs.login_page_again = false
  /\ exists st', Scanner.step w st 0 = Some st'
       /\ Scanner.tasks st' !! 0%nat = Some Scanner.Done
       /\ Scanner.stats st' = Scanner.inc_processed (Scanner.inc_bads (Scanner.stats st))
       /\ Scanner.goods (Scanner.stats st') = Scanner.goods (Scanner.stats st)
       /\ Scanner.bads (Scanner.stats st') = (Scanner.bads (Scanner.stats st) + 1)%Z
       /\ Scanner.valid st' = Scanner.valid st.
Proof.
  apply (ambiguous_response_is_rejected Inputs.world_login_refused
           (Scanner.run Inputs.world_login_refused [0]%nat
              (Scanner.init Inputs.world_login_refused))
           0%nat Inputs.login_page_again).
  - reflexivity.
  - reflexivity.
  - reflexivity.
  - eexists; reflexivity.
  - reflexivity.
Defined.

(** C8, as stated, fails: the server answers 429. The check returns
    [False] and the item is counted in [bads]; [ipblock] stays 0. *)
Lemma rate_limit_response_counted_as_bad :
  let st := Scanner.run Inputs.world_rate_limited [0; 0]%nat
              (Scanner.init Inputs.world_rate_limited) in
  Scanner.completed st = true
  /\ Scanner.ipblock (Scanner.stats st) = 0%Z
  /\ Scanner.bads (Scanner.stats st) = 1%Z
  /\ Scanner.processed (Scanner.stats st) = 1%Z.
Proof. vm_compute. repeat split. Qed.

(** C8, amended. No probe outcome increments [ipblock]: it is 0 in every
    state of every run of vpn_scanner.py. A response with status 429 is
    counted in [bads] and [processed], like any response that fails the
    check. The end of a request increments exactly one of [goods], [bads],
    [offline] and [errors], by what the network answered. *)
Theorem ipblock_never_incremented (w : Scanner.world) (sched : list nat) :
  let st := Scanner.run w sched (Scanner.init w) in
  Scanner.ipblock (Scanner.stats st) = 0%Z
  /\ (forall i r, Scanner.tasks st !! i = Some Scanner.InFlight ->
        Scanner.net w i = Scanner.Response r -> Scanner.status r = 429%Z ->
        exists st', Scanner.step w st i = Some st'
          /\ Scanner.tasks st' !! i = Some Scanner.Done
          /\ Scanner.stats st' = Scanner.inc_processed (Scanner.inc_bads (Scanner.stats st))
          /\ Scanner.ipblock (Scanner.stats st') = 0%Z)
  /\ (forall i, Scanner.tasks st !! i = Some Scanner.InFlight ->
        exists st', Scanner.step w st i = Some st'
          /\ Scanner.stats st'
             = match Scanner.net w i with
               | Scanner.Response r =>
                   if Scanner.check (Scanner.vpn_type w) r
                   then Scanner.inc_goods (Scanner.stats st)
                   else Scanner.inc_processed (Scanner.inc_bads (Scanner.stats st))
               | Scanner.NetTimeout =>
                   Scanner.inc_processed (Scanner.inc_offline (Scanner.stats st))
               | Scanner.NetError =>
                   Scanner.inc_processed (Scanner.inc_errors (Scanner.stats st))
               end).
Proof.
  intros st.
  destruct (run_inv w sched _ (init_inv w)) as (Hs & Hl & Hb). fold st in Hs, Hl, Hb.
  assert (Hcred : forall i, Scanner.tasks st !! i = Some Scanner.InFlight ->
                            exists cred, Scanner.credentials w !! i = Some cred).
  { intros i Hi.
    assert (Hlt : (i < length (Scanner.tasks st))%nat) by (eapply lookup_lt_Some; eauto).
    destruct (Scanner.credentials w !! i) as [cred|] eqn:Hc; [eauto|].
    apply lookup_ge_None in Hc. lia. }
  split; [exact Hb|]. split.
  - intros i r Hi Hn Hr. destruct (Hcred i Hi) as [cred Hc].
    unfold Scanner.step. rewrite Hi, Hc, Hn.
    rewrite check_needs_success_status by lia.
    eexists. split; [reflexivity|]. simpl.
    rewrite list_lookup_insert_eq by (eapply lookup_lt_Some; eauto). auto.
  - intros i Hi. destruct (Hcred i Hi) as [cred Hc].
    unfold Scanner.step. rewrite Hi, Hc.
    destruct (Scanner.net w i) as [r| |];
      [destruct (Scanner.check (Scanner.vpn_type w) r)| |];
      eexists; split; reflexivity.
Qed.

(** The rate-limited probe, in flight. *)
Lemma ipblock_never_incremented_witness :
  let w := Inputs.world_rate_limited in
  let st := Scanner.run w [0]%nat (Scanner.init w) in
  Scanner.ipblock (Scanner.stats st) = 0%Z
  /\ exists st', Scanner.step w st 0 = Some st'
       /\ Scanner.tasks st' !! 0%nat = Some Scanner.Done
       /\ Scanner.stats st' = Scanner.inc_processed (Scanner.inc_bads (Scanner.stats st))
       /\ Scanner.ipblock (Scanner.stats st') = 0%Z.
Proof.
  pose proof (ipblock_never_incremented Inputs.world_rate_limited [0]%nat) as H.
  cbv zeta in H. destruct H as (Hzero & Hcount & _).
  split; [exact Hzero|].
  apply (Hcount 0%nat Inputs.too_many_requests); reflexivity.
Defined.

(* ===================================================================== *)
(** * Scanner: start-up *)
(* ===================================================================== *)

Lemma run_without_tasks w sched st :
  Scanner.tasks st = [] -> Scanner.run w sched st = st.
Proof.
  intros Ht. induction sched as [|i sched IH]; simpl; [reflexivity|].
  unfold Scanner.step. rewrite Ht. rewrite lookup_nil. exact IH.
Qed.

(** C9, as stated, fails: an existing credentials file that holds only a
    comment and a blank line yields zero records; the start-up does not
    abort, [main] runs over zero items, [gather] returns at once under
    every schedule, and the exit status is 0. *)
Lemma empty_source_runs_and_exits_zero :
  Scanner.load_credentials Inputs.comment_lines = []
  /\ Scanner.startup "fortinet" Inputs.comments_only 100 = Scanner.Loaded []
  /\ Scanner.exit_status "fortinet" Inputs.comments_only 100
       (fun _ => Scanner.NetError) (fun _ => Scanner.AppendOk) [] true = Some 0%Z
  /\ Scanner.exit_status "fortinet" Inputs.comments_only 100
       (fun _ => Scanner.NetError) (fun _ => Scanner.AppendOk) [0; 1; 0]%nat true = Some 0%Z.
Proof. vm_compute. repeat split. Qed.

(** C9, amended. With a supported VPN type and a valid [threads] value,
    the scanner exits with status 1 at start-up exactly when the
    credentials file does not exist, cannot be opened, or cannot be read
    to its end (its iteration raises, for instance on bytes that do not
    decode). A file that is read to its end is always loaded; when it
    yields zero records the run has no task: under every schedule and
    whatever the network would answer, [main] finds [gather] returned at
    once with all counters 0, and the script exits with status 0 when the
    final write of the stats file succeeds. *)
Theorem startup_aborts_on_missing_source_only
    (vpn : string) (nthreads : Z) (src : Scanner.creds_source)
    (Hvpn : In vpn Scanner.SUPPORTED_VPN_TYPES)
    (Hthreads : (0 <= nthreads)%Z) :
  (Scanner.startup vpn src nthreads = Scanner.Exit 1
     <-> src = Scanner.NoFile \/ src = Scanner.Unreadable \/ src = Scanner.Undecodable)
  /\ (forall ls, src = Scanner.Lines ls ->
        Scanner.startup vpn src nthreads = Scanner.Loaded (Scanner.load_credentials ls))
  /\ (forall ls net append sched,
        src = Scanner.Lines ls -> Scanner.load_credentials ls = [] ->
        let w := Scanner.world_of vpn nthreads [] net append in
        Scanner.startup vpn src nthreads = Scanner.Loaded []
        /\ Scanner.run w sched (Scanner.init w) = Scanner.init w
        /\ Scanner.main w sched true = Some (Scanner.init w, 0%Z)
        /\ Scanner.stats (Scanner.init w) = Scanner.stats0
        /\ Scanner.exit_status vpn src nthreads net append sched true = Some 0%Z).
Proof.
  assert (Hsup : existsb (String.eqb vpn) Scanner.SUPPORTED_VPN_TYPES = true).
  { apply existsb_exists. exists vpn. split; [exact Hvpn|apply String.eqb_refl]. }
  assert (Hth : (nthreads <? 0)%Z = false) by (apply Z.ltb_ge; exact Hthreads).
  assert (Hl : forall ls, Scanner.startup vpn (Scanner.Lines ls) nthreads
                          = Scanner.Loaded (Scanner.load_credentials ls)).
  { intros ls. unfold Scanner.startup. rewrite Hsup, Hth. reflexivity. }
  split; [|split].
  - unfold Scanner.startup. rewrite Hsup. simpl. destruct src as [| | |ls].
    + split; auto.
    + split; auto.
    + split; auto.
    + rewrite Hth. split; [discriminate|]. intros [H|[H|H]]; discriminate H.
  - intros ls ->. apply Hl.
  - intros ls net append sched -> Hempty w.
    assert (Hrun : Scanner.run w sched (Scanner.init w) = Scanner.init w)
      by (apply run_without_tasks; reflexivity).
    assert (Hmain : Scanner.main w sched true = Some (Scanner.init w, 0%Z))
      by (unfold Scanner.main; rewrite Hrun; reflexivity).
    split; [rewrite Hl, Hempty; reflexivity|].
    split; [exact Hrun|]. split; [exact Hmain|]. split; [reflexivity|].
    unfold Scanner.exit_status. rewrite Hl, Hempty. fold w. rewrite Hmain. reflexivity.
Qed.

Lemma startup_aborts_on_missing_source_only_witness :
  (Scanner.startup "fortinet" Inputs.comments_only 100 = Scanner.Exit 1
     <-> Inputs.comments_only = Scanner.NoFile \/ Inputs.comments_only = Scanner.Unreadable
         \/ Inputs.comments_only = Scanner.Undecodable)
  /\ Scanner.startup "fortinet" Inputs.comments_only 100 = Scanner.Loaded []
  /\ Scanner.exit_status "fortinet" Inputs.comments_only 100
       (fun _ => Scanner.NetError) (fun _ => Scanner.AppendOk) [0]%nat true = Some 0%Z.
Proof.
  assert (Hvpn : In "fortinet" Scanner.SUPPORTED_VPN_TYPES) by (simpl; auto).
  assert (Hthreads : (0 <= 100)%Z) by discriminate.
  destruct (startup_aborts_on_missing_source_only "fortinet" 100 Inputs.comments_only
              Hvpn Hthreads) as (Hiff & _ & Hrun).
  split; [exact Hiff|].
  destruct (Hrun Inputs.comment_lines (fun _ => Scanner.NetError)
              (fun _ => Scanner.AppendOk) [0]%nat eq_refl eq_refl)
    as (Hload & _ & _ & _ & Hexit).
  split; [exact Hload|exact Hexit].
Defined.

(** A credentials file with a byte that does not decode ends the script
    at start-up, with status 1, like a missing file. *)
Example undecodable_source_exits_one :
  Scanner.exit_status "fortinet" Scanner.Undecodable 100
    (fun _ => Scanner.NetError) (fun _ => Scanner.AppendOk) [] true = Some 1%Z
  /\ Scanner.exit_status "fortinet" Scanner.NoFile 100
       (fun _ => Scanner.NetError) (fun _ => Scanner.AppendOk) [] true = Some 1%Z.
Proof. split; reflexivity. Qed.

(* ===================================================================== *)
(** * String primitives: the fuel of [remove_all] *)
(* ===================================================================== *)

Lemma drop_chars_length (k : nat) (s : string) :
  (String.length (PyStr.drop_chars k s) <= String.length s)%nat.
Proof.
  revert s. induction k as [|k IH]; intros s; simpl; [lia|].
  destruct s as [|c s]; simpl; [lia|]. specialize (IH s). lia.
Qed.

(** The fuel of [remove_all] is enough: more fuel changes nothing. *)
Lemma remove_all_fuel_enough (old : string) :
  old <> "" ->
  forall n m s, (String.length s <= n)%nat -> (String.length s <= m)%nat ->
  PyStr.remove_all_fuel n old s = PyStr.remove_all_fuel m old s.
Proof.
  intros Hold. induction n as [|n IH]; intros m s Hn Hm.
  - destruct s; simpl in Hn; [|lia]. destruct m; reflexivity.
  - destruct m as [|m].
    + destruct s; simpl in Hm; [|lia]. reflexivity.
    + destruct s as [|c s]; [reflexivity|]. simpl in Hn, Hm.
      cbn [PyStr.remove_all_fuel].
      destruct (PyStr.startswith (String c s) old).
      * destruct old as [|o old']; [congruence|]. cbn [String.length PyStr.drop_chars].
        pose proof (drop_chars_length (String.length old') s).
        apply IH; lia.
      * f_equal. apply IH; lia.
Qed.

(* ===================================================================== *)
(** * Aggregators: one file, then the loop *)
(* ===================================================================== *)

Lemma add_int_field (d : gmap string jval) (k : string) (z : Z) :
  int_or_absent d k = true ->
  add_value (PInt z) (get d k (VNum (PInt 0))) = Some (PInt (z + int_field d k)).
Proof.
  unfold int_or_absent, get, int_field, add_value.
  destruct (d !! k) as [[[x|q]|b|]|]; simpl; intros H; try discriminate H.
  - reflexivity.
  - rewrite Z.add_0_r. reflexivity.
Qed.

Lemma add_num_field (d : gmap string jval) (k : string) (q : Qc) :
  num_or_absent d k = true ->
  add_value (PFloat q) (get d k (VNum (PFloat 0))) = Some (PFloat (q + num_field d k)).
Proof.
  unfold num_or_absent, get, num_field, add_value.
  destruct (d !! k) as [[n|b|]|]; simpl; intros H; try discriminate H; reflexivity.
Qed.

Lemma snapshot_ok_fields (d : gmap string jval) :
  snapshot_ok d = true ->
  int_or_absent d "goods" = true /\ int_or_absent d "bads" = true
  /\ int_or_absent d "errors" = true /\ int_or_absent d "offline" = true
  /\ int_or_absent d "ipblock" = true /\ int_or_absent d "processed" = true
  /\ num_or_absent d "rps" = true /\ num_or_absent d "timestamp" = true.
Proof.
  unfold snapshot_ok. simpl. intros H.
  repeat (apply andb_true_iff in H as [H ?]).
  repeat match goal with H : _ && _ = true |- _ => apply andb_true_iff in H as [? H] end.
  repeat split; assumption.
Qed.


Lemma add_counters_snapshot d ip now g b e o i p r sv av t :
  snapshot_ok d = true ->
  AR.add_counters AR.COUNTERS (AR.totals g b e o i p r sv av t) (AR.from_dict ip d now)
  = AR.totals (g + int_field d "goods") (b + int_field d "bads") (e + int_field d "errors")
           (o + int_field d "offline") (i + int_field d "ipblock")
           (p + int_field d "processed") (r + num_field d "rps") sv av t.
Proof.
  intros Hok. apply snapshot_ok_fields in Hok as (Hg & Hb & He & Ho & Hi & Hp & Hr & _).
  unfold AR.COUNTERS, AR.add_counters, AR.from_dict, AR.totals. cbn [AR.total AR.field
    AR.goods AR.bads AR.errors AR.offline AR.ipblock AR.processed AR.rps
    AR.s_goods AR.s_bads AR.s_errors AR.s_offline AR.s_ipblock AR.s_processed AR.s_rps].
  rewrite (add_int_field _ _ _ Hg). cbn.
  rewrite (add_int_field _ _ _ Hb). cbn.
  rewrite (add_int_field _ _ _ He). cbn.
  rewrite (add_int_field _ _ _ Ho). cbn.
  rewrite (add_int_field _ _ _ Hi). cbn.
  rewrite (add_int_field _ _ _ Hp). cbn.
  rewrite (add_num_field _ _ _ Hr). cbn.
  reflexivity.
Qed.

Lemma process_file_skip acc f :
  AR.is_snapshot f = false -> AR.process_file acc f = acc.
Proof.
  unfold AR.is_snapshot, AR.process_file, snapshot_of.
  destruct (AR.content f) as [| |[d|]]; simpl; intros H; try reflexivity; discriminate H.
Qed.

Lemma collect_loop_skip files : forall acc,
  fold_left AR.process_file files acc
  = fold_left AR.process_file (List.filter AR.is_snapshot files) acc.
Proof.
  induction files as [|f files IH]; intros acc; simpl; [reflexivity|].
  destruct (AR.is_snapshot f) eqn:Hs; simpl.
  - apply IH.
  - rewrite (process_file_skip _ _ Hs). apply IH.
Qed.

Lemma age_of_number now (d : gmap string jval) ip t :
  num_or_absent d "timestamp" = true ->
  exists a, AR.age now (AR.timestamp (AR.from_dict ip d t)) = Some a.
Proof.
  unfold num_or_absent, AR.age, AR.from_dict, get. simpl.
  destruct (d !! "timestamp") as [[n|b|]|]; simpl; intros H; try discriminate H; eauto.
Qed.

Lemma process_file_stats acc f g b e o i p r sv av t :
  well_typed (AR.content f) = true ->
  AR.l_stats acc = AR.totals g b e o i p r sv av t ->
  AR.l_stats (AR.process_file acc f)
  = match snapshot_of (AR.content f) with
    | Some d =>
        AR.totals (g + int_field d "goods") (b + int_field d "bads") (e + int_field d "errors")
               (o + int_field d "offline") (i + int_field d "ipblock")
               (p + int_field d "processed") (r + num_field d "rps") sv av t
    | None => AR.totals g b e o i p r sv av t
    end.
Proof.
  unfold well_typed, AR.process_file, snapshot_of.
  destruct (AR.content f) as [| |[d|]]; intros Hw Hacc; try assumption.
  destruct (age_of_number (AR.clock_check f) d (AR.ip_of f) (AR.clock_from_dict f)) as [a Ha].
  { apply snapshot_ok_fields in Hw. tauto. }
  rewrite Ha. cbn [AR.l_stats]. rewrite Hacc. apply add_counters_snapshot. exact Hw.
Qed.

Lemma collect_loop_stats files : forall acc g b e o i p r sv av t,
  Forall (fun f => well_typed (AR.content f) = true) files ->
  AR.l_stats acc = AR.totals g b e o i p r sv av t ->
  AR.l_stats (fold_left AR.process_file files acc)
  = AR.totals (g + sum_int "goods" (map AR.content files))
           (b + sum_int "bads" (map AR.content files))
           (e + sum_int "errors" (map AR.content files))
           (o + sum_int "offline" (map AR.content files))
           (i + sum_int "ipblock" (map AR.content files))
           (p + sum_int "processed" (map AR.content files))
           (r + sum_num "rps" (map AR.content files)) sv av t.
Proof.
  induction files as [|f files IH]; intros acc g b e o i p r sv av t Hw Hacc.
  - simpl. rewrite Hacc, !Z.add_0_r, Qcplus_0_r. reflexivity.
  - inversion Hw as [|? ? Hf Hfs]; subst. cbn [fold_left map sum_int sum_num].
    pose proof (process_file_stats acc f _ _ _ _ _ _ _ _ _ _ Hf Hacc) as Hstep.
    destruct (snapshot_of (AR.content f)) as [d|].
    + rewrite (IH _ _ _ _ _ _ _ _ _ _ _ Hfs Hstep).
      rewrite !Z.add_assoc, Qcplus_assoc. reflexivity.
    + apply (IH _ _ _ _ _ _ _ _ _ _ _ Hfs Hstep).
Qed.

Lemma process_file_active acc f :
  AR.l_active (AR.process_file acc f)
  = if AR.is_active f then {[AR.ip_of f]} ∪ AR.l_active acc else AR.l_active acc.
Proof.
  unfold AR.process_file, AR.is_active, snapshot_of.
  destruct (AR.content f) as [| |[d|]]; try reflexivity.
  destruct (AR.age _ _) as [a|]; [|reflexivity].
  cbn [AR.l_active]. destruct (bool_decide _); reflexivity.
Qed.

Lemma collect_loop_active files : forall acc,
  AR.l_active (fold_left AR.process_file files acc)
  = AR.l_active acc ∪ list_to_set (map AR.ip_of (List.filter AR.is_active files)).
Proof.
  induction files as [|f files IH]; intros acc; simpl.
  - set_solver.
  - rewrite IH, process_file_active. destruct (AR.is_active f); simpl; set_solver.
Qed.

Lemma process_file_registry acc f :
  AR.l_server_stats (AR.process_file acc f)
  = match snapshot_of (AR.content f) with
    | Some d => <[AR.ip_of f := AR.from_dict (AR.ip_of f) d (AR.clock_from_dict f)]>
                  (AR.l_server_stats acc)
    | None => AR.l_server_stats acc
    end.
Proof.
  unfold AR.process_file, snapshot_of.
  destruct (AR.content f) as [| |[d|]]; try reflexivity.
  destruct (AR.age _ _); reflexivity.
Qed.

Lemma collect_loop_registry_dom files : forall acc,
  dom (AR.l_server_stats (fold_left AR.process_file files acc))
  = dom (AR.l_server_stats acc) ∪ list_to_set (map AR.ip_of (List.filter AR.is_snapshot files)).
Proof.
  induction files as [|f files IH]; intros acc; simpl.
  - set_solver.
  - rewrite IH, process_file_registry. unfold AR.is_snapshot.
    destruct (snapshot_of (AR.content f)); simpl; [rewrite dom_insert_L|]; set_solver.
Qed.

Lemma collect_loop_registry_other files ip : forall acc,
  ~ In ip (map AR.ip_of (List.filter AR.is_snapshot files)) ->
  AR.l_server_stats (fold_left AR.process_file files acc) !! ip = AR.l_server_stats acc !! ip.
Proof.
  induction files as [|f files IH]; intros acc Hnot; simpl; [reflexivity|].
  simpl in Hnot. rewrite IH.
  - rewrite process_file_registry. unfold AR.is_snapshot in Hnot.
    destruct (snapshot_of (AR.content f)); [|reflexivity].
    simpl in Hnot. apply lookup_insert_ne. intros Heq. apply Hnot. left. exact Heq.
  - intros Hin. apply Hnot. destruct (AR.is_snapshot f); simpl; auto.
Qed.


Lemma collect_docs (h : AG.host) :
  AG.collect h = omap (fun r => match r with Parsed doc => Some doc | _ => None end)
                   (AG.host_reads h).
Proof.
  destruct h as [|files]; [reflexivity|]. simpl.
  induction files as [|[fname r] files IH]; simpl; [reflexivity|].
  destruct (PyStr.startswith fname "stats_" && PyStr.endswith fname ".json"); simpl.
  - destruct r; simpl; rewrite IH; reflexivity.
  - exact IH.
Qed.

Lemma sum_get_snapshots (k : string) (rs : list read_result) : forall z,
  In k COUNTER_KEYS ->
  Forall (fun r => well_formed r = true) rs ->
  AG.sum_get k (PInt z)
    (omap (fun r => match r with Parsed doc => Some doc | _ => None end) rs)
  = Some (PInt (z + sum_int k rs)).
Proof.
  intros z Hk Hw. revert z. induction rs as [|r rs IH]; intros z.
  - simpl. rewrite Z.add_0_r. reflexivity.
  - inversion Hw as [|? ? Hr Hrs]; subst. specialize (IH Hrs).
    destruct r as [| |[d|]]; simpl; try apply IH; try discriminate Hr.
    assert (Hi : int_or_absent d k = true).
    { simpl in Hr. unfold snapshot_ok in Hr.
      apply andb_true_iff in Hr as [Hr _]. apply andb_true_iff in Hr as [Hr _].
      rewrite forallb_forall in Hr. apply Hr. exact Hk. }
    rewrite (add_int_field _ _ _ Hi). rewrite IH, Z.add_assoc. reflexivity.
Qed.

Lemma omap_concat_reads (hosts : list AG.host) :
  concat (map AG.collect hosts)
  = omap (fun r => match r with Parsed doc => Some doc | _ => None end) (AG.reads hosts).
Proof.
  unfold AG.reads. induction hosts as [|h hosts IH]; simpl; [reflexivity|].
  rewrite omap_app, IH, collect_docs. reflexivity.
Qed.

Lemma tot_snapshots (hosts : list AG.host) (k : string) :
  In k COUNTER_KEYS ->
  Forall (fun r => well_formed r = true) (AG.reads hosts) ->
  AG.tot (concat (map AG.collect hosts)) k = Some (PInt (sum_int k (AG.reads hosts))).
Proof.
  intros Hk Hw. unfold AG.tot. rewrite omap_concat_reads.
  rewrite (sum_get_snapshots k _ 0 Hk Hw). reflexivity.
Qed.

Lemma collect_stats_totals (a : AR.aggregator) (files : list AR.stats_file) :
  Forall (fun f => well_typed (AR.content f) = true) files ->
  let rs := map AR.content files in
  let st := AR.stats (AR.collect_stats a files) in
  AR.goods st = PInt (sum_int "goods" rs)
  /\ AR.bads st = PInt (sum_int "bads" rs)
  /\ AR.errors st = PInt (sum_int "errors" rs)
  /\ AR.offline st = PInt (sum_int "offline" rs)
  /\ AR.ipblock st = PInt (sum_int "ipblock" rs)
  /\ AR.processed st = PInt (sum_int "processed" rs)
  /\ AR.rps st = PFloat (sum_num "rps" rs).
Proof.
  intros Hw rs st. subst st. unfold AR.collect_stats, AR.collect_loop. cbn [AR.stats
    AR.goods AR.bads AR.errors AR.offline AR.ipblock AR.processed AR.rps].
  rewrite (collect_loop_stats files
             {| AR.l_stats := AR.fresh_stats (AR.start_time (AR.stats a));
                AR.l_server_stats := AR.server_stats a; AR.l_active := ∅ |}
             0 0 0 0 0 0 0%Qc 0 0 (AR.start_time (AR.stats a)) Hw eq_refl).
  cbn [AR.totals AR.goods AR.bads AR.errors AR.offline AR.ipblock AR.processed AR.rps].
  rewrite Qcplus_0_l. repeat split.
Qed.

Lemma cycle_of_snapshots (start : Qc) (total_lines : Z) (hosts : list AG.host) (now : Qc) :
  Forall (fun r => well_formed r = true) (AG.reads hosts) ->
  (1 <= total_lines)%Z -> (start <= now)%Qc ->
  exists v, AG.cycle start total_lines hosts now = Some v
    /\ AG.v_goods v = PInt (sum_int "goods" (AG.reads hosts))
    /\ AG.v_bads v = PInt (sum_int "bads" (AG.reads hosts))
    /\ AG.v_errors v = PInt (sum_int "errors" (AG.reads hosts))
    /\ AG.v_offline v = PInt (sum_int "offline" (AG.reads hosts))
    /\ AG.v_ipblock v = PInt (sum_int "ipblock" (AG.reads hosts))
    /\ AG.v_processed v = PInt (sum_int "processed" (AG.reads hosts)).
Proof.
  intros Hw Htotal Hclock. unfold AG.cycle.
  rewrite !(tot_snapshots hosts) by (assumption || (simpl; auto 10)).
  cbn [mbind option_bind].
  assert (Ht : Qc_of_Z total_lines <> 0%Qc).
  { rewrite <- Z2Qc_inj_0. intros H. apply Z2Qc_inj in H. lia. }
  assert (He : (now - start + Q2Qc (1 # 1000))%Qc <> 0%Qc).
  { apply not_eq_sym, Qclt_not_eq. apply Qcplus_nonneg_pos.
    - apply Qcle_minus_iff in Hclock. exact Hclock.
    - reflexivity. }
  unfold py_div. rewrite !bool_decide_eq_false_2 by assumption.
  cbn [mbind option_bind].
  eexists. split; [reflexivity|]. repeat split.
Qed.

(** Outside the files the claim speaks of: a stats file that holds a JSON
    document which is no object (here a list) is passed over by the
    refactored aggregator, and stops the loop of aggregator.py, whose
    [tot] calls [.get] on it. *)
Example non_object_document :
  AG.cycle (Qc_of_Z 0) 10
    [AG.Listing [("stats_1.json", Parsed DOther)]] (Qc_of_Z 1) = None
  /\ AR.collect_stats (AR.new_aggregator (Qc_of_Z 0))
       [Inputs.file_at_1000 "stats_10.0.0.9" (Parsed DOther)]
     = AR.collect_stats (AR.new_aggregator (Qc_of_Z 0)) [].
Proof. split; reflexivity. Qed.

(** C5, as stated, fails on its last part: a worker read in one cycle and
    caught between two writes in the next (its file is malformed then)
    contributes nothing to the sums of the second cycle, yet it is still
    in [server_stats] and still counted in [servers]. *)
Lemma stale_entry_survives_unreadable_cycle :
  let a1 := AR.collect_stats (AR.new_aggregator (Qc_of_Z 0)) [Inputs.recent] in
  let a2 := AR.collect_stats a1 [Inputs.recent_torn] in
  AR.is_snapshot Inputs.recent_torn = false
  /\ AR.ip_of Inputs.recent_torn = "10.0.0.1"
  /\ AR.goods (AR.stats a2) = PInt 0
  /\ AR.processed (AR.stats a2) = PInt 0
  /\ AR.active_servers (AR.stats a2) = 0%nat
  /\ AR.servers (AR.stats a2) = 1%nat
  /\ AR.ip <$> (AR.server_stats a2 !! "10.0.0.1") = Some "10.0.0.1".
Proof. vm_compute. repeat split. Qed.


(** C5, amended (partial-failure tolerance). Let every file be missing,
    malformed, or a well-typed snapshot (for the refactored aggregator
    also: a JSON document that is no object). The refactored aggregator's
    cycle gives the result it would give without the unreadable files; each
    aggregated counter is the sum of that counter over the snapshots
    readable in the cycle; only files read in the cycle can be counted
    active; an unreadable source whose ip was not in [server_stats]
    before the cycle, and is not the ip of a readable file, is not in
    [server_stats] after it. For aggregator.py, with [total_lines >= 1]
    and a clock that did not go back, the cycle produces its status line,
    whose totals are the sums over the readable snapshots of the
    reachable hosts. *)
Theorem unreadable_sources_are_skipped
    (a : AR.aggregator) (files : list AR.stats_file)
    (hosts : list AG.host) (start : Qc) (total_lines : Z) (now : Qc)
    (Hfiles : Forall (fun f => well_typed (AR.content f) = true) files)
    (Hhosts : Forall (fun r => well_formed r = true) (AG.reads hosts))
    (Htotal : (1 <= total_lines)%Z)
    (Hclock : (start <= now)%Qc) :
  let a' := AR.collect_stats a files in
  let rs := map AR.content files in
  a' = AR.collect_stats a (List.filter AR.is_snapshot files)
  /\ (AR.goods (AR.stats a') = PInt (sum_int "goods" rs)
      /\ AR.bads (AR.stats a') = PInt (sum_int "bads" rs)
      /\ AR.errors (AR.stats a') = PInt (sum_int "errors" rs)
      /\ AR.offline (AR.stats a') = PInt (sum_int "offline" rs)
      /\ AR.ipblock (AR.stats a') = PInt (sum_int "ipblock" rs)
      /\ AR.processed (AR.stats a') = PInt (sum_int "processed" rs)
      /\ AR.rps (AR.stats a') = PFloat (sum_num "rps" rs))
  /\ AR.active_servers (AR.stats a')
     = size (list_to_set (map AR.ip_of (List.filter AR.is_active files)) : gset string)
  /\ (forall f, In f files -> AR.is_snapshot f = false ->
        AR.server_stats a !! AR.ip_of f = None ->
        ~ In (AR.ip_of f) (map AR.ip_of (List.filter AR.is_snapshot files)) ->
        AR.server_stats a' !! AR.ip_of f = None)
  /\ (exists v, AG.cycle start total_lines hosts now = Some v
        /\ AG.v_goods v = PInt (sum_int "goods" (AG.reads hosts))
        /\ AG.v_bads v = PInt (sum_int "bads" (AG.reads hosts))
        /\ AG.v_errors v = PInt (sum_int "errors" (AG.reads hosts))
        /\ AG.v_offline v = PInt (sum_int "offline" (AG.reads hosts))
        /\ AG.v_ipblock v = PInt (sum_int "ipblock" (AG.reads hosts))
        /\ AG.v_processed v = PInt (sum_int "processed" (AG.reads hosts))).
Proof.
  intros a' rs. split; [|split; [|split; [|split]]].
  - subst a'. unfold AR.collect_stats, AR.collect_loop.
    rewrite <- collect_loop_skip. reflexivity.
  - apply collect_stats_totals. exact Hfiles.
  - subst a'. unfold AR.collect_stats, AR.collect_loop. cbn [AR.stats AR.active_servers].
    rewrite collect_loop_active. cbn [AR.l_active]. f_equal. set_solver.
  - intros f Hin Hs Hold Hother. subst a'. unfold AR.collect_stats, AR.collect_loop.
    cbn [AR.server_stats]. rewrite collect_loop_registry_other by exact Hother. exact Hold.
  - apply cycle_of_snapshots; assumption.
Qed.

Lemma five_sources_well_formed :
  Forall (fun f => well_typed (AR.content f) = true) Inputs.five_sources.
Proof. repeat constructor. Qed.

Lemma two_hosts_well_formed :
  Forall (fun r => well_formed r = true) (AG.reads Inputs.two_hosts).
Proof. repeat constructor. Qed.


(** Five sources, two of them unreadable, on a new aggregator; and two
    hosts, one unreachable, for aggregator.py. *)
Lemma unreadable_sources_are_skipped_witness :
  let a' := AR.collect_stats (AR.new_aggregator (Qc_of_Z 0)) Inputs.five_sources in
  AR.goods (AR.stats a') = PInt 8
  /\ AR.bads (AR.stats a') = PInt 24
  /\ AR.processed (AR.stats a') = PInt 32
  /\ AR.server_stats a' !! "10.0.0.3" = None
  /\ AR.server_stats a' !! "10.0.0.4" = None
  /\ (exists v, AG.cycle (Qc_of_Z 0) 10 Inputs.two_hosts (Qc_of_Z 1) = Some v
        /\ AG.v_processed v = PInt 10).
Proof.
  assert (Htotal : (1 <= 10)%Z) by discriminate.
  assert (Hclock : (Qc_of_Z 0 <= Qc_of_Z 1)%Qc) by discriminate.
  pose proof (unreadable_sources_are_skipped (AR.new_aggregator (Qc_of_Z 0))
                Inputs.five_sources Inputs.two_hosts (Qc_of_Z 0) 10 (Qc_of_Z 1)
                five_sources_well_formed two_hosts_well_formed Htotal Hclock) as H.
  cbv zeta in H.
  destruct H as (_ & (Hg & Hb & _ & _ & _ & Hp & _) & _ & Habsent & Hcycle).
  split; [exact Hg|]. split; [exact Hb|]. split; [exact Hp|].
  split; [|split].
  - apply (Habsent (Inputs.file_at_1000 "stats_10.0.0.3" Missing)).
    + simpl. auto.
    + reflexivity.
    + reflexivity.
    + vm_compute. intuition discriminate.
  - apply (Habsent (Inputs.file_at_1000 "stats_10.0.0.4" Malformed)).
    + simpl. auto 6.
    + reflexivity.
    + reflexivity.
    + vm_compute. intuition discriminate.
  - destruct Hcycle as (v & Hv & _ & _ & _ & _ & _ & Hvp).
    exists v. split; [exact Hv|exact Hvp].
Defined.

(* ===================================================================== *)
(** * Aggregators: liveness *)
(* ===================================================================== *)

Lemma active_is_snapshot f : AR.is_active f = true -> AR.is_snapshot f = true.
Proof.
  unfold AR.is_active, AR.is_snapshot. destruct (snapshot_of (AR.content f)); auto.
Qed.

Lemma active_ips_among_snapshot_ips files x :
  In x (map AR.ip_of (List.filter AR.is_active files)) ->
  In x (map AR.ip_of (List.filter AR.is_snapshot files)).
Proof.
  induction files as [|f files IH]; simpl; [auto|].
  destruct (AR.is_active f) eqn:Ha.
  - rewrite (active_is_snapshot _ Ha). simpl. intros [H|H]; auto.
  - intros H. destruct (AR.is_snapshot f); simpl; auto.
Qed.

Lemma nodup_active_ips files :
  List.NoDup (map AR.ip_of (List.filter AR.is_snapshot files)) ->
  List.NoDup (map AR.ip_of (List.filter AR.is_active files)).
Proof.
  induction files as [|f files IH]; simpl; [auto|].
  destruct (AR.is_active f) eqn:Ha.
  - rewrite (active_is_snapshot _ Ha). simpl. intros Hnd.
    inversion Hnd as [|? ? Hnotin Hrest]; subst. constructor; [|auto].
    intros Hin. apply Hnotin. apply active_ips_among_snapshot_ips. exact Hin.
  - intros Hnd. apply IH. destruct (AR.is_snapshot f); [|exact Hnd].
    simpl in Hnd. inversion Hnd; assumption.
Qed.

Lemma collect_stats_active_count (a : AR.aggregator) (files : list AR.stats_file) :
  List.NoDup (map AR.ip_of (List.filter AR.is_snapshot files)) ->
  AR.active_servers (AR.stats (AR.collect_stats a files))
  = length (List.filter AR.is_active files).
Proof.
  intros Hnd. unfold AR.collect_stats, AR.collect_loop. cbn [AR.stats AR.active_servers].
  rewrite collect_loop_active. cbn [AR.l_active].
  rewrite (left_id_L ∅ (∪)).
  rewrite size_list_to_set, length_map; [reflexivity|].
  apply NoDup_ListNoDup, nodup_active_ips, Hnd.
Qed.

Lemma collect_stats_servers_fresh (a : AR.aggregator) (files : list AR.stats_file) :
  AR.server_stats a = ∅ ->
  List.NoDup (map AR.ip_of (List.filter AR.is_snapshot files)) ->
  AR.servers (AR.stats (AR.collect_stats a files))
  = length (List.filter AR.is_snapshot files).
Proof.
  intros Hempty Hnd. unfold AR.collect_stats, AR.collect_loop. cbn [AR.stats AR.servers].
  rewrite <- size_dom, collect_loop_registry_dom. cbn [AR.l_server_stats].
  rewrite Hempty, dom_empty_L, (left_id_L ∅ (∪)).
  rewrite size_list_to_set, length_map; [reflexivity|].
  apply NoDup_ListNoDup, Hnd.
Qed.

Lemma is_active_by_age (f : AR.stats_file) (d : gmap string jval) (n : pynum) :
  snapshot_of (AR.content f) = Some d ->
  d !! "timestamp" = Some (VNum n) ->
  AR.is_active f = bool_decide (AR.clock_check f - to_Qc n < AR.LIVENESS_WINDOW)%Qc.
Proof.
  intros Hd Ht. unfold AR.is_active. rewrite Hd.
  unfold AR.age, AR.from_dict, get. cbn [AR.timestamp]. rewrite Ht. reflexivity.
Qed.

(** C6 (liveness classification). Let every file be missing, malformed,
    no JSON object, or a well-typed snapshot, with distinct ips among the
    snapshots. A
    snapshot whose timestamp is less than 30 s before the clock reading of
    the liveness test is active, one whose timestamp is 30 s or more
    before it is not; [active_servers] is the number of active snapshots;
    the totals are the sums over all snapshots read, stale ones included;
    on an aggregator that has no server registered yet, [servers] is the
    number of snapshots read. *)
Theorem liveness_classification
    (a : AR.aggregator) (files : list AR.stats_file)
    (Hfiles : Forall (fun f => well_typed (AR.content f) = true) files)
    (Hnodup : List.NoDup (map AR.ip_of (List.filter AR.is_snapshot files))) :
  let a' := AR.collect_stats a files in
  let rs := map AR.content files in
  (forall f d n, In f files -> snapshot_of (AR.content f) = Some d ->
     d !! "timestamp" = Some (VNum n) ->
     ((AR.clock_check f - to_Qc n < Qc_of_Z 30)%Qc -> AR.is_active f = true)
     /\ ((Qc_of_Z 30 <= AR.clock_check f - to_Qc n)%Qc -> AR.is_active f = false))
  /\ AR.active_servers (AR.stats a') = length (List.filter AR.is_active files)
  /\ (AR.server_stats a = ∅ ->
      AR.servers (AR.stats a') = length (List.filter AR.is_snapshot files))
  /\ (AR.goods (AR.stats a') = PInt (sum_int "goods" rs)
      /\ AR.bads (AR.stats a') = PInt (sum_int "bads" rs)
      /\ AR.errors (AR.stats a') = PInt (sum_int "errors" rs)
      /\ AR.offline (AR.stats a') = PInt (sum_int "offline" rs)
      /\ AR.ipblock (AR.stats a') = PInt (sum_int "ipblock" rs)
      /\ AR.processed (AR.stats a') = PInt (sum_int "processed" rs)
      /\ AR.rps (AR.stats a') = PFloat (sum_num "rps" rs)).
Proof.
  intros a' rs. split; [|split; [|split]].
  - intros f d n _ Hd Ht. rewrite (is_active_by_age f d n Hd Ht). unfold AR.LIVENESS_WINDOW.
    split; intros H.
    + apply bool_decide_eq_true. exact H.
    + apply bool_decide_eq_false. apply Qcle_not_lt. exact H.
  - apply collect_stats_active_count. exact Hnodup.
  - intros Hempty. apply collect_stats_servers_fresh; assumption.
  - apply collect_stats_totals. exact Hfiles.
Qed.

Lemma scenario_well_formed :
  Forall (fun f => well_typed (AR.content f) = true) [Inputs.recent; Inputs.old].
Proof. repeat constructor. Qed.

Lemma scenario_distinct_ips :
  List.NoDup (map AR.ip_of (List.filter AR.is_snapshot [Inputs.recent; Inputs.old])).
Proof.
  vm_compute. repeat constructor; simpl; intuition discriminate.
Qed.


(** The scenario: one snapshot timestamped 10 s ago, one 60 s ago. *)
Lemma liveness_classification_witness :
  let a' := AR.collect_stats (AR.new_aggregator (Qc_of_Z 0)) [Inputs.recent; Inputs.old] in
  AR.is_active Inputs.recent = true
  /\ AR.is_active Inputs.old = false
  /\ AR.active_servers (AR.stats a') = 1%nat
  /\ AR.servers (AR.stats a') = 2%nat
  /\ AR.processed (AR.stats a') = PInt 30.
Proof.
  pose proof (liveness_classification (AR.new_aggregator (Qc_of_Z 0))
                [Inputs.recent; Inputs.old]
                scenario_well_formed scenario_distinct_ips) as H.
  cbv zeta in H.
  destruct H as (Hclass & Hact & Hservers & (_ & _ & _ & _ & _ & Hp & _)).
  split; [|split; [|split; [|split]]].
  - apply (Hclass Inputs.recent (Inputs.worker_snapshot 3 7 10 (Qc_of_Z 5) 990) (PInt 990)).
    + simpl. auto.
    + reflexivity.
    + reflexivity.
    + reflexivity.
  - apply (Hclass Inputs.old (Inputs.worker_snapshot 4 16 20 (Qc_of_Z 7) 940) (PInt 940)).
    + simpl. auto.
    + reflexivity.
    + reflexivity.
    + discriminate.
  - exact Hact.
  - apply Hservers. reflexivity.
  - exact Hp.
Defined.

Lemma py_int_within_one (t : Qc) : (t - Qc_of_Z (py_int t) < 1)%Qc.
Proof.
  unfold Qclt, py_int. destruct t as [[n d] Hc]. cbn [this Qnum Qden].
  unfold Qcminus, Qcplus, Qcopp, Q2Qc, Qc_of_Z. cbn [this].
  rewrite !Qred_correct.
  unfold Qlt, Qplus, Qopp, inject_Z. cbn [Qnum Qden].
  pose proof (Z.quot_rem' n (Z.pos d)) as Hqr.
  assert (Hrem : (Z.rem n (Z.pos d) < Z.pos d)%Z).
  { pose proof (Z.rem_bound_abs n (Z.pos d)). lia. }
  rewrite Pos2Z.inj_mul. nia.
Qed.

Lemma default_timestamp_is_active (f : AR.stats_file) (d : gmap string jval) :
  snapshot_of (AR.content f) = Some d ->
  d !! "timestamp" = None ->
  (AR.clock_check f - AR.clock_from_dict f < Qc_of_Z 29)%Qc ->
  AR.is_active f = true.
Proof.
  intros Hd Ht Hclock. unfold AR.is_active. rewrite Hd.
  unfold AR.age, AR.from_dict, get. cbn [AR.timestamp]. rewrite Ht. cbn.
  apply bool_decide_eq_true. unfold AR.LIVENESS_WINDOW.
  pose proof (py_int_within_one (AR.clock_from_dict f)) as Hint.
  replace (AR.clock_check f - Qc_of_Z (py_int (AR.clock_from_dict f)))%Qc
    with ((AR.clock_check f - AR.clock_from_dict f)
          + (AR.clock_from_dict f - Qc_of_Z (py_int (AR.clock_from_dict f))))%Qc by ring.
  replace (Qc_of_Z 30) with (Qc_of_Z 29 + 1)%Qc by (apply Qc_is_canon; reflexivity).
  eapply Qclt_trans; [apply Qcplus_lt_mono_r, Hclock | apply Qcplus_lt_mono_l, Hint].
Qed.

(** C10 (a missing timestamp defaults to active). For a file that parses
    to a JSON object without a [timestamp] key, [from_dict] stores
    [int(time.time())] as the timestamp; if the liveness test reads the
    clock less than 29 s after [from_dict] did, the file passes the test,
    its ip is in the active set of the cycle and [active_servers] is at
    least 1, whatever aggregator state the cycle starts from. The dict
    vpn_scanner.py serialises has no [timestamp] key. *)
Theorem missing_timestamp_counts_as_active
    (a : AR.aggregator) (files : list AR.stats_file) (f : AR.stats_file)
    (d : gmap string jval)
    (Hin : In f files)
    (Hd : snapshot_of (AR.content f) = Some d)
    (Hts : d !! "timestamp" = None)
    (Hclock : (AR.clock_check f - AR.clock_from_dict f < Qc_of_Z 29)%Qc) :
  AR.timestamp (AR.from_dict (AR.ip_of f) d (AR.clock_from_dict f))
    = VNum (PInt (py_int (AR.clock_from_dict f)))
  /\ AR.is_active f = true
  /\ AR.ip_of f ∈ AR.l_active (AR.collect_loop a files)
  /\ (1 <= AR.active_servers (AR.stats (AR.collect_stats a files)))%nat
  /\ (forall s rps, Publisher.scanner_snapshot s rps !! "timestamp" = None).
Proof.
  assert (Hact : AR.is_active f = true)
    by (eapply default_timestamp_is_active; eassumption).
  assert (Hmem : AR.ip_of f ∈ AR.l_active (AR.collect_loop a files)).
  { unfold AR.collect_loop. rewrite collect_loop_active. cbn [AR.l_active].
    apply elem_of_union_r, elem_of_list_to_set, list_elem_of_In, in_map.
    apply filter_In. split; assumption. }
  split; [|split; [|split; [|split]]].
  - unfold AR.from_dict, get. cbn [AR.timestamp]. rewrite Hts. reflexivity.
  - exact Hact.
  - exact Hmem.
  - unfold AR.collect_stats. cbn [AR.stats AR.active_servers].
    destruct (size (AR.l_active (AR.collect_loop a files))) eqn:Hsz; [|lia].
    apply size_empty_iff in Hsz. rewrite Hsz in Hmem. set_solver.
  - intros s rps. reflexivity.
Qed.


(** A snapshot written by vpn_scanner.py, on a new aggregator. *)
Lemma missing_timestamp_counts_as_active_witness :
  let a := AR.new_aggregator (Qc_of_Z 0) in
  AR.timestamp (AR.from_dict "4242"
                  (Publisher.scanner_snapshot
                     {| Scanner.goods := 1; Scanner.bads := 2; Scanner.errors := 0;
                        Scanner.offline := 0; Scanner.ipblock := 0; Scanner.processed := 3 |}
                     (PFloat (Q2Qc (3 # 2))))
                  (Q2Qc (2001 # 2)))
    = VNum (PInt 1000)
  /\ AR.is_active Inputs.scanner_file = true
  /\ "4242" ∈ AR.l_active (AR.collect_loop a [Inputs.scanner_file])
  /\ (1 <= AR.active_servers (AR.stats (AR.collect_stats a [Inputs.scanner_file])))%nat.
Proof.
  assert (Hclock : (AR.clock_check Inputs.scanner_file
                    - AR.clock_from_dict Inputs.scanner_file < Qc_of_Z 29)%Qc)
    by reflexivity.
  destruct (missing_timestamp_counts_as_active (AR.new_aggregator (Qc_of_Z 0))
              [Inputs.scanner_file] Inputs.scanner_file _
              (or_introl eq_refl) eq_refl eq_refl Hclock)
    as (Hts & Hact & Hmem & Hcount & _).
  split; [exact Hts|]. split; [exact Hact|]. split; [exact Hmem|exact Hcount].
Defined.

(* ===================================================================== *)
(** * Aggregators: rps *)
(* ===================================================================== *)

Lemma forget_rps_reads (h : AG.host) :
  AG.host_reads (AG.forget_rps h) = map AG.forget_rps_doc (AG.host_reads h).
Proof.
  destruct h as [|files]; [reflexivity|]. simpl.
  induction files as [|[fname r] files IH]; simpl; [reflexivity|].
  destruct (PyStr.startswith fname "stats_" && PyStr.endswith fname ".json"); simpl;
    rewrite IH; reflexivity.
Qed.

Lemma sum_get_forget_rps (k : string) (rs : list read_result) : forall acc,
  k <> "rps" ->
  AG.sum_get k acc
    (omap (fun r => match r with Parsed doc => Some doc | _ => None end)
       (map AG.forget_rps_doc rs))
  = AG.sum_get k acc
      (omap (fun r => match r with Parsed doc => Some doc | _ => None end) rs).
Proof.
  intros acc Hk. revert acc. induction rs as [|r rs IH]; intros acc; [reflexivity|].
  destruct r as [| |[d|]]; simpl; try apply IH; try reflexivity.
  unfold get. rewrite lookup_delete_ne by congruence.
  destruct (add_value acc _); [apply IH|reflexivity].
Qed.

Lemma tot_forget_rps (hosts : list AG.host) (k : string) :
  k <> "rps" ->
  AG.tot (concat (map AG.collect (map AG.forget_rps hosts))) k
  = AG.tot (concat (map AG.collect hosts)) k.
Proof.
  intros Hk. unfold AG.tot. rewrite !omap_concat_reads.
  replace (AG.reads (map AG.forget_rps hosts)) with (map AG.forget_rps_doc (AG.reads hosts)).
  - apply sum_get_forget_rps. exact Hk.
  - unfold AG.reads. induction hosts as [|h hosts IH]; simpl; [reflexivity|].
    rewrite map_app, IH, forget_rps_reads. reflexivity.
Qed.

Lemma cycle_forget_rps start total_lines hosts now :
  AG.cycle start total_lines (map AG.forget_rps hosts) now
  = AG.cycle start total_lines hosts now.
Proof.
  unfold AG.cycle. rewrite !tot_forget_rps by discriminate. reflexivity.
Qed.

Lemma cycle_speed start total_lines hosts now v :
  AG.cycle start total_lines hosts now = Some v ->
  exists p, AG.tot (concat (map AG.collect hosts)) "processed" = Some p
    /\ AG.v_processed v = p
    /\ (now - start + Q2Qc (1 # 1000))%Qc <> 0%Qc
    /\ AG.v_speed v = (to_Qc p / (now - start + Q2Qc (1 # 1000)))%Qc.
Proof.
  unfold AG.cycle. intros H.
  destruct (AG.tot _ "processed") as [p|]; [|discriminate H]. cbn in H.
  destruct (py_div (to_Qc p) (Qc_of_Z total_lines)) as [per|]; [|discriminate H]. cbn in H.
  unfold py_div in H at 1.
  destruct (bool_decide _) eqn:Hz; [discriminate H|]. cbn in H.
  apply bool_decide_eq_false in Hz.
  repeat match type of H with
  | context [AG.tot ?l ?k] => destruct (AG.tot l k); [cbn in H|discriminate H]
  end.
  injection H as <-. exists p. repeat split; auto.
Qed.

(** C7, as stated, fails. aggregator.py, one second after its start, with
    10 items processed: the speed is 10/1.001, not 10/1. The refactored
    aggregator, with workers reporting rps 5 and 7 and 30 items
    processed: its rps is 12, the sum of the per-worker values, whereas
    30 items over the 1000 s since its start would be 0.03. *)
Lemma speed_is_not_processed_over_elapsed :
  (exists v, AG.cycle (Qc_of_Z 0) 10 Inputs.two_hosts (Qc_of_Z 1) = Some v
     /\ AG.v_processed v = PInt 10
     /\ this (AG.v_speed v) = (10000 # 1001)%Q
     /\ this (Qc_of_Z 10 / (Qc_of_Z 1 - Qc_of_Z 0))%Qc = (10 # 1)%Q)
  /\ (let a' := AR.collect_stats (AR.new_aggregator (Qc_of_Z 0)) [Inputs.recent; Inputs.old] in
      AR.processed (AR.stats a') = PInt 30
      /\ this (to_Qc (AR.rps (AR.stats a'))) = (12 # 1)%Q
      /\ this (Qc_of_Z 5 + Qc_of_Z 7)%Qc = (12 # 1)%Q
      /\ this (Qc_of_Z 30 / (Qc_of_Z 1000 - Qc_of_Z 0))%Qc = (3 # 100)%Q).
Proof.
  split.
  - eexists. split; [vm_compute; reflexivity|]. vm_compute. repeat split.
  - vm_compute. repeat split.
Qed.


(** C7, amended (aggregate rps of aggregator.py). For every status line
    that [main] produces, in whatever cycle: the speed is the total of
    [processed] over the snapshots collected in that cycle divided by
    [now - start + 0.001], where [start] is the one value read before the
    loop; and the line is unchanged when the [rps] entry is taken out of
    every snapshot, so the speed is derived from no per-worker rps. *)
Theorem aggregate_speed_formula
    (start : Qc) (total_lines : Z) (cycles : list (list AG.host * Qc))
    (n : nat) (v : AG.view)
    (Hn : AG.main_loop start total_lines cycles !! n = Some v) :
  exists hosts now p,
    cycles !! n = Some (hosts, now)
    /\ AG.tot (concat (map AG.collect hosts)) "processed" = Some p
    /\ AG.v_processed v = p
    /\ (now - start + Q2Qc (1 # 1000))%Qc <> 0%Qc
    /\ AG.v_speed v = (to_Qc p / (now - start + Q2Qc (1 # 1000)))%Qc
    /\ AG.cycle start total_lines (map AG.forget_rps hosts) now = Some v.
Proof.
  revert n Hn. induction cycles as [|[hosts now] cycles IH]; intros n Hn.
  - simpl in Hn. rewrite lookup_nil in Hn. discriminate Hn.
  - simpl in Hn. destruct (AG.cycle start total_lines hosts now) as [v0|] eqn:Hc.
    + destruct n as [|n].
      * simpl in Hn. injection Hn as ->.
        destruct (cycle_speed _ _ _ _ _ Hc) as (p & Hp & Hv & Hnz & Hs).
        exists hosts, now, p. rewrite cycle_forget_rps. auto 10.
      * simpl in Hn. destruct (IH n Hn) as (hosts' & now' & p & H).
        exists hosts', now', p. exact H.
    + rewrite lookup_nil in Hn. discriminate Hn.
Qed.


Lemma two_cycles_second_view :
  exists v, AG.main_loop (Qc_of_Z 0) 10 Inputs.two_cycles !! 1%nat = Some v.
Proof. eexists. vm_compute. reflexivity. Defined.


(** The second cycle of a loop over two hosts. *)
Lemma aggregate_speed_formula_witness :
  exists v hosts now p,
    AG.main_loop (Qc_of_Z 0) 10 Inputs.two_cycles !! 1%nat = Some v
    /\ Inputs.two_cycles !! 1%nat = Some (hosts, now)
    /\ AG.tot (concat (map AG.collect hosts)) "processed" = Some p
    /\ AG.v_speed v = (to_Qc p / (now - Qc_of_Z 0 + Q2Qc (1 # 1000)))%Qc.
Proof.
  destruct two_cycles_second_view as [v Hv].
  destruct (aggregate_speed_formula (Qc_of_Z 0) 10 Inputs.two_cycles 1 v Hv)
    as (hosts & now & p & Hc & Hp & _ & _ & Hs & _).
  exists v, hosts, now, p. auto.
Defined.


(* ===================================================================== *)
(** * Publishing the snapshot file *)
(* ===================================================================== *)

Lemma tmp_is_not_canonical (base : string) :
  String.append base ".tmp" <> PB.STATS_PATH base.
Proof.
  unfold PB.STATS_PATH. induction base as [|c base IH]; simpl.
  - discriminate.
  - intros H. injection H as H. exact (IH H).
Qed.

Lemma dump_stats_atomic (fs : gmap string string) (base old new : string) :
  fs !! PB.STATS_PATH base = Some old ->
  PB.observations fs (PB.dump_stats_write base new) (PB.STATS_PATH base)
  = [Some old; Some old; Some old; Some new].
Proof.
  intros Hold. pose proof (tmp_is_not_canonical base) as Hne.
  unfold PB.observations, PB.dump_stats_write, PB.states, PB.apply_op.
  rewrite lookup_insert_eq. rewrite lookup_insert_eq.
  cbn [map]. rewrite !lookup_insert_ne by exact Hne.
  rewrite lookup_insert_eq. rewrite Hold. reflexivity.
Qed.

Lemma update_stats_observations (fs : gmap string string) (stats_file new : string) :
  PB.observations fs (PB.update_stats_write stats_file new) stats_file
  = [fs !! stats_file; Some ""; Some new].
Proof.
  unfold PB.observations, PB.update_stats_write, PB.states, PB.apply_op.
  rewrite lookup_insert_eq. cbn [map]. rewrite !lookup_insert_eq. reflexivity.
Qed.

(** C3 (atomic snapshot publish). The periodic write of vpn_scanner.py
    opens the canonical file for writing and dumps into it: between the
    two steps a reader finds the file empty, which is neither the old nor
    the new snapshot (no JSON document is empty). The periodic write of
    sers1.py goes through a temporary file and a rename: every reader
    finds the old or the new text. *)
Theorem periodic_write_exposes_truncated_file
    (fs : gmap string string) (stats_file base old new : string)
    (Hold : old <> "") (Hnew : new <> "")
    (Hfile : fs !! stats_file = Some old)
    (Hpath : fs !! PB.STATS_PATH base = Some old) :
  In (Some "") (PB.observations fs (PB.update_stats_write stats_file new) stats_file)
  /\ Some "" <> Some old /\ Some "" <> Some new
  /\ Forall (fun o => o = Some old \/ o = Some new)
       (PB.observations fs (PB.dump_stats_write base new) (PB.STATS_PATH base)).
Proof.
  split; [|split; [|split]].
  - rewrite update_stats_observations. simpl. auto.
  - congruence.
  - congruence.
  - rewrite (dump_stats_atomic fs base old new Hpath).
    repeat first [apply List.Forall_nil | apply List.Forall_cons]; auto.
Qed.

(** A directory holding one old snapshot. *)
Lemma periodic_write_exposes_truncated_file_witness :
  In (Some "")
    (PB.observations Inputs.directory
       (PB.update_stats_write "stats_4242.json" Inputs.new_text) "stats_4242.json")
  /\ Some "" <> Some Inputs.old_text /\ Some "" <> Some Inputs.new_text
  /\ Forall (fun o => o = Some Inputs.old_text \/ o = Some Inputs.new_text)
       (PB.observations Inputs.directory
          (PB.dump_stats_write "stats_4242" Inputs.new_text) (PB.STATS_PATH "stats_4242")).
Proof.
  apply (periodic_write_exposes_truncated_file Inputs.directory "stats_4242.json"
           "stats_4242" Inputs.old_text Inputs.new_text).
  - discriminate.
  - discriminate.
  - reflexivity.
  - reflexivity.
Defined.

(* ===================================================================== *)
(** * String primitives: prefixes, suffixes, split and join *)
(* ===================================================================== *)

Lemma append_cons (x : ascii) (a b : string) :
  String.append (String x a) b = String x (String.append a b).
Proof. reflexivity. Qed.

Lemma append_char (x : ascii) (b : string) :
  String.append (String x "") b = String x b.
Proof. reflexivity. Qed.

Lemma append_assoc (a b c : string) :
  String.append (String.append a b) c = String.append a (String.append b c).
Proof.
  induction a as [|x a IH]; [reflexivity|]. rewrite !append_cons. f_equal. exact IH.
Qed.

Lemma append_nil_r (a : string) : String.append a "" = a.
Proof. induction a as [|x a IH]; [reflexivity|]. rewrite append_cons. f_equal. exact IH. Qed.

Lemma startswith_spec (s p : string) :
  PyStr.startswith s p = true <-> exists t, s = String.append p t.
Proof.
  revert s. induction p as [|a p IH]; intros s.
  - split; [intros _; exists s; reflexivity|intros _; destruct s; reflexivity].
  - destruct s as [|b s]; cbn [PyStr.startswith].
    + split; [discriminate|]. intros [t Ht]. discriminate Ht.
    + destruct (Ascii.eqb_spec a b) as [->|Hne].
      * rewrite IH. split; intros [t Ht]; exists t.
        -- rewrite append_cons. f_equal. exact Ht.
        -- rewrite append_cons in Ht. injection Ht as Ht. exact Ht.
      * split; [discriminate|]. intros [t Ht]. rewrite append_cons in Ht.
        injection Ht as Hab _. congruence.
Qed.

Lemma startswith_append (p t : string) : PyStr.startswith (String.append p t) p = true.
Proof. apply startswith_spec. exists t. reflexivity. Qed.

Lemma startswith_append_l (s p t : string) :
  PyStr.startswith s p = true -> PyStr.startswith (String.append s t) p = true.
Proof.
  rewrite !startswith_spec. intros [u ->]. exists (String.append u t). apply append_assoc.
Qed.

Lemma rev_onto_append (a b acc : string) :
  PyStr.rev_onto (String.append a b) acc = PyStr.rev_onto b (PyStr.rev_onto a acc).
Proof. revert acc. induction a as [|x a IH]; intros acc; simpl; [reflexivity|]. apply IH. Qed.

Lemma rev_onto_acc (s acc : string) :
  PyStr.rev_onto s acc = String.append (PyStr.rev_onto s "") acc.
Proof.
  revert acc. induction s as [|x s IH]; intros acc; simpl; [reflexivity|].
  rewrite (IH (String x acc)), (IH (String x "")), append_assoc. reflexivity.
Qed.

Lemma rev_onto_involutive (s : string) : PyStr.rev_onto (PyStr.rev_onto s "") "" = s.
Proof.
  induction s as [|x s IH]; [reflexivity|]. cbn [PyStr.rev_onto].
  rewrite (rev_onto_acc s (String x "")), rev_onto_append, IH. reflexivity.
Qed.

Lemma endswith_spec (s p : string) :
  PyStr.endswith s p = true <-> exists t, s = String.append t p.
Proof.
  unfold PyStr.endswith. rewrite startswith_spec. split.
  - intros [t Ht]. exists (PyStr.rev_onto t "").
    rewrite <- (rev_onto_involutive s), Ht, rev_onto_append, rev_onto_involutive.
    apply rev_onto_acc.
  - intros [t ->]. exists (PyStr.rev_onto t "").
    rewrite rev_onto_append. apply rev_onto_acc.
Qed.

Lemma endswith_append (t p : string) : PyStr.endswith (String.append t p) p = true.
Proof. apply endswith_spec. exists t. reflexivity. Qed.

(* ===================================================================== *)
(** * vpn_scanner.py: the request of each check *)
(* ===================================================================== *)

Lemma login_url_ends (path ip : string) :
  PyStr.startswith (Scanner.login_url path ip) "http" = true
  /\ PyStr.endswith (Scanner.login_url path ip) (String.append "/" path) = true
  /\ (PyStr.startswith ip "http" = false ->
      PyStr.startswith (Scanner.login_url path ip) "https://" = true).
Proof.
  unfold Scanner.login_url.
  set (ip' := if PyStr.startswith ip "http" then ip else String.append "https://" ip).
  assert (Hhttp : PyStr.startswith ip' "http" = true).
  { subst ip'. destruct (PyStr.startswith ip "http") eqn:H; [exact H|reflexivity]. }
  assert (Hhttps : PyStr.startswith ip "http" = false -> PyStr.startswith ip' "https://" = true).
  { intros H. subst ip'. rewrite H. apply startswith_append. }
  destruct (PyStr.endswith ip' (String.append "/" path)) eqn:He.
  - auto.
  - destruct (PyStr.endswith ip' "/") eqn:Hs.
    + split; [apply startswith_append_l, Hhttp|]. split.
      * apply endswith_spec in Hs as [t ->]. rewrite append_assoc. apply endswith_append.
      * intros H. apply startswith_append_l, Hhttps, H.
    + split; [apply startswith_append_l, Hhttp|]. split.
      * apply endswith_append.
      * intros H. apply startswith_append_l, Hhttps, H.
Qed.

Lemma login_url_fixed (path u : string) :
  PyStr.startswith u "http" = true ->
  PyStr.endswith u (String.append "/" path) = true ->
  Scanner.login_url path u = u.
Proof. intros H1 H2. unfold Scanner.login_url. rewrite H1, H2. reflexivity. Qed.

(** X1 (login URL). Whatever address a credential line carries, the URL a
    check posts to starts with [http] and ends with the login path of its
    VPN type. It is the address, with [https://] in front when it does not
    start with [http], followed by exactly what is missing of the path:
    nothing when the path is already there, the path without its slash
    when the address ends with a slash (so no second slash is put at the
    join, for a bare address as for one with a scheme), the slash and the
    path otherwise. *)
Theorem login_url_shape (path ip : string) :
  let base := if PyStr.startswith ip "http" then ip else String.append "https://" ip in
  let url := Scanner.login_url path ip in
  PyStr.startswith url "http" = true
  /\ PyStr.endswith url (String.append "/" path) = true
  /\ (PyStr.startswith ip "http" = false -> PyStr.startswith url "https://" = true)
  /\ (PyStr.endswith base (String.append "/" path) = true -> url = base)
  /\ (PyStr.endswith base (String.append "/" path) = false ->
      PyStr.endswith base "/" = true -> url = String.append base path)
  /\ (PyStr.endswith base (String.append "/" path) = false ->
      PyStr.endswith base "/" = false ->
      url = String.append base (String.append "/" path))
  /\ (PyStr.endswith ip "/" = true -> PyStr.endswith base "/" = true).
Proof.
  intros base url. destruct (login_url_ends path ip) as (H1 & H2 & H3).
  split; [exact H1|]. split; [exact H2|]. split; [exact H3|].
  subst url. unfold Scanner.login_url. fold base.
  split; [intros ->; reflexivity|].
  split; [intros -> ->; reflexivity|].
  split; [intros -> ->; reflexivity|].
  intros Hs. subst base. destruct (PyStr.startswith ip "http"); [exact Hs|].
  apply endswith_spec in Hs as [t ->]. rewrite <- append_assoc. apply endswith_append.
Qed.

(** A bare address that ends with a slash, one that does not, and a full
    URL. *)
Example login_url_of_bare_address :
  Scanner.fortinet_url "1.2.3.4/" = "https://1.2.3.4/remote/login"
  /\ Scanner.fortinet_url "1.2.3.4:10443" = "https://1.2.3.4:10443/remote/login"
  /\ Scanner.fortinet_url "http://vpn.example.com/" = "http://vpn.example.com/remote/login"
  /\ Scanner.fortinet_url "https://example.com/remote/login"
     = "https://example.com/remote/login".
Proof. repeat split. Qed.

(** X2 (login URL, fixed points). Normalising twice is normalising once,
    and a URL that already starts with [http] and ends with the login path
    is posted to as it is. *)
Theorem login_url_idempotent (path ip : string) :
  Scanner.login_url path (Scanner.login_url path ip) = Scanner.login_url path ip
  /\ (PyStr.startswith ip "http" = true ->
      PyStr.endswith ip (String.append "/" path) = true ->
      Scanner.login_url path ip = ip).
Proof.
  split; [|apply login_url_fixed].
  destruct (login_url_ends path ip) as (H1 & H2 & _). apply login_url_fixed; assumption.
Qed.

Lemma split_free (sep : ascii) (a : string) :
  PyStr.free_of sep a = true -> PyStr.split sep a = [a].
Proof.
  induction a as [|c a IH]; [reflexivity|]. cbn [PyStr.free_of PyStr.split].
  intros H. apply andb_true_iff in H as [Hc Ha]. apply negb_true_iff in Hc.
  rewrite Hc, (IH Ha). reflexivity.
Qed.

Lemma split_append (sep : ascii) (a rest : string) :
  PyStr.free_of sep a = true ->
  PyStr.split sep (String.append a (String sep rest)) = a :: PyStr.split sep rest.
Proof.
  induction a as [|c a IH]; intros H.
  - change (String.append "" (String sep rest)) with (String sep rest).
    cbn [PyStr.split]. rewrite Ascii.eqb_refl. reflexivity.
  - cbn [PyStr.free_of] in H. apply andb_true_iff in H as [Hc Ha]. apply negb_true_iff in Hc.
    rewrite append_cons. cbn [PyStr.split]. rewrite Hc, (IH Ha). reflexivity.
Qed.

(** [split] undoes [join] on fields that do not hold the separator. *)
Lemma split_join (sep : ascii) (parts : list string) :
  parts <> [] ->
  Forall (fun p => PyStr.free_of sep p = true) parts ->
  PyStr.split sep (PyStr.join (String sep "") parts) = parts.
Proof.
  induction parts as [|p parts IH]; intros Hne Hfree; [congruence|].
  inversion Hfree as [|? ? Hp Hrest]; subst.
  destruct parts as [|q parts].
  - simpl. apply split_free, Hp.
  - cbn [PyStr.join]. change (String.append (String sep "") ?x) with (String sep x).
    rewrite append_cons. change (String.append "" ?x) with x.
    rewrite (split_append sep p _ Hp). f_equal. apply IH; [discriminate|exact Hrest].
Qed.

(** X3 (WatchGuard line). A line in the format the source documents,
    [https://ip:port:Firebox-DB:domain:user:pass], whose fields hold no
    colon, is taken apart into exactly these fields: the request goes to
    [https://ip:port] with the login path, and the form carries the
    authentication server, the domain, the user and the password. Without
    the last field the password is the one passed by the caller. *)
Theorem watchguard_line_fields
    (host port auth dom user pass pw : string)
    (Hhost : PyStr.free_of ":" host = true) (Hport : PyStr.free_of ":" port = true)
    (Hauth : PyStr.free_of ":" auth = true) (Hdom : PyStr.free_of ":" dom = true)
    (Huser : PyStr.free_of ":" user = true) (Hpass : PyStr.free_of ":" pass = true) :
  let address := String.append "https://" (String.append host (String.append ":" port)) in
  Scanner.watchguard_parse
    (PyStr.join ":" [String.append "https://" host; port; auth; dom; user; pass]) pw
  = Some {| Scanner.wg_url := Scanner.watchguard_url address;
            Scanner.wg_domain := dom; Scanner.wg_username := user;
            Scanner.wg_password := pass; Scanner.wg_authType := auth |}
  /\ Scanner.watchguard_parse
       (PyStr.join ":" [String.append "https://" host; port; auth; dom; user]) pw
     = Some {| Scanner.wg_url := Scanner.watchguard_url address;
               Scanner.wg_domain := dom; Scanner.wg_username := user;
               Scanner.wg_password := pw; Scanner.wg_authType := auth |}.
Proof.
  intros address. subst address.
  assert (Hh : PyStr.free_of ":" (String.append "//" host) = true) by exact Hhost.
  assert (H7 : PyStr.split ":"
                 (PyStr.join ":" [String.append "https://" host; port; auth; dom; user; pass])
               = ["https"; String.append "//" host; port; auth; dom; user; pass]).
  { change (String.append "https://" host) with (String.append "https" (String ":" (String.append "//" host))).
    transitivity (PyStr.split ":"
                    (PyStr.join ":" ["https"; String.append "//" host; port; auth; dom; user; pass])).
    - reflexivity.
    - apply split_join; [discriminate|].
      repeat first [apply List.Forall_nil | apply List.Forall_cons]; auto. }
  assert (H6 : PyStr.split ":"
                 (PyStr.join ":" [String.append "https://" host; port; auth; dom; user])
               = ["https"; String.append "//" host; port; auth; dom; user]).
  { change (String.append "https://" host) with (String.append "https" (String ":" (String.append "//" host))).
    transitivity (PyStr.split ":"
                    (PyStr.join ":" ["https"; String.append "//" host; port; auth; dom; user])).
    - reflexivity.
    - apply split_join; [discriminate|].
      repeat first [apply List.Forall_nil | apply List.Forall_cons]; auto. }
  unfold Scanner.watchguard_parse. rewrite H7, H6. split; reflexivity.
Qed.

(** The documented example line. *)
Lemma watchguard_line_fields_witness :
  Scanner.watchguard_parse "https://1.2.3.4:443:Firebox-DB:corp:user:pass" ""
  = Some {| Scanner.wg_url := "https://1.2.3.4:443/auth.fcc";
            Scanner.wg_domain := "corp"; Scanner.wg_username := "user";
            Scanner.wg_password := "pass"; Scanner.wg_authType := "Firebox-DB" |}.
Proof.
  exact (proj1 (watchguard_line_fields "1.2.3.4" "443" "Firebox-DB" "corp" "user" "pass" ""
                  eq_refl eq_refl eq_refl eq_refl eq_refl eq_refl)).
Defined.

(** X4 (Cisco line). [check_cisco] takes the text before the second colon
    as the address and the next fields as user, password and group. For a
    line [ip:port:user:pass] or [ip:port:user:pass:group] these are the
    fields as written. For a line that begins with a scheme,
    [https://ip:port:user:pass], the colon of the scheme counts: the
    request goes to [https://ip] without the port, and the port, the user
    and the password are sent as user name, password and group. *)
Theorem cisco_line_fields
    (host port user pass group g : string)
    (Hhost : PyStr.free_of ":" host = true) (Hport : PyStr.free_of ":" port = true)
    (Huser : PyStr.free_of ":" user = true) (Hpass : PyStr.free_of ":" pass = true)
    (Hgroup : PyStr.free_of ":" group = true) :
  Scanner.cisco_parse (PyStr.join ":" [host; port; user; pass]) g
  = Some {| Scanner.cs_url := Scanner.cisco_url (String.append host (String.append ":" port));
            Scanner.cs_username := user; Scanner.cs_password := pass;
            Scanner.cs_group_list := g |}
  /\ Scanner.cisco_parse (PyStr.join ":" [host; port; user; pass; group]) g
     = Some {| Scanner.cs_url := Scanner.cisco_url (String.append host (String.append ":" port));
               Scanner.cs_username := user; Scanner.cs_password := pass;
               Scanner.cs_group_list := group |}
  /\ Scanner.cisco_parse (PyStr.join ":" [String.append "https://" host; port; user; pass]) g
     = Some {| Scanner.cs_url := Scanner.cisco_url (String.append "https://" host);
               Scanner.cs_username := port; Scanner.cs_password := user;
               Scanner.cs_group_list := pass |}.
Proof.
  assert (Hh : PyStr.free_of ":" (String.append "//" host) = true) by exact Hhost.
  unfold Scanner.cisco_parse. split; [|split].
  - rewrite split_join; [reflexivity|discriminate|].
    repeat first [apply List.Forall_nil | apply List.Forall_cons]; auto.
  - rewrite split_join; [reflexivity|discriminate|].
    repeat first [apply List.Forall_nil | apply List.Forall_cons]; auto.
  - replace (PyStr.split ":" (PyStr.join ":" [String.append "https://" host; port; user; pass]))
      with ["https"; String.append "//" host; port; user; pass]; [reflexivity|].
    symmetry.
    transitivity (PyStr.split ":"
                    (PyStr.join ":" ["https"; String.append "//" host; port; user; pass])).
    + reflexivity.
    + apply split_join; [discriminate|].
      repeat first [apply List.Forall_nil | apply List.Forall_cons]; auto.
Qed.

Lemma cisco_line_fields_witness :
  Scanner.cisco_parse "1.2.3.4:443:user:pass" ""
  = Some {| Scanner.cs_url := "https://1.2.3.4:443/+webvpn+/index.html";
            Scanner.cs_username := "user"; Scanner.cs_password := "pass";
            Scanner.cs_group_list := "" |}
  /\ Scanner.cisco_parse "https://1.2.3.4:443:user:pass" ""
     = Some {| Scanner.cs_url := "https://1.2.3.4/+webvpn+/index.html";
               Scanner.cs_username := "443"; Scanner.cs_password := "user";
               Scanner.cs_group_list := "pass" |}.
Proof.
  destruct (cisco_line_fields "1.2.3.4" "443" "user" "pass" "" ""
              eq_refl eq_refl eq_refl eq_refl eq_refl) as (H1 & _ & H3).
  split; [exact H1|exact H3].
Defined.

(* ===================================================================== *)
(** * String primitives: [strip] *)
(* ===================================================================== *)

Lemma lstrip_idempotent (s : string) : PyStr.lstrip (PyStr.lstrip s) = PyStr.lstrip s.
Proof.
  induction s as [|c s IH]; [reflexivity|]. cbn [PyStr.lstrip].
  destruct (PyStr.isspace c) eqn:Hc; [exact IH|]. cbn [PyStr.lstrip]. rewrite Hc. reflexivity.
Qed.

Lemma rstrip_cons (c : ascii) (s : string) :
  PyStr.rstrip (String c s)
  = match PyStr.rstrip s with
    | EmptyString => if PyStr.isspace c then EmptyString else String c EmptyString
    | String _ _ => String c (PyStr.rstrip s)
    end.
Proof. cbn [PyStr.rstrip]. destruct (PyStr.rstrip s); reflexivity. Qed.

Lemma rstrip_idempotent (s : string) : PyStr.rstrip (PyStr.rstrip s) = PyStr.rstrip s.
Proof.
  induction s as [|c s IH]; [reflexivity|]. rewrite (rstrip_cons c s).
  destruct (PyStr.rstrip s) as [|d r] eqn:Hr.
  - destruct (PyStr.isspace c) eqn:Hc; [reflexivity|].
    rewrite rstrip_cons. cbn [PyStr.rstrip]. rewrite Hc. reflexivity.
  - rewrite rstrip_cons, IH. reflexivity.
Qed.

Lemma lstrip_rstrip (s : string) :
  PyStr.lstrip (PyStr.rstrip s) = PyStr.rstrip (PyStr.lstrip s).
Proof.
  induction s as [|c s IH]; [reflexivity|]. rewrite (rstrip_cons c s). cbn [PyStr.lstrip].
  destruct (PyStr.isspace c) eqn:Hc.
  - rewrite <- IH. destruct (PyStr.rstrip s) as [|d r] eqn:Hr; [reflexivity|].
    cbn [PyStr.lstrip]. rewrite Hc. reflexivity.
  - rewrite (rstrip_cons c s).
    destruct (PyStr.rstrip s) as [|d r] eqn:Hr; cbn [PyStr.lstrip]; rewrite Hc; reflexivity.
Qed.

Lemma strip_idempotent (s : string) : PyStr.strip (PyStr.strip s) = PyStr.strip s.
Proof.
  unfold PyStr.strip.
  rewrite (lstrip_rstrip (PyStr.lstrip s)), lstrip_idempotent, rstrip_idempotent. reflexivity.
Qed.

Lemma strip_fixed (s : string) :
  PyStr.strip s = s -> PyStr.lstrip s = s /\ PyStr.rstrip s = s.
Proof.
  intros H. split.
  - rewrite <- H at 1. unfold PyStr.strip.
    rewrite lstrip_rstrip, lstrip_idempotent. exact H.
  - rewrite <- H at 1. unfold PyStr.strip. rewrite rstrip_idempotent. exact H.
Qed.

Lemma lstrip_length (s : string) : (String.length (PyStr.lstrip s) <= String.length s)%nat.
Proof.
  induction s as [|c s IH]; [reflexivity|]. cbn [PyStr.lstrip].
  destruct (PyStr.isspace c); cbn [String.length]; lia.
Qed.

(** A string that [lstrip] leaves alone is empty or starts with a
    character that is no white space. *)
Lemma lstrip_fixed_head (c : ascii) (s : string) :
  PyStr.lstrip (String c s) = String c s -> PyStr.isspace c = false.
Proof.
  cbn [PyStr.lstrip]. destruct (PyStr.isspace c); [|reflexivity].
  intros H. pose proof (lstrip_length s) as Hl. rewrite H in Hl. cbn [String.length] in Hl. lia.
Qed.

Lemma lstrip_append (a t : string) :
  PyStr.lstrip a = a -> a <> "" -> PyStr.lstrip (String.append a t) = String.append a t.
Proof.
  destruct a as [|c a]; [congruence|]. intros H _.
  apply lstrip_fixed_head in H. rewrite append_cons. cbn [PyStr.lstrip]. rewrite H. reflexivity.
Qed.

Lemma append_not_nil (a : string) (x : ascii) (b : string) :
  String.append a (String x b) <> "".
Proof. destruct a; [discriminate|]. rewrite append_cons. discriminate. Qed.

Lemma rstrip_append (a : string) (x : ascii) (b : string) :
  PyStr.isspace x = false ->
  PyStr.rstrip (String.append a (String x b)) = String.append a (String x (PyStr.rstrip b)).
Proof.
  intros Hx. induction a as [|c a IH].
  - change (String.append "" ?t) with t. rewrite rstrip_cons.
    destruct (PyStr.rstrip b); [rewrite Hx|]; reflexivity.
  - rewrite !append_cons, rstrip_cons, IH.
    destruct (String.append a (String x (PyStr.rstrip b))) eqn:He; [|reflexivity].
    exfalso. exact (append_not_nil _ _ _ He).
Qed.


Lemma truthy_spec (s : string) : PyStr.truthy s = true <-> s <> "".
Proof. destruct s; simpl; split; congruence. Qed.

(* ===================================================================== *)
(** * vpn_scanner.py: loading the credentials *)
(* ===================================================================== *)

(** The no-break space and NEL are white space for [strip], as in
    Python: a line that holds only such characters is blank. *)
Example strip_no_break_space :
  let nbsp := String (ascii_of_nat 160) "" in
  let nel := String (ascii_of_nat 133) "" in
  PyStr.strip (String.append nbsp (String.append "10.0.0.1" nel)) = "10.0.0.1"
  /\ Scanner.load_credentials [String.append nbsp Inputs.LF] = []
  /\ AG.creds [nbsp] = []
  /\ AG.creds [String.append nbsp "10.0.0.1;root;secret"] = [["10.0.0.1"; "root"; "secret"]].
Proof. vm_compute. repeat split. Qed.

(** X5 (loaded credentials). The list the scanner works through holds
    exactly the stripped texts of the lines that are not blank and do not
    start with [#] in their first column, in the order of the file; so
    every item is non-empty, has no white space at either end, and there
    are at most as many items as lines. *)
Theorem load_credentials_entries (ls : list string) :
  Forall (fun c => c <> "" /\ PyStr.strip c = c) (Scanner.load_credentials ls)
  /\ (length (Scanner.load_credentials ls) <= length ls)%nat
  /\ (forall c, In c (Scanner.load_credentials ls) <->
        exists line, In line ls /\ c = PyStr.strip line /\ PyStr.strip line <> ""
                     /\ PyStr.startswith line "#" = false)
  /\ (forall l1 l2, Scanner.load_credentials (l1 ++ l2)
                    = Scanner.load_credentials l1 ++ Scanner.load_credentials l2).
Proof.
  assert (Hin : forall c, In c (Scanner.load_credentials ls) <->
            exists line, In line ls /\ c = PyStr.strip line /\ PyStr.strip line <> ""
                         /\ PyStr.startswith line "#" = false).
  { intros c. unfold Scanner.load_credentials. rewrite in_map_iff. split.
    - intros (line & <- & Hl). apply filter_In in Hl as [Hl Hk].
      apply andb_true_iff in Hk as [Ht Hc]. apply negb_true_iff in Hc.
      apply truthy_spec in Ht. eauto.
    - intros (line & Hl & -> & Ht & Hc). exists line. split; [reflexivity|].
      apply filter_In. split; [exact Hl|]. apply andb_true_iff.
      split; [apply truthy_spec, Ht|apply negb_true_iff, Hc]. }
  split; [|split; [|split]].
  - apply List.Forall_forall. intros c Hc. apply Hin in Hc as (line & _ & -> & Ht & _).
    split; [exact Ht|apply strip_idempotent].
  - unfold Scanner.load_credentials. rewrite length_map. apply List.filter_length_le.
  - exact Hin.
  - intros l1 l2. unfold Scanner.load_credentials. rewrite List.filter_app, map_app.
    reflexivity.
Qed.

(* ===================================================================== *)
(** * aggregator.py: the worker hosts *)
(* ===================================================================== *)





(** X7 (host line round trip). A line [ip;user;secret] whose three fields
    hold no semicolon and no white space at their ends, and whose first
    field does not start with [#], gives back exactly these three fields,
    which [main] can unpack. A line with another number of fields gives a
    tuple that [main] cannot unpack. *)
Theorem creds_round_trip (ip user secret : string)
    (Hip : PyStr.free_of ";" ip = true) (Huser : PyStr.free_of ";" user = true)
    (Hsecret : PyStr.free_of ";" secret = true)
    (Sip : PyStr.strip ip = ip) (Suser : PyStr.strip user = user)
    (Ssecret : PyStr.strip secret = secret)
    (Hcomment : PyStr.startswith ip "#" = false) :
  AG.creds [PyStr.join ";" [ip; user; secret]] = [[ip; user; secret]]
  /\ map AG.unpack3 (AG.creds [PyStr.join ";" [ip; user; secret]]) = [Some (ip, user, secret)]
  /\ map AG.unpack3 (AG.creds [PyStr.join ";" [ip; user]]) = [None].
Proof.
  assert (Hrs : forall a b : string, PyStr.rstrip b = b ->
            PyStr.rstrip (String.append a (String ";" b)) = String.append a (String ";" b)).
  { intros a b Hb. rewrite rstrip_append by reflexivity. rewrite Hb. reflexivity. }
  assert (Hls : forall t : string,
            PyStr.lstrip (String.append ip (String ";" t)) = String.append ip (String ";" t)).
  { intros t. destruct ip as [|c r] eqn:Hi; [reflexivity|]. rewrite <- Hi in *.
    apply lstrip_append; [apply strip_fixed, Sip|congruence]. }
  assert (Hst : forall t : string, PyStr.rstrip t = t ->
            PyStr.strip (String.append ip (String ";" t)) = String.append ip (String ";" t)).
  { intros t Ht. unfold PyStr.strip. rewrite Hls. apply Hrs, Ht. }
  assert (Hnc : forall t : string,
            PyStr.startswith (String.append ip (String ";" t)) "#" = false).
  { intros t. destruct ip as [|c r]; [reflexivity|]. rewrite append_cons.
    cbn [PyStr.startswith] in *. destruct (Ascii.eqb "#" c); [|reflexivity].
    destruct r; discriminate Hcomment. }
  assert (Hne : forall t : string, PyStr.truthy (String.append ip (String ";" t)) = true).
  { intros t. apply truthy_spec, append_not_nil. }
  assert (H3 : AG.creds [PyStr.join ";" [ip; user; secret]] = [[ip; user; secret]]).
  { unfold AG.creds. cbn [PyStr.join map].
    rewrite !append_char.
    rewrite Hst by (apply Hrs, strip_fixed, Ssecret).
    cbn [List.filter]. rewrite Hne, Hnc. cbn [andb negb map].
    rewrite (split_append ";" ip _ Hip), (split_append ";" user _ Huser),
      (split_free ";" secret Hsecret).
    cbn [map]. rewrite Sip, Suser, Ssecret. reflexivity. }
  split; [exact H3|]. split; [rewrite H3; reflexivity|].
  unfold AG.creds. cbn [PyStr.join map].
  rewrite !append_char.
  rewrite Hst by (apply strip_fixed, Suser).
  cbn [List.filter]. rewrite Hne, Hnc. cbn [andb negb map].
  rewrite (split_append ";" ip _ Hip), (split_free ";" user Huser). reflexivity.
Qed.

Lemma creds_round_trip_witness :
  AG.creds ["10.0.0.1;root;secret"] = [["10.0.0.1"; "root"; "secret"]]
  /\ map AG.unpack3 (AG.creds ["10.0.0.1;root"]) = [None].
Proof.
  destruct (creds_round_trip "10.0.0.1" "root" "secret"
              eq_refl eq_refl eq_refl eq_refl eq_refl eq_refl eq_refl) as (H1 & _ & H3).
  split; [exact H1|exact H3].
Defined.

(* ===================================================================== *)
(** * Both aggregators: the uptime of the status line *)
(* ===================================================================== *)

(** The value the test of the repository expects for one hour, one
    minute and one second; below zero the hours carry the sign. *)
Example human_3661 :
  AG.human (Qc_of_Z 3661) = "01:01:01" /\ AR.human_time (Q2Qc (7323 # 2)) = "01:01:01"
  /\ AG.human (Qc_of_Z 360000) = "100:00:00" /\ AG.human (Qc_of_Z (-1)) = "-1:59:59".
Proof. vm_compute. repeat split. Qed.

(** X8 (uptime). [human] and [human_time] are the same function: they
    split the whole seconds of their argument into hours, minutes and
    seconds with [hours * 3600 + minutes * 60 + seconds] equal to the
    whole seconds, minutes and seconds between 0 and 59 for every
    argument, also a negative one, and hours not negative when the
    argument is not; the text is the three numbers, each on two digits at
    least, with colons between them. *)
Theorem human_splits_seconds (sec : Qc) :
  exists h m s : Z,
    AG.human_fields sec = (h, m, s)
    /\ (h * 3600 + m * 60 + s = py_int sec)%Z
    /\ (0 <= m < 60)%Z /\ (0 <= s < 60)%Z
    /\ ((0 <= py_int sec)%Z -> (0 <= h)%Z)
    /\ AG.human sec
       = String.append (two_digits h)
           (String.append ":" (String.append (two_digits m) (String.append ":" (two_digits s))))
    /\ AR.human_time sec = AG.human sec.
Proof.
  unfold AG.human, AR.human_time, AG.human_fields, divmod.
  set (n := py_int sec).
  exists ((n / 60) / 60)%Z, ((n / 60) mod 60)%Z, (n mod 60)%Z.
  split; [reflexivity|].
  pose proof (Z.div_mod n 60 ltac:(lia)) as H1.
  pose proof (Z.div_mod (n / 60) 60 ltac:(lia)) as H2.
  pose proof (Z.mod_pos_bound n 60 ltac:(lia)) as H3.
  pose proof (Z.mod_pos_bound (n / 60) 60 ltac:(lia)) as H4.
  split; [lia|]. split; [lia|]. split; [lia|]. split.
  - intros Hn. apply Z.div_pos; [|lia]. apply Z.div_pos; lia.
  - split; reflexivity.
Qed.

(* ===================================================================== *)
(** * aggregator.py: the status line is always computed *)
(* ===================================================================== *)





(* ===================================================================== *)
(** * aggregator.py: what stops the loop *)
(* ===================================================================== *)

Lemma sum_get_is_some (k : string) (docs : list document) : forall acc r,
  AG.sum_get k acc docs = Some r ->
  Forall (fun doc => exists d, doc = DObj d /\ d !! k <> Some VOther) docs.
Proof.
  induction docs as [|doc docs IH]; intros acc r H; [constructor|].
  destruct doc as [d|]; [|discriminate H]. cbn [AG.sum_get] in H.
  destruct (add_value acc (get d k (VNum (PInt 0)))) as [acc'|] eqn:Ha; [|discriminate H].
  constructor; [|exact (IH _ _ H)].
  exists d. split; [reflexivity|]. intros Hk. unfold get in Ha. rewrite Hk in Ha.
  discriminate Ha.
Qed.

Lemma cycle_some_tot (start : Qc) (total_lines : Z) (hosts : list AG.host) (now : Qc) v :
  AG.cycle start total_lines hosts now = Some v ->
  forall k, In k COUNTER_KEYS -> is_Some (AG.tot (concat (map AG.collect hosts)) k).
Proof.
  unfold AG.cycle. intros H k Hk.
  destruct (AG.tot _ "processed") as [p|] eqn:Hp; [|discriminate H].
  cbn [mbind option_bind] in H.
  destruct (py_div _ (Qc_of_Z total_lines)); [|discriminate H]. cbn [mbind option_bind] in H.
  destruct (py_div _ _); [|discriminate H]. cbn [mbind option_bind] in H.
  destruct (AG.tot _ "goods") eqn:Hg; [|discriminate H]. cbn [mbind option_bind] in H.
  destruct (AG.tot _ "bads") eqn:Hb; [|discriminate H]. cbn [mbind option_bind] in H.
  destruct (AG.tot _ "errors") eqn:He; [|discriminate H]. cbn [mbind option_bind] in H.
  destruct (AG.tot _ "offline") eqn:Ho; [|discriminate H]. cbn [mbind option_bind] in H.
  destruct (AG.tot _ "ipblock") eqn:Hi; [|discriminate H].
  simpl in Hk.
  destruct Hk as [<-|[<-|[<-|[<-|[<-|[<-|[]]]]]]]; eauto.
Qed.

(** X10 (what stops aggregator.py). A stats file that holds valid JSON
    which is not an object, or an object with a value that is no number
    under one of the six counter keys, is not passed over: [tot] raises on
    it, nothing catches the exception, and the loop ends without a status
    line for this cycle or any later one. *)
Theorem bad_document_stops_the_loop
    (start : Qc) (total_lines : Z) (hosts : list AG.host) (now : Qc)
    (rest : list (list AG.host * Qc))
    (Hbad : In DOther (concat (map AG.collect hosts))
            \/ exists d k, In (DObj d) (concat (map AG.collect hosts))
                           /\ In k COUNTER_KEYS /\ d !! k = Some VOther) :
  AG.cycle start total_lines hosts now = None
  /\ AG.main_loop start total_lines ((hosts, now) :: rest) = [].
Proof.
  assert (Hc : AG.cycle start total_lines hosts now = None).
  { destruct (AG.cycle start total_lines hosts now) as [v|] eqn:Hv; [exfalso|reflexivity].
    pose proof (cycle_some_tot _ _ _ _ _ Hv) as Htot.
    destruct Hbad as [Hin|(d & k & Hin & Hk & Hd)].
    - destruct (Htot "processed" ltac:(simpl; auto 10)) as [r Hr].
      apply sum_get_is_some in Hr. rewrite List.Forall_forall in Hr.
      destruct (Hr _ Hin) as (d & Hd & _). discriminate Hd.
    - destruct (Htot k Hk) as [r Hr].
      apply sum_get_is_some in Hr. rewrite List.Forall_forall in Hr.
      destruct (Hr _ Hin) as (d' & Hd' & Hne). injection Hd' as <-. contradiction. }
  split; [exact Hc|]. cbn [AG.main_loop]. rewrite Hc. reflexivity.
Qed.

Lemma bad_document_stops_the_loop_witness :
  AG.main_loop (Qc_of_Z 0) 10
    [([AG.Listing [("stats_1.json", Parsed DOther)]], Qc_of_Z 1);
     (Inputs.two_hosts, Qc_of_Z 6)] = [].
Proof.
  apply (bad_document_stops_the_loop (Qc_of_Z 0) 10
           [AG.Listing [("stats_1.json", Parsed DOther)]] (Qc_of_Z 1)
           [(Inputs.two_hosts, Qc_of_Z 6)]).
  left. simpl. auto.
Defined.

(* ===================================================================== *)
(** * aggregator_refactored.py: what a cycle keeps and what it recomputes *)
(* ===================================================================== *)

Lemma process_file_frame acc1 acc2 f :
  AR.l_stats acc1 = AR.l_stats acc2 -> AR.l_active acc1 = AR.l_active acc2 ->
  AR.l_stats (AR.process_file acc1 f) = AR.l_stats (AR.process_file acc2 f)
  /\ AR.l_active (AR.process_file acc1 f) = AR.l_active (AR.process_file acc2 f).
Proof.
  intros Hs Ha. unfold AR.process_file.
  destruct (AR.content f) as [| |[d|]]; auto.
  destruct (AR.age _ _) as [x|]; cbn [AR.l_stats AR.l_active]; rewrite ?Hs, ?Ha; auto.
Qed.

Lemma collect_loop_frame files : forall acc1 acc2,
  AR.l_stats acc1 = AR.l_stats acc2 -> AR.l_active acc1 = AR.l_active acc2 ->
  AR.l_stats (fold_left AR.process_file files acc1)
  = AR.l_stats (fold_left AR.process_file files acc2)
  /\ AR.l_active (fold_left AR.process_file files acc1)
     = AR.l_active (fold_left AR.process_file files acc2).
Proof.
  induction files as [|f files IH]; intros acc1 acc2 Hs Ha; [auto|].
  cbn [fold_left]. destruct (process_file_frame acc1 acc2 f Hs Ha). apply IH; assumption.
Qed.

Lemma set_total_start_time c v st : AR.start_time (AR.set_total c v st) = AR.start_time st.
Proof. reflexivity. Qed.

Lemma add_counters_start_time cs : forall st ss,
  AR.start_time (AR.add_counters cs st ss) = AR.start_time st.
Proof.
  induction cs as [|c cs IH]; intros st ss; [reflexivity|]. cbn [AR.add_counters].
  destruct (add_value _ _); [|reflexivity]. rewrite IH. reflexivity.
Qed.

Lemma collect_loop_start_time files : forall acc,
  AR.start_time (AR.l_stats (fold_left AR.process_file files acc))
  = AR.start_time (AR.l_stats acc).
Proof.
  induction files as [|f files IH]; intros acc; [reflexivity|]. cbn [fold_left].
  rewrite IH. unfold AR.process_file.
  destruct (AR.content f) as [| |[d|]]; try reflexivity.
  destruct (AR.age _ _); [|reflexivity]. cbn [AR.l_stats]. apply add_counters_start_time.
Qed.

Lemma collect_loop_stored files key : forall acc,
  AR.l_server_stats (fold_left AR.process_file files acc) !! key
  = AR.stored key files (AR.l_server_stats acc !! key).
Proof.
  induction files as [|f files IH]; intros acc; [reflexivity|].
  cbn [fold_left AR.stored]. rewrite IH, process_file_registry.
  destruct (snapshot_of (AR.content f)) as [d|]; [|reflexivity].
  destruct (String.eqb_spec (AR.ip_of f) key) as [->|Hne].
  - rewrite lookup_insert_eq. reflexivity.
  - rewrite lookup_insert_ne by exact Hne. reflexivity.
Qed.

Lemma stored_absorbs key files :
  (forall prev, AR.stored key files prev = prev)
  \/ (exists v, forall prev, AR.stored key files prev = Some v).
Proof.
  induction files as [|f files IH]; [left; reflexivity|]. cbn [AR.stored].
  destruct IH as [IH|[v IH]]; [|right; exists v; intros prev; apply IH].
  destruct (snapshot_of (AR.content f)) as [d|]; [|left; intros prev; apply IH].
  destruct (String.eqb (AR.ip_of f) key).
  - right. eexists. intros prev. rewrite IH. reflexivity.
  - left. intros prev. apply IH.
Qed.

(** X11 (a cycle starts from scratch). Every counter of a cycle, [rps] and
    [active_servers] included, is what a new aggregator with the same
    start time would compute from the same files: nothing of an earlier
    cycle is added in, and [start_time] is kept. Polling the same files
    again gives the same aggregator: counters do not pile up from cycle to
    cycle. Only [server_stats] is carried over: under each key it holds
    the record of the last readable file of that name, or what it held
    before the cycle. *)
Theorem cycle_starts_from_scratch (a : AR.aggregator) (files : list AR.stats_file) :
  let a' := AR.collect_stats a files in
  let fresh := AR.collect_stats (AR.new_aggregator (AR.start_time (AR.stats a))) files in
  (AR.goods (AR.stats a') = AR.goods (AR.stats fresh)
   /\ AR.bads (AR.stats a') = AR.bads (AR.stats fresh)
   /\ AR.errors (AR.stats a') = AR.errors (AR.stats fresh)
   /\ AR.offline (AR.stats a') = AR.offline (AR.stats fresh)
   /\ AR.ipblock (AR.stats a') = AR.ipblock (AR.stats fresh)
   /\ AR.processed (AR.stats a') = AR.processed (AR.stats fresh)
   /\ AR.rps (AR.stats a') = AR.rps (AR.stats fresh)
   /\ AR.active_servers (AR.stats a') = AR.active_servers (AR.stats fresh))
  /\ AR.start_time (AR.stats a') = AR.start_time (AR.stats a)
  /\ (forall key, AR.server_stats a' !! key = AR.stored key files (AR.server_stats a !! key))
  /\ AR.collect_stats a' files = a'.
Proof.
  intros a' fresh.
  set (acc := {| AR.l_stats := AR.fresh_stats (AR.start_time (AR.stats a));
                 AR.l_server_stats := AR.server_stats a; AR.l_active := ∅ |}).
  set (acc0 := {| AR.l_stats := AR.fresh_stats (AR.start_time (AR.stats a));
                  AR.l_server_stats := ∅; AR.l_active := ∅ |}).
  destruct (collect_loop_frame files acc acc0 eq_refl eq_refl) as [Hs Ha].
  assert (Ht : AR.start_time (AR.stats a') = AR.start_time (AR.stats a)).
  { subst a'. unfold AR.collect_stats, AR.collect_loop. cbn [AR.stats AR.start_time].
    fold acc. rewrite collect_loop_start_time. reflexivity. }
  assert (Hreg : forall key,
            AR.server_stats a' !! key = AR.stored key files (AR.server_stats a !! key)).
  { intros key. subst a'. unfold AR.collect_stats, AR.collect_loop. cbn [AR.server_stats].
    fold acc. rewrite collect_loop_stored. reflexivity. }
  split; [|split; [exact Ht|split; [exact Hreg|]]].
  - subst a' fresh. unfold AR.collect_stats, AR.collect_loop, AR.new_aggregator.
    cbn [AR.stats AR.server_stats AR.start_time AR.fresh_stats
         AR.goods AR.bads AR.errors AR.offline AR.ipblock AR.processed AR.rps
         AR.active_servers].
    fold acc acc0. rewrite Hs, Ha. repeat split.
  - set (acc' := {| AR.l_stats := AR.fresh_stats (AR.start_time (AR.stats a'));
                    AR.l_server_stats := AR.server_stats a'; AR.l_active := ∅ |}).
    assert (Hsame : AR.l_stats acc' = AR.l_stats acc) by (subst acc' acc; cbn [AR.l_stats]; f_equal; exact Ht).
    destruct (collect_loop_frame files acc' acc Hsame eq_refl) as [Hs' Ha'].
    assert (Hr : AR.l_server_stats (fold_left AR.process_file files acc')
                 = AR.l_server_stats (fold_left AR.process_file files acc)).
    { apply map_eq. intros key. rewrite !collect_loop_stored.
      subst acc'. cbn [AR.l_server_stats]. rewrite Hreg. subst acc. cbn [AR.l_server_stats].
      destruct (stored_absorbs key files) as [H|[v H]]; rewrite !H; reflexivity. }
    unfold AR.collect_stats at 1. unfold AR.collect_loop. fold acc'.
    rewrite Hs', Ha', Hr. reflexivity.
Qed.

Lemma size_list_to_set_bound (l : list string) :
  (size (list_to_set l : gset string) <= length l)%nat.
Proof.
  induction l as [|x l IH]; cbn [list_to_set length].
  - rewrite size_empty. lia.
  - rewrite size_union_alt, size_singleton.
    pose proof (subseteq_size (list_to_set l ∖ {[x]}) (list_to_set l : gset string)
                  ltac:(set_solver)).
    lia.
Qed.

(** X12 (servers and active servers). After every cycle, from every
    aggregator state and for every list of files: [servers] is the size of
    [server_stats]; every worker counted active is registered, so
    [active_servers <= servers]; no worker registered before the cycle is
    dropped by it, so [servers] never goes down from one cycle to the
    next; and a cycle adds at most one worker per file. *)
Theorem active_servers_at_most_servers (a : AR.aggregator) (files : list AR.stats_file) :
  let a' := AR.collect_stats a files in
  AR.servers (AR.stats a') = size (AR.server_stats a')
  /\ (AR.active_servers (AR.stats a') <= AR.servers (AR.stats a'))%nat
  /\ dom (AR.server_stats a) ⊆ dom (AR.server_stats a')
  /\ (size (AR.server_stats a) <= AR.servers (AR.stats a'))%nat
  /\ (AR.servers (AR.stats a') <= size (AR.server_stats a) + length files)%nat.
Proof.
  intros a'. subst a'. unfold AR.collect_stats, AR.collect_loop.
  cbn [AR.stats AR.server_stats AR.servers AR.active_servers].
  set (acc := {| AR.l_stats := AR.fresh_stats (AR.start_time (AR.stats a));
                 AR.l_server_stats := AR.server_stats a; AR.l_active := ∅ |}).
  pose proof (collect_loop_registry_dom files acc) as Hdom.
  pose proof (collect_loop_active files acc) as Hact.
  cbn [AR.l_server_stats AR.l_active] in Hdom, Hact.
  set (reg := AR.l_server_stats (fold_left AR.process_file files acc)) in *.
  set (act := AR.l_active (fold_left AR.process_file files acc)) in *.
  assert (Hsub : act ⊆ dom reg).
  { rewrite Hact, Hdom. intros x Hx. apply elem_of_union in Hx as [Hx|Hx]; [set_solver|].
    apply elem_of_union_r. apply elem_of_list_to_set, list_elem_of_In in Hx.
    apply elem_of_list_to_set, list_elem_of_In. apply active_ips_among_snapshot_ips, Hx. }
  split; [reflexivity|]. split; [|split; [|split]].
  - rewrite <- size_dom. apply subseteq_size, Hsub.
  - rewrite Hdom. set_solver.
  - rewrite <- !size_dom. apply subseteq_size. rewrite Hdom. set_solver.
  - rewrite <- !(size_dom _ (D := gset string)), Hdom. subst acc. cbn [AR.l_server_stats].
    rewrite size_union_alt. apply Nat.add_le_mono_l.
    etransitivity; [apply subseteq_size, subseteq_difference_l; reflexivity|].
    etransitivity; [apply size_list_to_set_bound|].
    rewrite length_map. apply List.filter_length_le.
Qed.





(* ===================================================================== *)
(** * From the scanner's dump to the aggregator's totals *)
(* ===================================================================== *)

Lemma scanner_snapshot_fields (s : Scanner.Stats) (rps : pynum) :
  snapshot_ok (PB.scanner_snapshot s rps) = true
  /\ int_field (PB.scanner_snapshot s rps) "goods" = Scanner.goods s
  /\ int_field (PB.scanner_snapshot s rps) "bads" = Scanner.bads s
  /\ int_field (PB.scanner_snapshot s rps) "errors" = Scanner.errors s
  /\ int_field (PB.scanner_snapshot s rps) "offline" = Scanner.offline s
  /\ int_field (PB.scanner_snapshot s rps) "ipblock" = Scanner.ipblock s
  /\ int_field (PB.scanner_snapshot s rps) "processed" = Scanner.processed s
  /\ PB.scanner_snapshot s rps !! "timestamp" = None.
Proof.
  unfold snapshot_ok, int_field, int_or_absent, num_or_absent, COUNTER_KEYS,
    PB.scanner_snapshot. cbn [forallb].
  repeat (rewrite ?lookup_insert_eq; rewrite ?lookup_insert_ne by discriminate).
  rewrite lookup_empty. repeat split.
Qed.

(** X14 (from the scanners' dumps to the totals). Let every stats file be
    the dict a worker running vpn_scanner.py dumps, whatever its [rps]
    and whenever it is read. Then every file is a well-typed snapshot, and
    each of the six counters of the aggregate is the sum of that counter
    over the workers: what the scanners count is what the aggregator
    reports, from any earlier state of the aggregator. *)
Theorem scanner_dumps_are_summed
    (a : AR.aggregator) (workers : list (string * Scanner.Stats * pynum * Qc * Qc)) :
  let files := map (fun '(stem, s, rps, c1, c2) => AR.dumped_by_scanner stem s rps c1 c2)
                   workers in
  let st := AR.stats (AR.collect_stats a files) in
  let total (counter : Scanner.Stats -> Z) :=
    foldr Z.add 0%Z (map (fun '(_, s, _, _, _) => counter s) workers) in
  Forall (fun f => well_formed (AR.content f) = true) files
  /\ AR.goods st = PInt (total Scanner.goods)
  /\ AR.bads st = PInt (total Scanner.bads)
  /\ AR.errors st = PInt (total Scanner.errors)
  /\ AR.offline st = PInt (total Scanner.offline)
  /\ AR.ipblock st = PInt (total Scanner.ipblock)
  /\ AR.processed st = PInt (total Scanner.processed).
Proof.
  intros files st total.
  assert (Hwf : Forall (fun f => well_formed (AR.content f) = true) files).
  { subst files. apply List.Forall_forall. intros f Hf.
    apply in_map_iff in Hf as ([[[[stem s] rps] c1] c2] & <- & _).
    cbn [AR.dumped_by_scanner AR.content well_formed].
    apply (scanner_snapshot_fields s rps). }
  assert (Hwt : Forall (fun f => well_typed (AR.content f) = true) files).
  { eapply List.Forall_impl; [|exact Hwf]. intros f. cbv beta.
    destruct (AR.content f) as [| |[d|]]; auto. }
  assert (Hsum : forall k counter,
            (forall s rps, int_field (PB.scanner_snapshot s rps) k = counter s) ->
            sum_int k (map AR.content files) = total counter).
  { intros k counter Hk. subst st files total. cbv beta. clear Hwf Hwt.
    induction workers as [|[[[[stem s] rps] c1] c2] ws IH]; [reflexivity|].
    cbn [map sum_int foldr AR.dumped_by_scanner AR.content snapshot_of].
    rewrite Hk, IH. reflexivity. }
  destruct (collect_stats_totals a files Hwt) as (Hg & Hb & He & Ho & Hi & Hp & _).
  cbv zeta in *. fold st in Hg, Hb, He, Ho, Hi, Hp.
  split; [exact Hwf|].
  rewrite Hg, Hb, He, Ho, Hi, Hp.
  rewrite (Hsum "goods" Scanner.goods) by (intros; apply scanner_snapshot_fields).
  rewrite (Hsum "bads" Scanner.bads) by (intros; apply scanner_snapshot_fields).
  rewrite (Hsum "errors" Scanner.errors) by (intros; apply scanner_snapshot_fields).
  rewrite (Hsum "offline" Scanner.offline) by (intros; apply scanner_snapshot_fields).
  rewrite (Hsum "ipblock" Scanner.ipblock) by (intros; apply scanner_snapshot_fields).
  rewrite (Hsum "processed" Scanner.processed) by (intros; apply scanner_snapshot_fields).
  repeat split.
Qed.
